(** * Periodic temporal patterns: a shallow embedding of
    [periodic_patterns_v2.py] and [kernel_density.py].

    Numbers.  Python floats are idealised as exact rationals kept in lowest
    terms (every arithmetic result goes through [Qred]), so that equality of
    values is Leibniz equality.  The infinities that initialise the running
    extrema are the extra constructors of [Float.ext].  The idealisation
    has a domain: the numbers are finite floats (neither [nan] nor an
    infinity) and ints that a float can hold, and results are exact where
    the interpreter rounds to 53 bits.  Statements below are made where
    rounding changes a result by rounding only; nothing is stated about
    which side of a whole number, or of the modulo, a rounded result falls
    on.

    Collaborators.  scikit-learn's [KernelDensity] and the float power
    operator are not part of the repository: the fitted density and the
    power are the two fields of the class [Numerics], and the conditions
    under which [fit] raises are written out in [kernel_density.fit].
    Lists, tuples and numpy arrays are told apart ([pyseq]): arithmetic is
    element-wise on an array and raises [TypeError] on the other two.

    Effects.  Methods that mutate [self] are computations in the monad [M]:
    they return a result or an exception together with the object as the
    method left it, so the mutations made before a [raise] stay visible. *)

From Stdlib Require Import ZArith QArith Qround Qreduction Qabs List String Bool.
From Stdlib Require Import Lia Lqa Permutation.
Import ListNotations.
Local Open Scope Z_scope.

(* ================================================================== *)
(** ** Python values and exceptions *)

(** The values given to the dynamically typed parameters: [None], an
    int, a finite float, a string. *)
Inductive pyval : Type :=
| VNone
| VInt (z : Z)
| VFloat (q : Q)
| VStr (s : string).

(** The exception classes the two modules can raise.  [TypeError] and
    [ValueError] carry the arguments given at the [raise]; the messages of
    the errors raised by the interpreter itself are not modelled. *)
Inductive exn : Type :=
| TypeError (args : list pyval)
| ValueError (args : list pyval)
| AssertionError
| ZeroDivisionError
| OverflowError
| IndexError.

Definition is_TypeError (e : exn) : bool :=
  match e with TypeError _ => true | _ => false end.

(** The sequences of floats the program passes around.  A list, a tuple
    and a numpy array may hold the same items without behaving alike: [%],
    [-] and [+] with a number raise [TypeError] on a list or a tuple where
    they map over an array, and a list never equals a tuple. *)
Inductive pyseq : Type :=
| PyList (l : list Q)
| PyTuple (l : list Q)
| NdArray (l : list Q).

Definition items (s : pyseq) : list Q :=
  match s with
  | PyList l | PyTuple l | NdArray l => l
  end.

(* ================================================================== *)
(** ** Floats *)

Module Float.

Definition add (x y : Q) : Q := Qred (x + y).
Definition sub (x y : Q) : Q := Qred (x - y).
Definition mul (x y : Q) : Q := Qred (x * y).
Definition div (x y : Q) : Q := Qred (x / y).
Definition of_Z (z : Z) : Q := inject_Z z.

Definition eqb (x y : Q) : bool := Qeq_bool x y.
Definition leb (x y : Q) : bool := Qle_bool x y.
Definition ltb (x y : Q) : bool := negb (Qle_bool y x).

(** [divmod(x, y)]: the quotient is the floor of [x / y] and the remainder
    takes the sign of [y].  Both are exact here; the interpreter rounds,
    and a rounded remainder can reach [y] itself
    ([divmod(-1e-20, 1) == (-1.0, 1.0)]). *)
Definition divmod (x y : Q) : Z * Q :=
  let quotient := Qfloor (x / y) in
  (quotient, Qred (x - inject_Z quotient * y)).

(** [x % y] *)
Definition modulo (x y : Q) : Q := snd (divmod x y).

(** [sum(l)]: starts from [0] and adds from the left. *)
Definition sum (l : list Q) : Q := fold_left add l 0%Q.

(** Floats with [nan] and the two infinities. *)
Inductive ext : Type :=
| NaN
| NegInf
| Fin (q : Q)
| PosInf.

Definition ext_ltb (a b : ext) : bool :=
  match a, b with
  | NaN, _ | _, NaN => false
  | NegInf, NegInf => false
  | NegInf, _ => true
  | Fin _, NegInf => false
  | Fin x, Fin y => ltb x y
  | Fin _, PosInf => true
  | PosInf, _ => false
  end.

(** [a >= b] *)
Definition ext_geb (a b : ext) : bool :=
  match a, b with
  | NaN, _ | _, NaN => false
  | _, _ => negb (ext_ltb a b)
  end.

(** [min(a, b)] returns [a] unless [b < a]; [max(a, b)] returns [a]
    unless [b > a]. *)
Definition ext_min (a b : ext) : ext := if ext_ltb b a then b else a.
Definition ext_max (a b : ext) : ext := if ext_ltb a b then b else a.

Definition ext_sub (a b : ext) : ext :=
  match a, b with
  | NaN, _ | _, NaN => NaN
  | PosInf, PosInf | NegInf, NegInf => NaN
  | PosInf, _ | _, NegInf => PosInf
  | NegInf, _ | _, PosInf => NegInf
  | Fin x, Fin y => Fin (sub x y)
  end.

(** Division by a finite non-zero float.  (Python raises
    [ZeroDivisionError] for a zero divisor; the only divisor in this
    program is a pattern's [modulo], which [__post_init__] has checked.) *)
Definition ext_div (a : ext) (y : Q) : ext :=
  match a with
  | NaN => NaN
  | Fin x => Fin (div x y)
  | PosInf => if ltb 0 y then PosInf else NegInf
  | NegInf => if ltb 0 y then NegInf else PosInf
  end.

End Float.

(* ================================================================== *)
(** ** Builtins on lists and dicts *)

(** [range(n)] *)
Definition range (n : Z) : list Z := map Z.of_nat (seq 0 (Z.to_nat n)).

(** [len(l)] *)
Definition len {A} (l : list A) : Z := Z.of_nat (List.length l).

(** [sorted(l)]: a stable sort that only uses [<]. *)
Fixpoint insert_sorted {A} (ltb : A -> A -> bool) (x : A) (l : list A) : list A :=
  match l with
  | [] => [x]
  | y :: l' => if ltb x y then x :: l else y :: insert_sorted ltb x l'
  end.

Definition sorted {A} (ltb : A -> A -> bool) (l : list A) : list A :=
  fold_left (fun acc x => insert_sorted ltb x acc) l [].

(** [l[-1]] on a non-empty list *)
Definition last_opt {A} (l : list A) : option A :=
  match rev l with
  | [] => None
  | x :: _ => Some x
  end.

(** [bisect.bisect_left(l, x)]: the first index whose element is not
    smaller than [x]. *)
Fixpoint bisect_left (l : list Q) (x : Q) : Z :=
  match l with
  | [] => 0
  | y :: l' => if Float.ltb y x then 1 + bisect_left l' x else 0
  end.

(** A dict is an association list in insertion order. *)
Definition dict (K V : Type) : Type := list (K * V).

Definition keys {K V} (d : dict K V) : list K := map fst d.

Fixpoint dict_get {K V} (eqb : K -> K -> bool) (k : K) (d : dict K V) : option V :=
  match d with
  | [] => None
  | (k', v) :: d' => if eqb k k' then Some v else dict_get eqb k d'
  end.

Definition dict_mem {K V} (eqb : K -> K -> bool) (k : K) (d : dict K V) : bool :=
  match dict_get eqb k d with Some _ => true | None => false end.

(** [d[k] = v] *)
Fixpoint dict_set {K V} (eqb : K -> K -> bool) (k : K) (v : V) (d : dict K V) : dict K V :=
  match d with
  | [] => [(k, v)]
  | (k', v') :: d' =>
      if eqb k k' then (k', v) :: d' else (k', v') :: dict_set eqb k v d'
  end.

(** [d.setdefault(k, []).append(x)] *)
Fixpoint setdefault_append {K V} (eqb : K -> K -> bool) (k : K) (x : V)
    (d : dict K (list V)) : dict K (list V) :=
  match d with
  | [] => [(k, [x])]
  | (k', l) :: d' =>
      if eqb k k' then (k', l ++ [x]) :: d'
      else (k', l) :: setdefault_append eqb k x d'
  end.

(** [d.setdefault(k, set()).add(x)] *)
Definition set_add (x : Z) (s : list Z) : list Z :=
  if existsb (Z.eqb x) s then s else s ++ [x].

Fixpoint setdefault_add {K} (eqb : K -> K -> bool) (k : K) (x : Z)
    (d : dict K (list Z)) : dict K (list Z) :=
  match d with
  | [] => [(k, [x])]
  | (k', s) :: d' =>
      if eqb k k' then (k', set_add x s) :: d'
      else (k', s) :: setdefault_add eqb k x d'
  end.

(* ================================================================== *)
(** ** Computations that mutate an object and may raise *)

Definition M (S A : Type) : Type := S -> (exn + A) * S.

Definition ret {S A} (a : A) : M S A := fun s => (inr a, s).

Definition bind {S A B} (m : M S A) (k : A -> M S B) : M S B :=
  fun s =>
    match m s with
    | (inl e, s') => (inl e, s')
    | (inr a, s') => k a s'
    end.

Definition raise {S A} (e : exn) : M S A := fun s => (inl e, s).

Definition get {S} : M S S := fun s => (inr s, s).

Definition modify {S} (f : S -> S) : M S unit := fun s => (inr tt, f s).

(** A call that cannot touch the object. *)
Definition lift {S A} (r : exn + A) : M S A := fun s => (r, s).

(** Run a method of a field of the object. *)
Definition zoom {S T A} (proj : T -> S) (upd : S -> T -> T) (m : M S A) : M T A :=
  fun t => let (r, s') := m (proj t) in (r, upd s' t).

(** [for x in l: body(x)] *)
Fixpoint for_each {S A} (l : list A) (body : A -> M S unit) : M S unit :=
  match l with
  | [] => ret tt
  | x :: l' => bind (body x) (fun _ => for_each l' body)
  end.

(** [[f(x) for x in l]] *)
Fixpoint map_m {S A B} (f : A -> M S B) (l : list A) : M S (list B) :=
  match l with
  | [] => ret []
  | x :: l' => bind (f x) (fun y => bind (map_m f l') (fun ys => ret (y :: ys)))
  end.

(** A computation keeps an invariant of the object, also when it raises. *)
Definition preserves {S A} (I : S -> Prop) (m : M S A) : Prop :=
  forall s, I s -> I (snd (m s)).

Declare Scope py_scope.
Delimit Scope py_scope with py.
Notation "x <- m ;; k" := (bind m (fun x => k))
  (at level 61, m at next level, right associativity) : py_scope.
Notation "m ;;; k" := (bind m (fun _ => k))
  (at level 61, right associativity) : py_scope.

(** The same sequencing for calls that only return or raise. *)
Definition rbind {A B} (r : exn + A) (k : A -> exn + B) : exn + B :=
  match r with
  | inl e => inl e
  | inr a => k a
  end.

(* ================================================================== *)
(** ** External numerics *)

(** [density kernel bandwidth sample x] is
    [exp(KernelDensity(kernel, bandwidth).fit(sample).score_samples([x]))]
    where the fit succeeds (see [kernel_density.fit] for where it raises);
    [pow x y] is the float [x ** y]. *)
Class Numerics : Type := {
  density : string -> Q -> list Q -> Q -> Q;
  pow : Q -> Q -> Q
}.

(* ================================================================== *)
(** ** kernel_density.py *)

Module kernel_density.
Section WithNumerics.
Context `{Numerics}.

(** [np.linspace(start, stop, num)]: [num] evenly spaced samples over the
    closed interval. *)
Definition linspace (start stop : Q) (num : Z) : list Q :=
  if num =? 1 then [start]
  else
    let step := Float.div (Float.sub stop start) (Float.of_Z (num - 1)) in
    map (fun i => Float.add start (Float.mul (Float.of_Z i) step)) (range num).

(** The kernels [KernelDensity] knows. *)
Definition VALID_KERNELS : list string :=
  ["gaussian"; "tophat"; "epanechnikov"; "exponential"; "linear"; "cosine"]%string.

(** [KernelDensity(kernel=kernel, bandwidth=bandwidth).fit(xs)] on the rows
    [xs]: scikit-learn raises [ValueError] for a kernel it does not know,
    for a bandwidth that is not positive and for a sample without rows;
    otherwise the estimator is fitted, and the function returned stands
    for [exp(score_samples(.))]. *)
Definition fit (kernel : string) (bandwidth : Q) (xs : list Q) : exn + (Q -> Q) :=
  if negb (existsb (String.eqb kernel) VALID_KERNELS) then inl (ValueError [])
  else if negb (Float.ltb 0 bandwidth) then inl (ValueError [])
  else if len xs =? 0 then inl (ValueError [])
  else inr (density kernel bandwidth xs).

Definition plot_kde (xs : list Q) (min_val max_val : Q) (kernel : string)
    (bandwidth : option Q) (n_samples : Z) : exn + (list Q * list Q) :=
  if negb (Float.ltb min_val max_val) then inl AssertionError
  else if negb (0 <? n_samples) then inl AssertionError
  else
    (* default bandwidth will be 3% of the overall width *)
    let bandwidth :=
      match bandwidth with
      | None => Float.mul (Float.sub max_val min_val) (3 # 100)
      | Some b => b
      end in
    (* fit kde kernel *)
    rbind (fit kernel bandwidth xs) (fun kde =>
    (* plot kde *)
    let kde_xs := linspace min_val max_val n_samples in
    let kde_ys := map kde kde_xs in
    inr (kde_xs, kde_ys)).

(** [xs % modulo] maps over a numpy array; on a list or a tuple the
    operator is not defined and the interpreter raises [TypeError]. *)
Definition plot_kde_modulo (xs : pyseq) (modulo : Q) (kernel : string)
    (bandwidth : option Q) (n_samples : Z) : exn + (list Q * list Q) :=
  if negb (0 <? n_samples) then inl AssertionError
  else
    match xs with
    | PyList _ | PyTuple _ => inl (TypeError [])
    | NdArray xs =>
        let xs_mod := map (fun x => Float.modulo x modulo) xs in
        let xs_extended :=
          map (fun x => Float.sub x modulo) xs_mod
            ++ xs_mod
            ++ map (fun x => Float.add x modulo) xs_mod in
        rbind (plot_kde xs_extended 0 modulo kernel bandwidth (n_samples + 1))
          (fun '(kde_xs, kde_ys) => inr (removelast kde_xs, removelast kde_ys))
    end.

End WithNumerics.
End kernel_density.

(** [dot_product(vec_1, vec_2)] *)
Definition dot_product (vec_1 vec_2 : list Q) : Q :=
  Float.sum (map (fun '(x, y) => Float.mul x y) (combine vec_1 vec_2)).

(* ================================================================== *)
(** ** class ModuloPattern *)

Module ModuloPattern.

(** The arguments of the generated [__init__].  The three fields that
    [__post_init__] tests with [isinstance] are dynamically typed. *)
Record init_args : Type := {
  arg_name : pyval;
  arg_x_axis_labels : option (list string);
  arg_x_axis_name : pyval;
  arg_vector_dimension : pyval;
  arg_modulo : Q;
  arg_min_periods : Z;
  arg_min_items : Z
}.

(** The defaults of the dataclass fields. *)
Definition defaults (name : string) : init_args := {|
  arg_name := VStr name;
  arg_x_axis_labels := None;
  arg_x_axis_name := VNone;
  arg_vector_dimension := VInt 128;
  arg_modulo := 1;
  arg_min_periods := 4;
  arg_min_items := 12
|}.

Record t : Type := {
  name : string;
  x_axis_labels : option (list string);
  x_axis_name : option string;
  vector_dimension : Z;
  modulo : Q;
  min_periods : Z;
  min_items : Z;
  (* min, max, fractional parts *)
  min : Float.ext;
  max : Float.ext;
  remainders : list Q;
  _remainders : dict Q (list pyval);
  _quotients : dict Z (list pyval);
  (* cached values *)
  __kde : dict Z (list Q * list Q);
  __vector : pyseq
}.

Definition set_min (v : Float.ext) (p : t) : t :=
  {| name := name p; x_axis_labels := x_axis_labels p; x_axis_name := x_axis_name p;
     vector_dimension := vector_dimension p; modulo := modulo p;
     min_periods := min_periods p; min_items := min_items p;
     min := v; max := max p; remainders := remainders p;
     _remainders := _remainders p; _quotients := _quotients p;
     __kde := __kde p; __vector := __vector p |}.

Definition set_max (v : Float.ext) (p : t) : t :=
  {| name := name p; x_axis_labels := x_axis_labels p; x_axis_name := x_axis_name p;
     vector_dimension := vector_dimension p; modulo := modulo p;
     min_periods := min_periods p; min_items := min_items p;
     min := min p; max := v; remainders := remainders p;
     _remainders := _remainders p; _quotients := _quotients p;
     __kde := __kde p; __vector := __vector p |}.

Definition set_remainders (v : list Q) (p : t) : t :=
  {| name := name p; x_axis_labels := x_axis_labels p; x_axis_name := x_axis_name p;
     vector_dimension := vector_dimension p; modulo := modulo p;
     min_periods := min_periods p; min_items := min_items p;
     min := min p; max := max p; remainders := v;
     _remainders := _remainders p; _quotients := _quotients p;
     __kde := __kde p; __vector := __vector p |}.

Definition set__remainders (v : dict Q (list pyval)) (p : t) : t :=
  {| name := name p; x_axis_labels := x_axis_labels p; x_axis_name := x_axis_name p;
     vector_dimension := vector_dimension p; modulo := modulo p;
     min_periods := min_periods p; min_items := min_items p;
     min := min p; max := max p; remainders := remainders p;
     _remainders := v; _quotients := _quotients p;
     __kde := __kde p; __vector := __vector p |}.

Definition set__quotients (v : dict Z (list pyval)) (p : t) : t :=
  {| name := name p; x_axis_labels := x_axis_labels p; x_axis_name := x_axis_name p;
     vector_dimension := vector_dimension p; modulo := modulo p;
     min_periods := min_periods p; min_items := min_items p;
     min := min p; max := max p; remainders := remainders p;
     _remainders := _remainders p; _quotients := v;
     __kde := __kde p; __vector := __vector p |}.

Definition set___kde (v : dict Z (list Q * list Q)) (p : t) : t :=
  {| name := name p; x_axis_labels := x_axis_labels p; x_axis_name := x_axis_name p;
     vector_dimension := vector_dimension p; modulo := modulo p;
     min_periods := min_periods p; min_items := min_items p;
     min := min p; max := max p; remainders := remainders p;
     _remainders := _remainders p; _quotients := _quotients p;
     __kde := v; __vector := __vector p |}.

Definition set___vector (v : pyseq) (p : t) : t :=
  {| name := name p; x_axis_labels := x_axis_labels p; x_axis_name := x_axis_name p;
     vector_dimension := vector_dimension p; modulo := modulo p;
     min_periods := min_periods p; min_items := min_items p;
     min := min p; max := max p; remainders := remainders p;
     _remainders := _remainders p; _quotients := _quotients p;
     __kde := __kde p; __vector := v |}.

(** [ModuloPattern(...)]: the generated [__init__] stores the arguments
    and the field defaults, then runs [__post_init__]; the object exists
    only if that returns. *)
Definition new (a : init_args) : exn + t :=
  (* check name *)
  rbind
    match arg_name a with
    | VStr s => if (String.length s =? 0)%nat then inl (ValueError [arg_name a]) else inr s
    | v => inl (TypeError [v])
    end (fun name =>
  (* check x_axis_name *)
  rbind
    match arg_x_axis_name a with
    | VNone => inr None
    | VStr s => if (String.length s =? 0)%nat then inr None else inr (Some s)
    | v => inl (TypeError [v])
    end (fun x_axis_name =>
  (* check labels: [str] of a string is the string *)
  let x_axis_labels := option_map (map (fun s : string => s)) (arg_x_axis_labels a) in
  (* check modulo *)
  if Float.eqb (arg_modulo a) 0 then inl (ValueError [VStr "modulo must not be zero"])
  else
    (* check vector dimension *)
    match arg_vector_dimension a with
    | VInt d =>
        if 0 <? d then
          inr {| name := name; x_axis_labels := x_axis_labels;
                 x_axis_name := x_axis_name; vector_dimension := d;
                 modulo := arg_modulo a; min_periods := arg_min_periods a;
                 min_items := arg_min_items a;
                 min := Float.PosInf; max := Float.NegInf; remainders := [];
                 _remainders := []; _quotients := [];
                 __kde := []; __vector := PyList [] |}
        else inl (TypeError [VStr "vector dimension must be a positive integer, got "; VInt d])
    | v => inl (TypeError [VStr "vector dimension must be a positive integer, got "; v])
    end)).

(** The number a value stands for in a comparison with a float;
    [min(value, self.min)] raises [TypeError] for the others.  ([VFloat]
    holds the finite floats: [add] also accepts [nan] and the infinities,
    which this model does not hold, and an int that no float can hold
    makes the arithmetic of the interpreter raise [OverflowError] where it
    meets a float.) *)
Definition as_number (value : pyval) : exn + Q :=
  match value with
  | VInt z => inr (Float.of_Z z)
  | VFloat q => inr q
  | VNone | VStr _ => inl (TypeError [])
  end.

Definition add (value : pyval) (item : pyval) : M t unit :=
  (* reset kde and vector *)
  (modify (set___kde []) ;;;
   modify (set___vector (PyTuple [])) ;;;
   self <- get ;;
   v <- lift (as_number value) ;;
   modify (set_min (Float.ext_min (Float.Fin v) (min self))) ;;;
   modify (set_max (Float.ext_max (Float.Fin v) (max self))) ;;;
   (* add item *)
   let '(quotient, remainder) := Float.divmod v (modulo self) in
   modify (fun p => set_remainders (remainders p ++ [remainder]) p) ;;;
   modify (fun p => set__quotients (setdefault_append Z.eqb quotient item (_quotients p)) p) ;;;
   modify (fun p => set__remainders (setdefault_append Float.eqb remainder item (_remainders p)) p))%py.

(** Total here; in the interpreter the subtraction and the division raise
    [OverflowError] on an int that no float can hold, and a [nan] among
    the extrema gives [0.0]. *)
Definition n_periods (self : t) : Float.ext :=
  Float.ext_max (Float.Fin 0) (Float.ext_div (Float.ext_sub (max self) (min self)) (modulo self)).

Definition is_valid (self : t) : bool :=
  Float.ext_geb (n_periods self) (Float.Fin (Float.of_Z (min_periods self)))
  && (min_items self <=? len (remainders self)).

(** The loop of [consecutive] over the sorted keys, with its two
    variables [out] and [buffer]. *)
Fixpoint consecutive_loop (min_length : Z) (qs : list Z)
    (out : list (list Z)) (buffer : list Z) : list (list Z) :=
  match qs with
  | [] => out
  | quotient :: qs' =>
      match last_opt buffer with
      | None => consecutive_loop min_length qs' out (buffer ++ [quotient])
      | Some b =>
          if quotient - 1 =? b then
            consecutive_loop min_length qs' out (buffer ++ [quotient])
          else if negb (quotient =? b) then
            consecutive_loop min_length qs'
              (if min_length <=? len buffer then out ++ [buffer] else out) []
          else consecutive_loop min_length qs' out buffer
      end
  end.

Definition consecutive (self : t) (min_length : Z) : list (list Z) :=
  consecutive_loop min_length (sorted Z.ltb (keys (_quotients self))) [] [].

Section WithNumerics.
Context `{Numerics}.

(** [kde] hands [self.remainders], a list, to [plot_kde_modulo]. *)
Definition kde (dim : Z) : M t (list Q * list Q) :=
  (self <- get ;;
   match dict_get Z.eqb dim (__kde self) with
   | Some curve => ret curve
   | None =>
       curve <- lift (kernel_density.plot_kde_modulo
                        (PyList (remainders self)) 1 "gaussian" None dim) ;;
       modify (fun p => set___kde (dict_set Z.eqb dim curve (__kde p)) p) ;;;
       ret curve
   end)%py.

Definition vector : M t (list Q) :=
  (self <- get ;;
   if negb (len (items (__vector self)) =? vector_dimension self) then
     curve <- kde (vector_dimension self) ;;
     let kde_ys := snd curve in
     let vector_length :=
       pow (Float.sum (map (fun elem => pow elem 2) kde_ys)) (1 # 2) in
     (* [elem / vector_length] for each [elem] *)
     if Float.eqb vector_length 0 && negb (len kde_ys =? 0)
     then raise ZeroDivisionError
     else
       modify (set___vector
                 (PyTuple (map (fun elem => Float.div elem vector_length) kde_ys))) ;;;
       self' <- get ;;
       ret (items (__vector self'))
   else ret (items (__vector self)))%py.

Definition likelihood (value : Q) : M t Q :=
  (self <- get ;;
   let '(quotient, remainder) := Float.divmod value (modulo self) in
   curve <- kde 1000 ;;
   if len (fst curve) =? 0 then raise ZeroDivisionError
   else
     let idx := bisect_left (fst curve) remainder mod len (fst curve) in
     match nth_error (snd curve) (Z.to_nat idx) with
     | Some y => ret y
     | None => raise IndexError
     end)%py.

End WithNumerics.
End ModuloPattern.

(* ================================================================== *)
(** ** The standard library's [datetime] *)

Module datetime.

(** [tzinfo] is [None] on a naive value and a fixed offset from UTC, in
    seconds, on an aware one. *)
Record t : Type := {
  year : Z;
  month : Z;
  day : Z;
  hour : Z;
  minute : Z;
  second : Z;
  microsecond : Z;
  tzinfo : option Z
}.

Definition MAXYEAR : Z := 9999.

(** [datetime.timezone.utc] *)
Definition utc : option Z := Some 0.

Definition replace_tzinfo (tz : option Z) (d : t) : t :=
  {| year := year d; month := month d; day := day d; hour := hour d;
     minute := minute d; second := second d; microsecond := microsecond d;
     tzinfo := tz |}.

(** [d.replace(hour=0, minute=0, second=0, microsecond=0)] *)
Definition replace_midnight (d : t) : t :=
  {| year := year d; month := month d; day := day d; hour := 0;
     minute := 0; second := 0; microsecond := 0; tzinfo := tzinfo d |}.

(** [d.replace(day=1, hour=0, minute=0, second=0, microsecond=0)] *)
Definition replace_month_start (d : t) : t :=
  {| year := year d; month := month d; day := 1; hour := 0;
     minute := 0; second := 0; microsecond := 0; tzinfo := tzinfo d |}.

(** [d.replace(month=1, day=1, hour=0, minute=0, second=0, microsecond=0)] *)
Definition replace_year_start (d : t) : t :=
  {| year := year d; month := 1; day := 1; hour := 0;
     minute := 0; second := 0; microsecond := 0; tzinfo := tzinfo d |}.

(** [d.replace(year=y)] on a first of January: [ValueError] outside the
    supported years. *)
Definition replace_year (y : Z) (d : t) : exn + t :=
  if (1 <=? y) && (y <=? MAXYEAR) then
    inr {| year := y; month := month d; day := day d; hour := hour d;
           minute := minute d; second := second d; microsecond := microsecond d;
           tzinfo := tzinfo d |}
  else inl (ValueError []).

Definition is_leap (y : Z) : bool :=
  (y mod 4 =? 0) && (negb (y mod 100 =? 0) || (y mod 400 =? 0)).

Definition days_in_month (y m : Z) : Z :=
  if m =? 2 then (if is_leap y then 29 else 28)
  else if (m =? 4) || (m =? 6) || (m =? 9) || (m =? 11) then 30
  else 31.

Definition days_before_year (y : Z) : Z :=
  let y := y - 1 in y * 365 + y / 4 - y / 100 + y / 400.

Definition days_before_month (y m : Z) : Z :=
  fold_left Z.add (map (fun i => days_in_month y (i + 1)) (range (m - 1))) 0.

(** [d.toordinal()]: the first of January of year 1 is day 1. *)
Definition toordinal (d : t) : Z :=
  days_before_year (year d) + days_before_month (year d) (month d) + day d.

(** [d.weekday()]: Monday is 0. *)
Definition weekday (d : t) : Z := (toordinal d + 6) mod 7.

(** Microseconds of the wall clock since the start of day 0. *)
Definition wall_microseconds (d : t) : Z :=
  (((toordinal d * 24 + hour d) * 60 + minute d) * 60 + second d) * 1000000
  + microsecond d.

Definition utcoffset (d : t) : Z :=
  match tzinfo d with
  | Some off => off
  | None => 0
  end.

(** Microseconds since day 0 of the instant an aware value denotes. *)
Definition utc_microseconds (d : t) : Z :=
  wall_microseconds d - utcoffset d * 1000000.

(** [(a - b).total_seconds()] for two values that are both naive or both
    aware. *)
Definition sub_total_seconds (a b : t) : Q :=
  Float.div (Float.of_Z (utc_microseconds a - utc_microseconds b)) 1000000.

(** [d.timestamp()] of an aware value: [(d - _EPOCH).total_seconds()],
    the epoch being ordinal 719163 at midnight UTC. *)
Definition timestamp (d : t) : Q :=
  Float.div (Float.of_Z (utc_microseconds d - 719163 * 86400 * 1000000)) 1000000.

(** [datetime.timedelta(seconds=s).days] *)
Definition timedelta_days (s : Q) : Z := Qfloor (s / 86400).

(** [(d + datetime.timedelta(days=35)).replace(day=1)] on a first of the
    month: thirty-five days later is in the following month, so the result
    is the first of that month; the addition raises [OverflowError] when
    it leaves year [MAXYEAR]. *)
Definition next_month_start (d : t) : exn + t :=
  if month d =? 12 then
    if MAXYEAR <=? year d then inl OverflowError
    else inr {| year := year d + 1; month := 1; day := 1; hour := hour d;
                minute := minute d; second := second d;
                microsecond := microsecond d; tzinfo := tzinfo d |}
  else inr {| year := year d; month := month d + 1; day := 1; hour := hour d;
              minute := minute d; second := second d;
              microsecond := microsecond d; tzinfo := tzinfo d |}.

Definition is_aware (d : t) : bool :=
  match tzinfo d with Some _ => true | None => false end.

(** [a < b] between two naive or two aware values. *)
Definition ltb (a b : t) : bool := utc_microseconds a <? utc_microseconds b.

(** [sorted(l)]: comparing a naive value with an aware one raises
    [TypeError]; a list of at most one element is not compared at all. *)
Definition sorted_datetimes (l : list t) : exn + list t :=
  if (len l <=? 1) || forallb is_aware l || forallb (fun d => negb (is_aware d)) l
  then inr (sorted ltb l)
  else inl (TypeError []).

(** What [datetime] guarantees of every value it constructs. *)
Definition valid (d : t) : Prop :=
  1 <= year d <= MAXYEAR /\ 1 <= month d <= 12
  /\ 1 <= day d <= days_in_month (year d) (month d)
  /\ 0 <= hour d < 24 /\ 0 <= minute d < 60 /\ 0 <= second d < 60
  /\ 0 <= microsecond d < 1000000.

(** Two values that show the same wall clock, whatever their zones. *)
Definition same_wall_clock (a b : t) : Prop :=
  replace_tzinfo None a = replace_tzinfo None b.

(** Two aware values that denote the same instant. *)
Definition same_instant (a b : t) : Prop :=
  is_aware a = true /\ is_aware b = true /\ utc_microseconds a = utc_microseconds b.

End datetime.

(* ================================================================== *)
(** ** The calendar phase functions *)

Definition days_of_week : list string :=
  ["Monday"; "Tuesday"; "Wednesday"; "Thursday"; "Friday"; "Saturday"; "Sunday"]%string.

Definition timestamp_hour_of_day_of_week_of_month (timestamp : datetime.t)
    : Z * Z * Z * string :=
  (* nth 7-day-period of month (starts at 1) *)
  let n := (datetime.day timestamp + 1) / 7 + 1 in
  (* n-th full week of month (starts at 1, can be 0) *)
  let full_week := (datetime.day timestamp + 6 - datetime.weekday timestamp) / 7 in
  (* day of week (starts at Monday) *)
  let day_of_week :=
    nth (Z.to_nat (datetime.weekday timestamp)) days_of_week EmptyString in
  (datetime.hour timestamp, n, full_week, day_of_week).

(** The sum of the day count and the fraction is exact here; in the
    interpreter [timestamp.timestamp()] and the sum are rounded, and at the
    last microseconds of a day far from the epoch the rounded value is a
    whole number of days. *)
Definition timestamp_day (timestamp : datetime.t) : Q :=
  let _start := datetime.replace_midnight timestamp in
  let day_fraction :=
    Float.div (datetime.sub_total_seconds timestamp _start) 86400 in
  let day_since_epoch := datetime.timedelta_days (datetime.timestamp timestamp) in
  Float.add (Float.of_Z day_since_epoch) day_fraction.

Definition timestamp_week (timestamp : datetime.t) : Q :=
  let '(quotient, remainder) := Float.divmod (timestamp_day timestamp) 1 in
  let week_fraction :=
    Float.div (Float.add (Float.of_Z (datetime.weekday timestamp)) remainder) 7 in
  let week_since_epoch := (quotient + 3) / 7 in
  Float.add (Float.of_Z week_since_epoch) week_fraction.

Definition timestamp_two_week (timestamp : datetime.t) : Q :=
  let '(quotient, remainder) := Float.divmod (timestamp_day timestamp) 1 in
  let two_week_fraction :=
    Float.div (Float.add (Float.of_Z ((quotient + 3) mod 14)) remainder) 14 in
  let two_week_since_epoch := (quotient + 3) / 14 in
  Float.add (Float.of_Z two_week_since_epoch) two_week_fraction.

(** Exact here; the interpreter rounds the sum, which at the end of a
    month far from the epoch is the next whole number. *)
Definition _timestamp_month (timestamp : datetime.t) : exn + Q :=
  let _start := datetime.replace_month_start timestamp in
  rbind (datetime.next_month_start _start) (fun _end =>
  let month_fraction :=
    Float.div (datetime.sub_total_seconds timestamp _start)
              (datetime.sub_total_seconds _end _start) in
  let month_since_epoch :=
    (datetime.year timestamp - 1970) * 12 + datetime.month timestamp - 1 in
  inr (Float.add (Float.of_Z month_since_epoch) month_fraction)).

Definition timestamp_n_month (timestamp : datetime.t) (n : Z) : exn + Q :=
  rbind (_timestamp_month timestamp) (fun m =>
  let '(quotient, remainder) := Float.divmod m 1 in
  let n_month_fraction :=
    Float.div (Float.add (Float.of_Z (quotient mod n)) remainder) (Float.of_Z n) in
  let n_month_since_epoch := quotient / n in
  inr (Float.add (Float.of_Z n_month_since_epoch) n_month_fraction)).

(** Exact here; the interpreter rounds the sum, which at the end of a
    year far from the epoch is the next whole number. *)
Definition _timestamp_year (timestamp : datetime.t) : exn + Q :=
  let _start := datetime.replace_year_start timestamp in
  rbind (datetime.replace_year (datetime.year timestamp + 1) _start) (fun _end =>
  let year_fraction :=
    Float.div (datetime.sub_total_seconds timestamp _start)
              (datetime.sub_total_seconds _end _start) in
  let year_since_epoch := datetime.year timestamp - 1970 in
  inr (Float.add (Float.of_Z year_since_epoch) year_fraction)).

Definition timestamp_n_year (timestamp : datetime.t) (n : Z) : exn + Q :=
  rbind (_timestamp_year timestamp) (fun y =>
  let '(quotient, remainder) := Float.divmod y 1 in
  let n_year_fraction :=
    Float.div (Float.add (Float.of_Z (quotient mod n)) remainder) (Float.of_Z n) in
  let n_year_since_epoch := quotient / n in
  inr (Float.add (Float.of_Z n_year_since_epoch) n_year_fraction)).

(* ================================================================== *)
(** ** class TimeStampSetV2 *)

Module TimeStampSetV2.

Record t : Type := {
  (* all the timestamps will be indexed here *)
  timestamps : list datetime.t;
  (* n-th day of month, n-th week of month *)
  hour_day : dict (Z * string) (list Z);
  n_day : dict (Z * string) (list Z);
  n_week : dict (Z * string) (list Z);
  (* patterns *)
  day : ModuloPattern.t;
  week : ModuloPattern.t;
  two_week : ModuloPattern.t;
  month : ModuloPattern.t;
  two_month : ModuloPattern.t;
  three_month : ModuloPattern.t;
  six_month : ModuloPattern.t;
  year : ModuloPattern.t;
  two_year : ModuloPattern.t
}.

Definition set_index (ts : list datetime.t) (hd nd nw : dict (Z * string) (list Z))
    (s : t) : t :=
  {| timestamps := ts; hour_day := hd; n_day := nd; n_week := nw;
     day := day s; week := week s; two_week := two_week s; month := month s;
     two_month := two_month s; three_month := three_month s;
     six_month := six_month s; year := year s; two_year := two_year s |}.

Definition set_day (p : ModuloPattern.t) (s : t) : t :=
  {| timestamps := timestamps s; hour_day := hour_day s; n_day := n_day s;
     n_week := n_week s;
     day := p; week := week s; two_week := two_week s; month := month s;
     two_month := two_month s; three_month := three_month s;
     six_month := six_month s; year := year s; two_year := two_year s |}.

Definition set_week (p : ModuloPattern.t) (s : t) : t :=
  {| timestamps := timestamps s; hour_day := hour_day s; n_day := n_day s;
     n_week := n_week s;
     day := day s; week := p; two_week := two_week s; month := month s;
     two_month := two_month s; three_month := three_month s;
     six_month := six_month s; year := year s; two_year := two_year s |}.

Definition set_two_week (p : ModuloPattern.t) (s : t) : t :=
  {| timestamps := timestamps s; hour_day := hour_day s; n_day := n_day s;
     n_week := n_week s;
     day := day s; week := week s; two_week := p; month := month s;
     two_month := two_month s; three_month := three_month s;
     six_month := six_month s; year := year s; two_year := two_year s |}.

Definition set_month (p : ModuloPattern.t) (s : t) : t :=
  {| timestamps := timestamps s; hour_day := hour_day s; n_day := n_day s;
     n_week := n_week s;
     day := day s; week := week s; two_week := two_week s; month := p;
     two_month := two_month s; three_month := three_month s;
     six_month := six_month s; year := year s; two_year := two_year s |}.

Definition set_two_month (p : ModuloPattern.t) (s : t) : t :=
  {| timestamps := timestamps s; hour_day := hour_day s; n_day := n_day s;
     n_week := n_week s;
     day := day s; week := week s; two_week := two_week s; month := month s;
     two_month := p; three_month := three_month s;
     six_month := six_month s; year := year s; two_year := two_year s |}.

Definition set_three_month (p : ModuloPattern.t) (s : t) : t :=
  {| timestamps := timestamps s; hour_day := hour_day s; n_day := n_day s;
     n_week := n_week s;
     day := day s; week := week s; two_week := two_week s; month := month s;
     two_month := two_month s; three_month := p;
     six_month := six_month s; year := year s; two_year := two_year s |}.

Definition set_six_month (p : ModuloPattern.t) (s : t) : t :=
  {| timestamps := timestamps s; hour_day := hour_day s; n_day := n_day s;
     n_week := n_week s;
     day := day s; week := week s; two_week := two_week s; month := month s;
     two_month := two_month s; three_month := three_month s;
     six_month := p; year := year s; two_year := two_year s |}.

Definition set_year (p : ModuloPattern.t) (s : t) : t :=
  {| timestamps := timestamps s; hour_day := hour_day s; n_day := n_day s;
     n_week := n_week s;
     day := day s; week := week s; two_week := two_week s; month := month s;
     two_month := two_month s; three_month := three_month s;
     six_month := six_month s; year := p; two_year := two_year s |}.

Definition set_two_year (p : ModuloPattern.t) (s : t) : t :=
  {| timestamps := timestamps s; hour_day := hour_day s; n_day := n_day s;
     n_week := n_week s;
     day := day s; week := week s; two_week := two_week s; month := month s;
     two_month := two_month s; three_month := three_month s;
     six_month := six_month s; year := year s; two_year := p |}.

(** A reference to one of the nine pattern objects: how to read it in the
    set and how to write it back. *)
Definition ref : Type := (t -> ModuloPattern.t) * (ModuloPattern.t -> t -> t).

Definition on {A} (r : ref) (m : M ModuloPattern.t A) : M t A :=
  zoom (fst r) (snd r) m.

Definition day_ : ref := (day, set_day).
Definition week_ : ref := (week, set_week).
Definition two_week_ : ref := (two_week, set_two_week).
Definition month_ : ref := (month, set_month).
Definition two_month_ : ref := (two_month, set_two_month).
Definition three_month_ : ref := (three_month, set_three_month).
Definition six_month_ : ref := (six_month, set_six_month).
Definition year_ : ref := (year, set_year).
Definition two_year_ : ref := (two_year, set_two_year).

Definition labelled (name : string) (labels : list string) (axis : string)
    (periods items : Z) : ModuloPattern.init_args :=
  {| ModuloPattern.arg_name := VStr name;
     ModuloPattern.arg_x_axis_labels := Some labels;
     ModuloPattern.arg_x_axis_name := VStr axis;
     ModuloPattern.arg_vector_dimension := VInt 128;
     ModuloPattern.arg_modulo := 1;
     ModuloPattern.arg_min_periods := periods;
     ModuloPattern.arg_min_items := items |}.

Definition week_labels : list string :=
  ["Mon"; "Tue"; "Wed"; "Thu"; "Fri"; "Sat"; "Sun"]%string.

Definition year_labels : list string :=
  ["Jan"; "Feb"; "Mar"; "Apr"; "May"; "Jun";
   "Jul"; "Aug"; "Sep"; "Oct"; "Nov"; "Dec"]%string.

(** [TimeStampSetV2()] *)
Definition new : exn + t :=
  rbind (ModuloPattern.new (labelled "day"
    ["1am"; "2am"; "3am"; "4am"; "5am"; "6am"; "7am"; "8am"; "9am"; "10am";
     "11am"; "12nn"; "1pm"; "2pm"; "3pm"; "4pm"; "5pm"; "6pm"; "7pm"; "8pm";
     "9pm"; "10pm"; "11pm"; "12mn"]%string "hour" 0 12)) (fun day =>
  rbind (ModuloPattern.new (labelled "week" week_labels "day" 4 12)) (fun week =>
  rbind (ModuloPattern.new (labelled "fortnight" (week_labels ++ week_labels)
    "day" 12 12)) (fun two_week =>
  rbind (ModuloPattern.new (labelled "month" ["early"; "mid"; "late"]%string
    "10-day period" 4 12)) (fun month =>
  rbind (ModuloPattern.new (labelled "2-month" ["Odd"; "Even"]%string
    "month" 6 12)) (fun two_month =>
  rbind (ModuloPattern.new (labelled "quarter"
    ["Jan/May/Sep"; "Feb/Jun/Oct"; "Mar/Jul/Nov"; "Apr/Aug/Dec"]%string
    "month" 4 12)) (fun three_month =>
  rbind (ModuloPattern.new (labelled "6-month"
    ["Jan/Jul"; "Feb/Aug"; "Mar/Sep"; "Apr/Oct"; "May/Nov"; "Jun/Dec"]%string
    "month" 4 24)) (fun six_month =>
  rbind (ModuloPattern.new (labelled "year" year_labels "month" 4 (3 * 12)))
    (fun year =>
  rbind (ModuloPattern.new (labelled "2-year" (year_labels ++ year_labels)
    "month" 4 (6 * 12))) (fun two_year =>
  inr {| timestamps := []; hour_day := []; n_day := []; n_week := [];
         day := day; week := week; two_week := two_week; month := month;
         two_month := two_month; three_month := three_month;
         six_month := six_month; year := year; two_year := two_year |}))))))))).

Definition all_patterns : list ref :=
  [day_; week_; two_week_; month_; two_month_; three_month_; six_month_;
   year_; two_year_].

(** The property [_patterns]: references to the valid patterns. *)
Definition _patterns (self : t) : list ref :=
  filter (fun r => ModuloPattern.is_valid (fst r self)) all_patterns.

Definition key_eqb (a b : Z * string) : bool :=
  (fst a =? fst b) && String.eqb (snd a) (snd b).

(** The body of the loop of [add]. *)
Definition add1 (timestamp : datetime.t) : M t unit :=
  ((* replace timezone *)
   let timestamp := datetime.replace_tzinfo datetime.utc timestamp in
   (* add to index; the assertion on the appended element cannot fail *)
   self <- get ;;
   let timestamp_idx := len (timestamps self) in
   (* count *)
   let '(hour, n, full_week, day_of_week) :=
     timestamp_hour_of_day_of_week_of_month timestamp in
   modify (fun s =>
     set_index (timestamps s ++ [timestamp])
       (setdefault_add key_eqb (hour, day_of_week) timestamp_idx (hour_day s))
       (setdefault_add key_eqb (n, day_of_week) timestamp_idx (n_day s))
       (setdefault_add key_eqb (full_week, day_of_week) timestamp_idx (n_week s))
       s) ;;;
   (* modular patterns *)
   on day_ (ModuloPattern.add (VFloat (timestamp_day timestamp)) VNone) ;;;
   on week_ (ModuloPattern.add (VFloat (timestamp_week timestamp)) VNone) ;;;
   on two_week_ (ModuloPattern.add (VFloat (timestamp_two_week timestamp)) VNone) ;;;
   v <- lift (timestamp_n_month timestamp 1) ;;
   on month_ (ModuloPattern.add (VFloat v) VNone) ;;;
   v <- lift (timestamp_n_month timestamp 2) ;;
   on two_month_ (ModuloPattern.add (VFloat v) VNone) ;;;
   v <- lift (timestamp_n_month timestamp 3) ;;
   on three_month_ (ModuloPattern.add (VFloat v) VNone) ;;;
   v <- lift (timestamp_n_month timestamp 6) ;;
   on six_month_ (ModuloPattern.add (VFloat v) VNone) ;;;
   v <- lift (timestamp_n_year timestamp 1) ;;
   on year_ (ModuloPattern.add (VFloat v) VNone) ;;;
   v <- lift (timestamp_n_year timestamp 2) ;;
   on two_year_ (ModuloPattern.add (VFloat v) VNone))%py.

Definition add (timestamps : list datetime.t) : M t unit :=
  for_each timestamps add1.

Section WithNumerics.
Context `{Numerics}.

(** The power mean of exponent 0.1 that both aggregates end with.  (It is
    only applied to nine values or behind a test for emptiness, so the
    division by [len(xs)] cannot raise.) *)
Definition power_mean (xs : list Q) : Q :=
  pow (Float.div (Float.sum (map (fun x => pow x (1 # 10)) xs))
                 (Float.of_Z (len xs)))
      10.

(** The property [vectors]: the comprehension over [self._patterns]. *)
Fixpoint vectors_loop (rs : list ref) (d : dict string (list Q))
    : M t (dict string (list Q)) :=
  match rs with
  | [] => ret d
  | r :: rs' =>
      (self <- get ;;
       if ModuloPattern.is_valid (fst r self) then
         v <- on r ModuloPattern.vector ;;
         vectors_loop rs'
           (dict_set String.eqb (ModuloPattern.name (fst r self)) v d)
       else vectors_loop rs' d)%py
  end.

Definition vectors : M t (dict string (list Q)) :=
  (self <- get ;; vectors_loop (_patterns self) [])%py.

(** The likelihoods of one timestamp under the nine patterns. *)
Definition likelihoods1 (timestamp : datetime.t) : M t (list Q) :=
  ((* replace timezone *)
   let timestamp := datetime.replace_tzinfo datetime.utc timestamp in
   (* modular patterns *)
   x1 <- on day_ (ModuloPattern.likelihood (timestamp_day timestamp)) ;;
   x2 <- on week_ (ModuloPattern.likelihood (timestamp_week timestamp)) ;;
   x3 <- on two_week_ (ModuloPattern.likelihood (timestamp_two_week timestamp)) ;;
   v <- lift (timestamp_n_month timestamp 1) ;;
   x4 <- on month_ (ModuloPattern.likelihood v) ;;
   v <- lift (timestamp_n_month timestamp 2) ;;
   x5 <- on two_month_ (ModuloPattern.likelihood v) ;;
   v <- lift (timestamp_n_month timestamp 3) ;;
   x6 <- on three_month_ (ModuloPattern.likelihood v) ;;
   v <- lift (timestamp_n_month timestamp 6) ;;
   x7 <- on six_month_ (ModuloPattern.likelihood v) ;;
   v <- lift (timestamp_n_year timestamp 1) ;;
   x8 <- on year_ (ModuloPattern.likelihood v) ;;
   v <- lift (timestamp_n_year timestamp 2) ;;
   x9 <- on two_year_ (ModuloPattern.likelihood v) ;;
   ret [x1; x2; x3; x4; x5; x6; x7; x8; x9])%py.

Definition likelihood (timestamps : list datetime.t) : M t (list Q) :=
  (timestamps <- lift (datetime.sorted_datetimes timestamps) ;;
   timestamps_likelihoods <- map_m likelihoods1 timestamps ;;
   ret (map power_mean timestamps_likelihoods))%py.

(** [self.similarity(other)], the state being the pair of [self] and
    [other].  (When a set is compared with itself the two components are
    the same object; the value returned is that of the pair of copies.) *)
Definition similarity : M (t * t) (Q * Z) :=
  (other_vectors <- zoom snd (fun o so => (fst so, o)) vectors ;;
   self_vectors <- zoom fst (fun s so => (s, snd so)) vectors ;;
   let similarities :=
     flat_map (fun '(name, vector) =>
                 match dict_get String.eqb name other_vectors with
                 | Some other_vector => [dot_product vector other_vector]
                 | None => []
                 end) self_vectors in
   (* no similar vectors *)
   if len similarities =? 0 then ret (0%Q, 0)
   (* L(0.1) mean of all similarities *)
   else ret (power_mean similarities, len similarities))%py.

(** [kdes(dim)]: the comprehension over [self._patterns]. *)
Fixpoint kdes_loop (dim : Z) (rs : list ref) (d : dict string (list Q * list Q))
    : M t (dict string (list Q * list Q)) :=
  match rs with
  | [] => ret d
  | r :: rs' =>
      (self <- get ;;
       curve <- on r (ModuloPattern.kde dim) ;;
       kdes_loop dim rs'
         (dict_set String.eqb (ModuloPattern.name (fst r self)) curve d))%py
  end.

Definition kdes (dim : Z) : M t (dict string (list Q * list Q)) :=
  (self <- get ;; kdes_loop dim (_patterns self) [])%py.

End WithNumerics.

(** [consecutive(min_length)] and [fractions()]: comprehensions over
    [self._patterns] that only read the patterns. *)
Definition consecutive (self : t) (min_length : Z) : dict string (list (list Z)) :=
  fold_left
    (fun d (r : ref) =>
       dict_set String.eqb (ModuloPattern.name (fst r self))
         (ModuloPattern.consecutive (fst r self) min_length) d)
    (_patterns self) [].

Definition fractions (self : t) : dict string (list Q) :=
  fold_left
    (fun d (r : ref) =>
       dict_set String.eqb (ModuloPattern.name (fst r self))
         (sorted Float.ltb (ModuloPattern.remainders (fst r self))) d)
    (_patterns self) [].

End TimeStampSetV2.

(* ================================================================== *)
(** ** What the properties are stated with *)

(** Runs of consecutive integers, as the specification words them: the
    sorted distinct period indices are cut into maximal runs of consecutive
    integers and the runs shorter than [min_length] are dropped. *)
Module RunsSpec.

Fixpoint runs_from (run : list Z) (prev : Z) (qs : list Z) : list (list Z) :=
  match qs with
  | [] => [run]
  | q :: qs' =>
      if q =? prev + 1 then runs_from (run ++ [q]) q qs'
      else run :: runs_from [q] q qs'
  end.

Definition maximal_runs (qs : list Z) : list (list Z) :=
  match qs with
  | [] => []
  | q :: qs' => runs_from [q] q qs'
  end.

Definition consecutive_runs (min_length : Z) (sorted_indices : list Z)
    : list (list Z) :=
  filter (fun run => min_length <=? len run) (maximal_runs sorted_indices).

End RunsSpec.

Module PatternSpec.

Import ModuloPattern.

(** The conditions of the construction claim. *)
Definition name_is_empty (a : init_args) : Prop := arg_name a = VStr "".

Definition dimension_is_positive_int (a : init_args) : Prop :=
  exists d, arg_vector_dimension a = VInt d /\ 0 < d.

Definition modulo_is_zero (a : init_args) : Prop := (arg_modulo a == 0)%Q.

Definition well_formed (a : init_args) : Prop :=
  (exists s, arg_name a = VStr s /\ s <> EmptyString)
  /\ (arg_x_axis_name a = VNone \/ exists s, arg_x_axis_name a = VStr s)
  /\ ~ modulo_is_zero a
  /\ dimension_is_positive_int a.

Definition is_configuration_error (e : exn) : bool :=
  match e with
  | TypeError _ | ValueError _ => true
  | _ => false
  end.

(** A value [add] cannot take as a number. *)
Definition non_numeric (value : pyval) : Prop :=
  match value with
  | VNone | VStr _ => True
  | VInt _ | VFloat _ => False
  end.

(** The object with both caches emptied, as [add] leaves them. *)
Definition caches_cleared (p : t) : t := set___vector (PyTuple []) (set___kde [] p).

(** Two states of a pattern that differ in the caches at most. *)
Definition same_data (p p' : t) : Prop := caches_cleared p = caches_cleared p'.

(** The object after [add] has taken the number [x]. *)
Definition added (x : Q) (item : pyval) (p : t) : t :=
  let '(quotient, remainder) := Float.divmod x (modulo p) in
  set__remainders (setdefault_append Float.eqb remainder item (_remainders p))
    (set__quotients (setdefault_append Z.eqb quotient item (_quotients p))
      (set_remainders (remainders p ++ [remainder])
        (set_max (Float.ext_max (Float.Fin x) (max p))
          (set_min (Float.ext_min (Float.Fin x) (min p))
            (caches_cleared p))))).

(** The running extrema of a pattern: the infinities while it is empty,
    two finite bounds in order afterwards; the modulo is never zero. *)
Definition extrema_ok (p : t) : Prop :=
  ~ (modulo p == 0)%Q
  /\ match remainders p with
     | [] => min p = Float.PosInf /\ max p = Float.NegInf
     | _ :: _ =>
         exists lo hi,
           min p = Float.Fin lo /\ max p = Float.Fin hi /\ (lo <= hi)%Q
     end.

(** [max(0.0, d)] on finite floats. *)
Definition clamp (d : Q) : Q := if Float.ltb 0 d then d else 0%Q.

(** [p'] holds one observation more than [p]. *)
Definition received (p p' : t) : Prop :=
  exists r, remainders p' = remainders p ++ [r].

Section WithNumerics.
Context `{Numerics}.

(** The circular density curve as the specification words it: the
    estimator is fitted on the remainders together with their copies
    shifted by [-modulo] and [+modulo], with 3% of the domain width as
    bandwidth unless one is given, and evaluated at [n + 1] evenly spaced
    points spanning [[0, modulo]], the closing one dropped. *)
Definition evenly_spaced (lo hi : Q) (k : Z) : list Q :=
  map (fun i =>
         Float.add lo (Float.div (Float.mul (Float.of_Z i) (Float.sub hi lo))
                                 (Float.of_Z (k - 1))))
      (range k).

Definition sample_points (modulo : Q) (n : Z) : list Q :=
  removelast (evenly_spaced 0 modulo (n + 1)).

Definition extended_data (xs : list Q) (modulo : Q) : list Q :=
  let rs := map (fun x => Float.modulo x modulo) xs in
  rs ++ map (fun r => Float.sub r modulo) rs
     ++ map (fun r => Float.add r modulo) rs.

Definition circular_density (xs : list Q) (modulo : Q) (kernel : string)
    (bandwidth : option Q) (n : Z) : exn + (list Q * list Q) :=
  let width :=
    match bandwidth with
    | Some b => b
    | None => Float.mul (3 # 100) modulo
    end in
  rbind (kernel_density.fit kernel width (extended_data xs modulo))
    (fun estimator =>
       inr (sample_points modulo n, map estimator (sample_points modulo n))).

(** The estimator does not depend on the order of the sample. *)
Definition order_independent : Prop :=
  forall kernel bandwidth sample sample' x,
    Permutation sample sample' ->
    density kernel bandwidth sample x = density kernel bandwidth sample' x.

(** Both caches hold nothing. *)
Definition caches_empty (p : t) : Prop :=
  __kde p = [] /\ items (__vector p) = [].

(** The states a pattern can be in: built by the constructor, then used
    through its methods. *)
Inductive reachable : t -> Prop :=
| reach_new a p : new a = inr p -> reachable p
| reach_add value item p : reachable p -> reachable (snd (add value item p))
| reach_kde dim p : reachable p -> reachable (snd (kde dim p))
| reach_vector p : reachable p -> reachable (snd (vector p))
| reach_likelihood value p :
    reachable p -> reachable (snd (likelihood value p)).

End WithNumerics.
End PatternSpec.

Module SetSpec.

Import TimeStampSetV2.

(** The empty set [TimeStampSetV2()] returns. *)
Definition initial : t :=
  Eval vm_compute in
    match new as r return match r with inl _ => unit | inr _ => t end with
    | inl _ => tt
    | inr s => s
    end.

Definition pattern_names : list string :=
  ["day"; "week"; "fortnight"; "month"; "2-month"; "quarter"; "6-month";
   "year"; "2-year"]%string.

(** The configuration of a pattern: what no method changes. *)
Definition config (p : ModuloPattern.t) : string * Z * Q * Z * Z :=
  (ModuloPattern.name p, ModuloPattern.vector_dimension p,
   ModuloPattern.modulo p, ModuloPattern.min_periods p,
   ModuloPattern.min_items p).

Definition configured (s : t) : Prop :=
  map (fun r : ref => config (fst r s)) all_patterns
  = map (fun r : ref => config (fst r initial)) all_patterns.

Definition patterns (s : t) : list ModuloPattern.t :=
  map (fun r : ref => fst r s) all_patterns.

(** Two states of a set that differ in the caches of the patterns at
    most. *)
Definition same_data (s s' : t) : Prop :=
  forall r, In r all_patterns -> PatternSpec.same_data (fst r s) (fst r s').

(** The nine phase coordinates of a timestamp read as UTC wall clock, in
    routing order; an exception where the calendar arithmetic leaves the
    supported years. *)
Definition phases (timestamp : datetime.t) : list (exn + Q) :=
  let timestamp := datetime.replace_tzinfo datetime.utc timestamp in
  [inr (timestamp_day timestamp); inr (timestamp_week timestamp);
   inr (timestamp_two_week timestamp);
   timestamp_n_month timestamp 1; timestamp_n_month timestamp 2;
   timestamp_n_month timestamp 3; timestamp_n_month timestamp 6;
   timestamp_n_year timestamp 1; timestamp_n_year timestamp 2].

Definition phase_values (timestamp : datetime.t) : list Q :=
  map (fun r => match r with inr v => v | inl _ => 0%Q end) (phases timestamp).

(** A timestamp whose nine phases are all defined. *)
Definition in_range (timestamp : datetime.t) : Prop :=
  datetime.valid timestamp /\ datetime.year timestamp < datetime.MAXYEAR.

(** The invariant of a set: its nine patterns are configured as the
    constructor left them and their caches hold nothing. *)
Definition caches_empty (s : t) : Prop :=
  forall r, In r all_patterns -> PatternSpec.caches_empty (fst r s).

Definition invariant (s : t) : Prop := configured s /\ caches_empty s.

Section WithNumerics.
Context `{Numerics}.

(** The states a set can be in. *)
Inductive reachable : t -> Prop :=
| reach_new s : new = inr s -> reachable s
| reach_add batch s : reachable s -> reachable (snd (add batch s))
| reach_likelihood batch s : reachable s -> reachable (snd (likelihood batch s))
| reach_vectors s : reachable s -> reachable (snd (vectors s)).

End WithNumerics.
End SetSpec.

Module PatternLaws.

Import ModuloPattern.

(** The number of items a dict of lists holds. *)
Definition item_count {K V} (d : dict K (list V)) : Z :=
  fold_right (fun kv n => len (snd kv) + n) 0 d.

(** A non-empty ascending run of consecutive integers. *)
Fixpoint follows (a : Z) (l : list Z) : Prop :=
  match l with
  | [] => True
  | b :: l' => b = a + 1 /\ follows b l'
  end.

Definition is_run (l : list Z) : Prop :=
  match l with
  | [] => False
  | a :: l' => follows a l'
  end.

(** [add] of each number of a list in turn. *)
Definition add_each (values : list Q) : M t unit :=
  for_each values (fun v => add (VFloat v) VNone).

(** [y] is [x] moved by a whole number of periods [m]. *)
Definition shifted (m x y : Q) : Prop :=
  exists k : Z, y = Float.add x (Float.mul (Float.of_Z k) m).

(** The running extrema are the least and the greatest of the values
    seen. *)
Definition bounds_of (values : list Q) (p : t) : Prop :=
  match values with
  | [] => min p = Float.PosInf /\ max p = Float.NegInf
  | _ :: _ =>
      exists lo hi,
        min p = Float.Fin lo /\ max p = Float.Fin hi
        /\ In lo values /\ In hi values
        /\ Forall (fun x => (lo <= x)%Q /\ (x <= hi)%Q) values
  end.

(** The bandwidth [plot_kde] fits with. *)
Definition width_of (min_val max_val : Q) (bandwidth : option Q) : Q :=
  match bandwidth with
  | None => Float.mul (Float.sub max_val min_val) (3 # 100)
  | Some b => b
  end.

(** What [KernelDensity] refuses: a kernel it does not know, a bandwidth
    that is not positive, a sample without rows. *)
Definition refused (kernel : string) (width : Q) (xs : list Q) : Prop :=
  ~ In kernel kernel_density.VALID_KERNELS \/ ~ (0 < width)%Q \/ xs = [].

(** The largest finite float, and the numbers no larger in magnitude. *)
Definition float_max : Q := inject_Z ((2 ^ 53 - 1) * 2 ^ 971).

Definition in_float_range (x : Q) : Prop := (Qabs x <= float_max)%Q.

(** The extrema of a pattern and their difference are numbers a float can
    hold (or the infinities of the empty pattern). *)
Definition within_float_range (p : t) : Prop :=
  match min p, max p with
  | Float.Fin lo, Float.Fin hi =>
      in_float_range lo /\ in_float_range hi /\ in_float_range (hi - lo)
  | Float.PosInf, Float.NegInf => True
  | _, _ => False
  end.

(** The items filed under a key, none if the key is absent. *)
Definition items_at {K V} (eqb : K -> K -> bool) (k : K) (d : dict K (list V))
    : list V :=
  match dict_get eqb k d with
  | Some l => l
  | None => []
  end.

End PatternLaws.

(** ** Vocabulary for the calendar phases *)

Module CalendarLaws.

(** Microseconds of the wall clock since midnight. *)
Definition microsecond_of_day (d : datetime.t) : Z :=
  ((datetime.hour d * 60 + datetime.minute d) * 60 + datetime.second d) * 1000000
  + datetime.microsecond d.

(** Microseconds in a day. *)
Definition day_length : Z := 86400000000.

(** Months from January 1970 to the calendar month shown. *)
Definition month_index (d : datetime.t) : Z :=
  (datetime.year d - 1970) * 12 + datetime.month d - 1.

Definition days_in_year (y : Z) : Z := if datetime.is_leap y then 366 else 365.

(** Microseconds of the wall clock since the start of the month and of the
    year. *)
Definition elapsed_in_month (d : datetime.t) : Z :=
  (datetime.day d - 1) * day_length + microsecond_of_day d.

Definition elapsed_in_year (d : datetime.t) : Z :=
  (datetime.days_before_month (datetime.year d) (datetime.month d)
   + datetime.day d - 1) * day_length
  + microsecond_of_day d.

(** The part of a period of [days] days that [elapsed] microseconds are. *)
Definition share (elapsed days : Z) : Q :=
  Qred (inject_Z elapsed / inject_Z (days * day_length)).

End CalendarLaws.

(** ** Vocabulary for the log and the indices of a set *)

Module SetLaws.

Import TimeStampSetV2.

(** The positions an index holds, key after key. *)
Definition positions {K} (d : dict K (list Z)) : list Z := flat_map snd d.

(** The keys a timestamp is counted under in the three indices. *)
Definition hour_day_key (d : datetime.t) : Z * string :=
  let '(hour, n, full_week, day_of_week) :=
    timestamp_hour_of_day_of_week_of_month d in
  (hour, day_of_week).

Definition n_day_key (d : datetime.t) : Z * string :=
  let '(hour, n, full_week, day_of_week) :=
    timestamp_hour_of_day_of_week_of_month d in
  (n, day_of_week).

Definition n_week_key (d : datetime.t) : Z * string :=
  let '(hour, n, full_week, day_of_week) :=
    timestamp_hour_of_day_of_week_of_month d in
  (full_week, day_of_week).

(** An index files every position of the log once, each under the key of
    the timestamp at that position. *)
Definition files (key : datetime.t -> Z * string) (log : list datetime.t)
    (d : dict (Z * string) (list Z)) : Prop :=
  Permutation (positions d) (range (len log))
  /\ forall k l i,
       In (k, l) d -> In i l ->
       exists timestamp,
         nth_error log (Z.to_nat i) = Some timestamp /\ key timestamp = k.

(** The log holds UTC timestamps, the three indices file its positions,
    and no pattern holds more observations than the log has entries. *)
Definition bookkeeping (s : t) : Prop :=
  Forall (fun d => datetime.tzinfo d = datetime.utc) (timestamps s)
  /\ files hour_day_key (timestamps s) (hour_day s)
  /\ files n_day_key (timestamps s) (n_day s)
  /\ files n_week_key (timestamps s) (n_week s)
  /\ forall r : ref,
       In r all_patterns ->
       len (ModuloPattern.remainders (fst r s)) <= len (timestamps s).

(** Two states of a set with the same log, the same indices and the same
    data in every pattern: they differ in the caches at most. *)
Definition same_observations (s s' : t) : Prop :=
  timestamps s' = timestamps s /\ hour_day s' = hour_day s
  /\ n_day s' = n_day s /\ n_week s' = n_week s
  /\ SetSpec.same_data s s'.

(** The nine patterns after each has taken its phase of a timestamp. *)
Definition route (ps : list ModuloPattern.t) (timestamp : datetime.t)
    : list ModuloPattern.t :=
  map (fun '(p, v) => PatternSpec.added v VNone p)
      (combine ps (SetSpec.phase_values timestamp)).

(** A batch that mixes naive and aware timestamps. *)
Definition mixed (batch : list datetime.t) : Prop :=
  (exists d, In d batch /\ datetime.is_aware d = true)
  /\ (exists d, In d batch /\ datetime.is_aware d = false).

End SetLaws.

(* ================================================================== *)
(** ** Concrete objects *)

Module Examples.

(** Numerics that compute: a flat density and a power that ignores its
    exponent.  They only serve to run the model on the objects below; no
    general statement depends on them. *)
Definition flat : Numerics :=
  {| density := fun _ _ _ _ => 1%Q; pow := fun x _ => x |}.

(** scikit-learn's [tophat] kernel: the share of the sample within one
    bandwidth of [x], over the width of the window. *)
Definition tophat_density (kernel : string) (bandwidth : Q) (sample : list Q)
    (x : Q) : Q :=
  Float.div
    (Float.of_Z (len (filter (fun xi => Float.leb (Qabs (x - xi)) bandwidth) sample)))
    (Float.mul (Float.of_Z (len sample)) (Float.mul 2 bandwidth)).

Definition tophat : Numerics :=
  {| density := tophat_density; pow := fun x _ => x |}.

Definition built (a : ModuloPattern.init_args) :=
  match ModuloPattern.new a as r
        return match r with inl _ => unit | inr _ => ModuloPattern.t end with
  | inl _ => tt
  | inr p => p
  end.

Definition adds (values : list pyval) (p : ModuloPattern.t) : ModuloPattern.t :=
  snd (for_each values (fun v => ModuloPattern.add v VNone) p).

(** [ModuloPattern(name='p')] *)
Definition fresh : ModuloPattern.t :=
  Eval vm_compute in built (ModuloPattern.defaults "p").

(** A pattern whose period indices are 1, 2, 3, 5, 6 and 9, some of them
    seen twice and not in order. *)
Definition spread : ModuloPattern.t :=
  Eval vm_compute in
    adds [VFloat (13 # 2); VInt 2; VFloat (5 # 4); VFloat (37 # 4); VInt 3;
          VFloat (11 # 2); VFloat (7 # 3); VFloat (19 # 2)] fresh.

(** Twelve observations over eleven periods: a valid pattern. *)
Definition seasoned_values : list pyval :=
  map (fun i => VFloat (Float.add (Float.of_Z i) (1 # 2))) (range 12).

Definition seasoned : ModuloPattern.t :=
  Eval vm_compute in adds seasoned_values fresh.

(** [ModuloPattern(name='p', modulo=-1, min_items=0)] *)
Definition backwards : ModuloPattern.t :=
  Eval vm_compute in
    built {| ModuloPattern.arg_name := VStr "p";
             ModuloPattern.arg_x_axis_labels := None;
             ModuloPattern.arg_x_axis_name := VNone;
             ModuloPattern.arg_vector_dimension := VInt 128;
             ModuloPattern.arg_modulo := - (1);
             ModuloPattern.arg_min_periods := 4;
             ModuloPattern.arg_min_items := 0 |}.

Definition at_utc (y mo d h mi : Z) (tz : option Z) : datetime.t :=
  {| datetime.year := y; datetime.month := mo; datetime.day := d;
     datetime.hour := h; datetime.minute := mi; datetime.second := 0;
     datetime.microsecond := 0; datetime.tzinfo := tz |}.

(** Noon in UTC and the same instant on a clock eight hours ahead. *)
Definition noon_utc : datetime.t := at_utc 2020 1 1 12 0 (Some 0).
Definition noon_utc_plus8 : datetime.t := at_utc 2020 1 1 20 0 (Some 28800).

(** The same wall clock read in two zones. *)
Definition noon_naive : datetime.t := at_utc 2020 1 1 12 0 None.

(** A day of the last supported December. *)
Definition last_december : datetime.t := at_utc 9999 12 15 0 0 None.

(** Thirteen days of January 2020 at noon. *)
Definition january : list datetime.t :=
  map (fun d => at_utc 2020 1 d 12 0 None) (map (Z.add 1) (range 13)).

Definition trained : TimeStampSetV2.t :=
  Eval vm_compute in snd (TimeStampSetV2.add january SetSpec.initial).

(** Fourteen evenings of March 2021. *)
Definition march : list datetime.t :=
  map (fun d => at_utc 2021 3 d 20 30 None) (map (Z.add 1) (range 14)).

Definition trained_later : TimeStampSetV2.t :=
  Eval vm_compute in snd (TimeStampSetV2.add march SetSpec.initial).

(** A morning of February in a leap year. *)
Definition leap_february : datetime.t := at_utc 2024 2 15 6 0 (Some 0).

(** A set that has seen three timestamps only. *)
Definition few : TimeStampSetV2.t :=
  Eval vm_compute in
    snd (TimeStampSetV2.add (firstn 3 january) SetSpec.initial).

End Examples.

(* ================================================================== *)
(** * Properties *)

(** ** Arithmetic of the float model *)

Module FloatFacts.

Lemma ltb_lt x y : Float.ltb x y = true <-> (x < y)%Q.
Proof.
  unfold Float.ltb. rewrite negb_true_iff.
  split; intros E.
  - apply Qnot_le_lt. intros L. apply Qle_bool_iff in L. congruence.
  - destruct (Qle_bool y x) eqn:B; [|reflexivity].
    apply Qle_bool_iff in B. exfalso. apply (Qlt_not_le _ _ E B).
Qed.

Lemma ltb_ge x y : Float.ltb x y = false <-> (y <= x)%Q.
Proof.
  unfold Float.ltb. rewrite negb_false_iff. apply Qle_bool_iff.
Qed.

Lemma eqb_eq x y : Float.eqb x y = true <-> (x == y)%Q.
Proof. apply Qeq_bool_iff. Qed.

Lemma add_eq x y : (Float.add x y == x + y)%Q.
Proof. apply Qred_correct. Qed.

Lemma sub_eq x y : (Float.sub x y == x - y)%Q.
Proof. apply Qred_correct. Qed.

Lemma mul_eq x y : (Float.mul x y == x * y)%Q.
Proof. apply Qred_correct. Qed.

Lemma div_eq x y : (Float.div x y == x / y)%Q.
Proof. apply Qred_correct. Qed.

End FloatFacts.

(** ** Running the monad *)

Lemma bind_inr {S A B} (m : M S A) (k : A -> M S B) s a s' :
  m s = (inr a, s') -> bind m k s = k a s'.
Proof. intros E. unfold bind. rewrite E. reflexivity. Qed.

(** ** ModuloPattern *)

Module PatternFacts.

Import ModuloPattern PatternSpec.

(** *** Construction *)

Lemma new_error_class a e : new a = inl e -> is_configuration_error e = true.
Proof.
  unfold new, rbind. intros E.
  destruct (arg_name a) as [| | |s];
    try (inversion E; subst; reflexivity).
  destruct (String.length s =? 0)%nat;
    [inversion E; subst; reflexivity|].
  destruct (arg_x_axis_name a) as [| | |s'];
    try (inversion E; subst; reflexivity).
  - destruct (Float.eqb (arg_modulo a) 0);
      [inversion E; subst; reflexivity|].
    destruct (arg_vector_dimension a) as [|d| |];
      try (inversion E; subst; reflexivity).
    destruct (0 <? d); inversion E; subst; reflexivity.
  - assert (T : forall x : option string,
      (if Float.eqb (arg_modulo a) 0
       then inl (ValueError [VStr "modulo must not be zero"])
       else match arg_vector_dimension a with
            | VInt d =>
                if 0 <? d
                then inr {| name := s; x_axis_labels :=
                              option_map (map (fun s0 : string => s0)) (arg_x_axis_labels a);
                            x_axis_name := x; vector_dimension := d;
                            modulo := arg_modulo a; min_periods := arg_min_periods a;
                            min_items := arg_min_items a;
                            min := Float.PosInf; max := Float.NegInf; remainders := [];
                            _remainders := []; _quotients := [];
                            __kde := []; __vector := PyList [] |}
                else inl (TypeError [VStr "vector dimension must be a positive integer, got "; VInt d])
            | v => inl (TypeError [VStr "vector dimension must be a positive integer, got "; v])
            end) = inl e -> is_configuration_error e = true).
    { intros x E'.
      destruct (Float.eqb (arg_modulo a) 0);
        [inversion E'; subst; reflexivity|].
      destruct (arg_vector_dimension a) as [|d| |];
        try (inversion E'; subst; reflexivity).
      destruct (0 <? d); inversion E'; subst; reflexivity. }
    destruct (String.length s' =? 0)%nat; apply (T _ E).
Qed.

Lemma string_length_0 s : (String.length s =? 0)%nat = true <-> s = EmptyString.
Proof.
  destruct s; simpl; split; intros E; try reflexivity; discriminate.
Qed.

Lemma new_rejects a :
  name_is_empty a \/ ~ dimension_is_positive_int a \/ modulo_is_zero a ->
  exists e, new a = inl e.
Proof.
  intros Bad.
  destruct (new a) as [e|p] eqn:E; [exists e; reflexivity|exfalso].
  unfold new, rbind in E.
  destruct (arg_name a) as [| | |s] eqn:En; try discriminate.
  destruct (String.length s =? 0)%nat eqn:Es; [discriminate|].
  assert (Hm : Float.eqb (arg_modulo a) 0 = false
               /\ exists d, arg_vector_dimension a = VInt d /\ (0 <? d) = true).
  { destruct (arg_x_axis_name a) as [| | |s']; try discriminate;
      try destruct (String.length s' =? 0)%nat;
      (destruct (Float.eqb (arg_modulo a) 0); [discriminate|];
       destruct (arg_vector_dimension a) as [|d| |] eqn:Ev; try discriminate;
       destruct (0 <? d) eqn:Ed; [|discriminate];
       split; [reflexivity|exists d; split; [reflexivity|assumption]]). }
  destruct Hm as [Hm [d [Hd Hpos]]].
  destruct Bad as [B|[B|B]].
  - unfold name_is_empty in B. rewrite En in B. inversion B; subst.
    discriminate.
  - apply B. exists d. split; [assumption|]. apply Z.ltb_lt. assumption.
  - unfold modulo_is_zero in B. apply FloatFacts.eqb_eq in B. congruence.
Qed.

Lemma new_accepts a : well_formed a -> exists p, new a = inr p.
Proof.
  intros [[s [En Hs]] [Hx [Hm [d [Hd Hpos]]]]].
  unfold new, rbind. rewrite En.
  destruct (String.length s =? 0)%nat eqn:Es.
  { apply string_length_0 in Es. contradiction. }
  assert (Em : Float.eqb (arg_modulo a) 0 = false).
  { destruct (Float.eqb (arg_modulo a) 0) eqn:B; [|reflexivity].
    apply FloatFacts.eqb_eq in B. contradiction. }
  apply Z.ltb_lt in Hpos.
  destruct Hx as [Hx|[s' Hx]]; rewrite Hx.
  - rewrite Em, Hd, Hpos. eexists. reflexivity.
  - destruct (String.length s' =? 0)%nat;
      rewrite Em, Hd, Hpos; eexists; reflexivity.
Qed.

End PatternFacts.

(** C9. Constructing a pattern with an empty name, with a vector dimension
    that is not a positive integer, or with a zero modulo raises at once,
    and what is raised is a [TypeError] or a [ValueError] carrying the
    offending value or a message; constructing one with well-formed
    arguments returns the object. *)
Theorem new_fails_fast (a : ModuloPattern.init_args) :
  (PatternSpec.name_is_empty a \/ ~ PatternSpec.dimension_is_positive_int a
   \/ PatternSpec.modulo_is_zero a ->
   exists e, ModuloPattern.new a = inl e
             /\ PatternSpec.is_configuration_error e = true)
  /\ (PatternSpec.well_formed a -> exists p, ModuloPattern.new a = inr p).
Proof.
  split.
  - intros Bad. destruct (PatternFacts.new_rejects a Bad) as [e E].
    exists e. split; [exact E|]. exact (PatternFacts.new_error_class a e E).
  - apply PatternFacts.new_accepts.
Qed.

Lemma new_fails_fast_witness :
  (exists e, ModuloPattern.new
               {| ModuloPattern.arg_name := VStr "";
                  ModuloPattern.arg_x_axis_labels := None;
                  ModuloPattern.arg_x_axis_name := VNone;
                  ModuloPattern.arg_vector_dimension := VFloat (5 # 2);
                  ModuloPattern.arg_modulo := 0;
                  ModuloPattern.arg_min_periods := 4;
                  ModuloPattern.arg_min_items := 12 |} = inl e
             /\ PatternSpec.is_configuration_error e = true)
  /\ (exists p, ModuloPattern.new (ModuloPattern.defaults "day") = inr p).
Proof.
  split.
  - apply new_fails_fast. left. reflexivity.
  - apply new_fails_fast. unfold PatternSpec.well_formed. simpl.
    split; [exists "day"%string; split; [reflexivity|discriminate]|].
    split; [left; reflexivity|].
    split; [unfold PatternSpec.modulo_is_zero; simpl; discriminate|].
    exists 128. split; [reflexivity|reflexivity].
Defined.

(** C1 (not met by the code).  The loop of [consecutive] drops the index
    that ends a run and never flushes its last buffer: whenever the distinct
    period indices are 1, 2, 3, 5, 6 and 9 it returns the single run
    [[1, 2, 3]], while the runs of at least two consecutive indices are
    [[1, 2, 3]] and [[5, 6]]. *)
Theorem consecutive_loses_runs (p : ModuloPattern.t) :
  sorted Z.ltb (keys (ModuloPattern._quotients p)) = [1; 2; 3; 5; 6; 9] ->
  ModuloPattern.consecutive p 2 = [[1; 2; 3]]
  /\ RunsSpec.consecutive_runs 2 (sorted Z.ltb (keys (ModuloPattern._quotients p)))
     = [[1; 2; 3]; [5; 6]].
Proof.
  intros E. unfold ModuloPattern.consecutive. rewrite E.
  split; reflexivity.
Qed.

Lemma consecutive_loses_runs_witness :
  ModuloPattern.consecutive Examples.spread 2 = [[1; 2; 3]]
  /\ RunsSpec.consecutive_runs 2
       (sorted Z.ltb (keys (ModuloPattern._quotients Examples.spread)))
     = [[1; 2; 3]; [5; 6]].
Proof.
  apply (consecutive_loses_runs Examples.spread). reflexivity.
Defined.

(** C7, as the code has it.  [add] of a value that is not a number raises
    [TypeError] and leaves [min], [max], the remainders and the two indices
    as they were; the two caches are reset (an empty dict and an empty
    tuple), because [add] resets them before it looks at the value. *)
Theorem add_non_numeric (p : ModuloPattern.t) (value item : pyval) :
  PatternSpec.non_numeric value ->
  exists e, is_TypeError e = true
            /\ ModuloPattern.add value item p = (inl e, PatternSpec.caches_cleared p).
Proof.
  intros N. destruct value; simpl in N; try contradiction;
    (exists (TypeError []); split; reflexivity).
Qed.

Lemma add_non_numeric_witness :
  exists e, is_TypeError e = true
            /\ ModuloPattern.add (VStr "noon") VNone Examples.seasoned
               = (inl e, PatternSpec.caches_cleared Examples.seasoned).
Proof.
  apply (add_non_numeric Examples.seasoned (VStr "noon") VNone). exact I.
Defined.

(** C7 as stated fails on a pattern fresh from its constructor: its vector
    cache is the empty list the dataclass gave it, and after [add] has
    rejected [None] it is the empty tuple [add] resets it to. *)
Lemma add_rejected_value_resets_cache :
  ModuloPattern.new (ModuloPattern.defaults "p") = inr Examples.fresh
  /\ PatternSpec.non_numeric VNone
  /\ (exists e, fst (ModuloPattern.add VNone VNone Examples.fresh) = inl e
                /\ is_TypeError e = true)
  /\ ModuloPattern.__vector Examples.fresh = PyList []
  /\ ModuloPattern.__vector (snd (ModuloPattern.add VNone VNone Examples.fresh))
     = PyTuple []
  /\ snd (ModuloPattern.add VNone VNone Examples.fresh) <> Examples.fresh.
Proof.
  split; [reflexivity|]. split; [exact I|]. split.
  - exists (TypeError []). split; reflexivity.
  - split; [reflexivity|]. split; [reflexivity|].
    intros E. apply (f_equal ModuloPattern.__vector) in E. discriminate E.
Qed.

(** *** What the methods change *)

Module PatternRuns.

Import ModuloPattern PatternSpec.

Lemma add_number value item x p :
  as_number value = inr x -> add value item p = (inr tt, added x item p).
Proof.
  intros E. unfold add, added, bind, modify, get, lift. simpl.
  rewrite E. simpl.
  destruct (Float.divmod x (modulo p)) as [quotient remainder].
  reflexivity.
Qed.

Lemma add_rejected value item p e :
  as_number value = inl e -> add value item p = (inl e, caches_cleared p).
Proof.
  intros E. unfold add, bind, modify, get, lift. simpl.
  rewrite E. reflexivity.
Qed.

Lemma added_remainders x item p :
  remainders (added x item p)
  = remainders p ++ [snd (Float.divmod x (modulo p))].
Proof.
  unfold added. destruct (Float.divmod x (modulo p)). reflexivity.
Qed.

Lemma added_min x item p :
  min (added x item p) = Float.ext_min (Float.Fin x) (min p).
Proof. unfold added. destruct (Float.divmod x (modulo p)). reflexivity. Qed.

Lemma added_max x item p :
  max (added x item p) = Float.ext_max (Float.Fin x) (max p).
Proof. unfold added. destruct (Float.divmod x (modulo p)). reflexivity. Qed.

Lemma added_config x item p :
  name (added x item p) = name p
  /\ vector_dimension (added x item p) = vector_dimension p
  /\ modulo (added x item p) = modulo p
  /\ min_periods (added x item p) = min_periods p
  /\ min_items (added x item p) = min_items p.
Proof.
  unfold added. destruct (Float.divmod x (modulo p)). repeat split.
Qed.

Lemma added_caches x item p : caches_empty (added x item p).
Proof. unfold added. destruct (Float.divmod x (modulo p)). split; reflexivity. Qed.

Lemma cleared_caches p : caches_empty (caches_cleared p).
Proof. split; reflexivity. Qed.

Lemma same_data_cleared p : same_data p (caches_cleared p).
Proof. reflexivity. Qed.

Lemma same_data_fields p p' :
  same_data p p' ->
  name p' = name p /\ vector_dimension p' = vector_dimension p
  /\ modulo p' = modulo p /\ min_periods p' = min_periods p
  /\ min_items p' = min_items p /\ min p' = min p /\ max p' = max p
  /\ remainders p' = remainders p /\ _quotients p' = _quotients p
  /\ _remainders p' = _remainders p.
Proof.
  unfold same_data. intros E.
  pose proof (f_equal name E) as E1.
  pose proof (f_equal vector_dimension E) as E2.
  pose proof (f_equal modulo E) as E3.
  pose proof (f_equal min_periods E) as E4.
  pose proof (f_equal min_items E) as E5.
  pose proof (f_equal min E) as E6.
  pose proof (f_equal max E) as E7.
  pose proof (f_equal remainders E) as E8.
  pose proof (f_equal _quotients E) as E9.
  pose proof (f_equal _remainders E) as E10.
  simpl in *. repeat split; congruence.
Qed.

Section WithNumerics.
Context `{Numerics}.

(** What [plot_kde_modulo] answers to a list. *)
Lemma plot_kde_modulo_list l modulo kernel bandwidth dim :
  kernel_density.plot_kde_modulo (PyList l) modulo kernel bandwidth dim
  = inl (if 0 <? dim then TypeError [] else AssertionError).
Proof.
  unfold kernel_density.plot_kde_modulo. destruct (0 <? dim); reflexivity.
Qed.

(** [kde] gets no curve from [plot_kde_modulo]: unless the curve is in
    the cache already, it raises and leaves the pattern as it was. *)
Lemma kde_miss dim p :
  dict_get Z.eqb dim (__kde p) = None ->
  kde dim p = (inl (if 0 <? dim then TypeError [] else AssertionError), p).
Proof.
  intros G. unfold kde, bind, get. rewrite G, plot_kde_modulo_list.
  reflexivity.
Qed.

Lemma kde_empty dim p :
  caches_empty p ->
  kde dim p = (inl (if 0 <? dim then TypeError [] else AssertionError), p).
Proof.
  intros [Ek _]. apply kde_miss. rewrite Ek. reflexivity.
Qed.

Lemma vector_empty p :
  caches_empty p -> 0 < vector_dimension p -> vector p = (inl (TypeError []), p).
Proof.
  intros C Hd. pose proof C as [_ Ev]. unfold vector, bind at 1, get at 1.
  rewrite Ev.
  assert (B : (len (@nil Q) =? vector_dimension p) = false)
    by (apply Z.eqb_neq; unfold len; simpl; lia).
  rewrite B. cbn [negb]. unfold bind. rewrite (kde_empty _ p C).
  assert (B' : (0 <? vector_dimension p) = true) by (apply Z.ltb_lt; exact Hd).
  rewrite B'. reflexivity.
Qed.

Lemma vector_keeps p : caches_empty p -> snd (vector p) = p.
Proof.
  intros C. pose proof C as [_ Ev]. unfold vector, bind at 1, get at 1.
  destruct (negb (len (items (__vector p)) =? vector_dimension p));
    [|reflexivity].
  unfold bind. rewrite (kde_empty _ p C). reflexivity.
Qed.

Lemma likelihood_empty value p :
  caches_empty p -> likelihood value p = (inl (TypeError []), p).
Proof.
  intros C. unfold likelihood, bind at 1, get at 1.
  destruct (Float.divmod value (modulo p)) as [quotient remainder].
  unfold bind. rewrite (kde_empty 1000 p C). reflexivity.
Qed.

End WithNumerics.
End PatternRuns.

Module PatternInvariants.

Import ModuloPattern PatternSpec PatternRuns.

Lemma range_length n : 0 <= n -> len (range n) = n.
Proof.
  intros Hn. unfold len, range. rewrite length_map, length_seq. lia.
Qed.

End PatternInvariants.

(** *** Validity under [add] *)

Module Validity.

Import ModuloPattern PatternSpec PatternRuns PatternInvariants.

Lemma new_inv a p :
  new a = inr p ->
  modulo p = arg_modulo a /\ Float.eqb (arg_modulo a) 0 = false
  /\ 0 < vector_dimension p
  /\ min p = Float.PosInf /\ max p = Float.NegInf /\ remainders p = []
  /\ min_periods p = arg_min_periods a /\ min_items p = arg_min_items a
  /\ arg_name a = VStr (name p).
Proof.
  intros E. unfold new, rbind in E.
  destruct (arg_name a) as [| | |s]; try discriminate.
  destruct (String.length s =? 0)%nat; [discriminate|].
  destruct (arg_x_axis_name a) as [| | |s']; try discriminate;
    try destruct (String.length s' =? 0)%nat;
    (destruct (Float.eqb (arg_modulo a) 0); [discriminate|];
     destruct (arg_vector_dimension a) as [|d| |]; try discriminate;
     destruct (0 <? d) eqn:Ed; [|discriminate];
     apply Z.ltb_lt in Ed;
     inversion E; subst; simpl; repeat split; assumption).
Qed.

Lemma new_caches a p : new a = inr p -> caches_empty p.
Proof.
  intros E. unfold new, rbind in E.
  destruct (arg_name a) as [| | |s]; try discriminate.
  destruct (String.length s =? 0)%nat; [discriminate|].
  destruct (arg_x_axis_name a) as [| | |s']; try discriminate;
    try destruct (String.length s' =? 0)%nat;
    (destruct (Float.eqb (arg_modulo a) 0); [discriminate|];
     destruct (arg_vector_dimension a) as [|d| |]; try discriminate;
     destruct (0 <? d); [|discriminate];
     inversion E; subst; split; reflexivity).
Qed.

Lemma new_extrema a p : new a = inr p -> extrema_ok p.
Proof.
  intros E. destruct (new_inv a p E) as (Em & Ez & _ & Emin & Emax & Er & _).
  split.
  - rewrite Em. intros Z. apply FloatFacts.eqb_eq in Z. congruence.
  - rewrite Er. split; assumption.
Qed.

Lemma extrema_same_data p p' : same_data p p' -> extrema_ok p -> extrema_ok p'.
Proof.
  intros S [Hm Hx].
  destruct (same_data_fields p p' S)
    as (_ & _ & Em & _ & _ & Emin & Emax & Er & _).
  split; [rewrite Em; assumption|].
  rewrite Er, Emin, Emax. assumption.
Qed.

Lemma min_of_number x lo :
  exists lo', Float.ext_min (Float.Fin x) (Float.Fin lo) = Float.Fin lo'
              /\ (lo' <= lo)%Q /\ (lo' <= x)%Q
              /\ (lo' = lo \/ lo' = x).
Proof.
  unfold Float.ext_min. simpl.
  destruct (Float.ltb lo x) eqn:B.
  - apply FloatFacts.ltb_lt in B. exists lo.
    repeat split; [lra|lra|left; reflexivity].
  - apply FloatFacts.ltb_ge in B. exists x.
    repeat split; [lra|lra|right; reflexivity].
Qed.

Lemma max_of_number x hi :
  exists hi', Float.ext_max (Float.Fin x) (Float.Fin hi) = Float.Fin hi'
              /\ (hi <= hi')%Q /\ (x <= hi')%Q
              /\ (hi' = hi \/ hi' = x).
Proof.
  unfold Float.ext_max. simpl.
  destruct (Float.ltb x hi) eqn:B.
  - apply FloatFacts.ltb_lt in B. exists hi.
    repeat split; [lra|lra|left; reflexivity].
  - apply FloatFacts.ltb_ge in B. exists x.
    repeat split; [lra|lra|right; reflexivity].
Qed.

Lemma extrema_added x item p : extrema_ok p -> extrema_ok (added x item p).
Proof.
  intros [Hm Hx].
  destruct (added_config x item p) as (_ & _ & Em & _).
  split; [rewrite Em; assumption|].
  rewrite added_remainders, added_min, added_max.
  assert (T : exists lo hi,
             Float.ext_min (Float.Fin x) (min p) = Float.Fin lo
             /\ Float.ext_max (Float.Fin x) (max p) = Float.Fin hi
             /\ (lo <= hi)%Q).
  { destruct (remainders p) as [|r rs].
    - destruct Hx as [Emin Emax]. rewrite Emin, Emax.
      exists x, x. repeat split. lra.
    - destruct Hx as [lo [hi [Emin [Emax L]]]]. rewrite Emin, Emax.
      destruct (min_of_number x lo) as [lo' [E1 [L1 [L2 _]]]].
      destruct (max_of_number x hi) as [hi' [E2 [L3 [L4 _]]]].
      exists lo', hi'. repeat split; [assumption|assumption|lra]. }
  destruct (remainders p ++ [snd (Float.divmod x (modulo p))]) eqn:A.
  - destruct (remainders p); discriminate.
  - exact T.
Qed.

Lemma clamp_fin d :
  Float.ext_max (Float.Fin 0) (Float.Fin d) = Float.Fin (clamp d).
Proof.
  unfold Float.ext_max, clamp. simpl. destruct (Float.ltb 0 d); reflexivity.
Qed.

Lemma clamp_le u v :
  (u <= v)%Q \/ ((u <= 0)%Q /\ (v <= 0)%Q) -> (clamp u <= clamp v)%Q.
Proof.
  unfold clamp. intros Hc.
  destruct (Float.ltb 0 u) eqn:Bu; destruct (Float.ltb 0 v) eqn:Bv;
    try apply FloatFacts.ltb_lt in Bu; try apply FloatFacts.ltb_ge in Bu;
    try apply FloatFacts.ltb_lt in Bv; try apply FloatFacts.ltb_ge in Bv;
    destruct Hc as [Hc|[Hc Hc']]; lra.
Qed.

Lemma spans_over_modulo (a b m : Q) :
  ~ (m == 0)%Q -> (0 <= a)%Q -> (a <= b)%Q ->
  ((0 < m)%Q -> (a / m <= b / m)%Q)
  /\ ((m < 0)%Q -> (a / m <= 0)%Q /\ (b / m <= 0)%Q).
Proof.
  intros Hm Ha Hab. unfold Qdiv.
  pose proof (Qmult_inv_r m Hm) as Hi.
  set (i := (/ m)%Q) in *.
  split.
  - intros Pm. assert (0 < i)%Q by (apply Qinv_lt_0_compat; assumption). nra.
  - intros Nm. assert (i < 0)%Q by nra. split; nra.
Qed.

(** Under [add] of a number the period count is finite before and after,
    and does not decrease, provided the modulo is positive or the pattern
    already holds an observation. *)
Lemma n_periods_grows x item p :
  extrema_ok p -> (0 < modulo p)%Q \/ remainders p <> [] ->
  exists d d', n_periods p = Float.Fin d
               /\ n_periods (added x item p) = Float.Fin d' /\ (d <= d')%Q.
Proof.
  intros [Hm Hx] Hc. unfold n_periods.
  destruct (added_config x item p) as (_ & _ & Em & _).
  rewrite added_min, added_max, Em.
  destruct (remainders p) as [|r rs] eqn:Er.
  - destruct Hc as [Pm|N]; [|congruence].
    destruct Hx as [Emin Emax]. rewrite Emin, Emax. simpl.
    assert (B : Float.ltb 0 (modulo p) = true)
      by (apply FloatFacts.ltb_lt; assumption).
    rewrite B. unfold Float.ext_min, Float.ext_max. simpl.
    exists 0%Q.
    exists (clamp (Float.div (Float.sub x x) (modulo p))).
    split; [reflexivity|]. split.
    + unfold clamp.
      destruct (Float.ltb 0 (Float.div (Float.sub x x) (modulo p)));
        reflexivity.
    + unfold clamp.
      destruct (Float.ltb 0 (Float.div (Float.sub x x) (modulo p))) eqn:B';
        [|lra].
      apply FloatFacts.ltb_lt in B'. lra.
  - destruct Hx as [lo [hi [Emin [Emax L]]]]. rewrite Emin, Emax.
    destruct (min_of_number x lo) as [lo' [E1 [L1 [L2 _]]]].
    destruct (max_of_number x hi) as [hi' [E2 [L3 [L4 _]]]].
    rewrite E1, E2. simpl Float.ext_sub. simpl Float.ext_div.
    rewrite !clamp_fin. eexists. eexists.
    split; [reflexivity|]. split; [reflexivity|].
    apply clamp_le.
    rewrite !FloatFacts.div_eq, !FloatFacts.sub_eq.
    destruct (spans_over_modulo (hi - lo) (hi' - lo') (modulo p) Hm)
      as [Hpos Hneg]; [lra|lra|].
    destruct (Qlt_le_dec 0 (modulo p)) as [Pm|Nm].
    + left. apply Hpos. assumption.
    + right. apply Hneg. destruct (Qle_lt_or_eq _ _ Nm) as [Q|Q];
        [assumption|contradiction].
Qed.

Section WithNumerics.
Context `{Numerics}.

(** In every state a pattern can reach the extrema are in order, the two
    caches hold nothing and the dimension is positive. *)
Lemma reachable_inv p :
  reachable p -> extrema_ok p /\ caches_empty p /\ 0 < vector_dimension p.
Proof.
  induction 1 as [a p E|value item p R [IHx [IHc IHd]]|dim p R [IHx [IHc IHd]]
                  |p R [IHx [IHc IHd]]|value p R [IHx [IHc IHd]]].
  - split; [exact (new_extrema a p E)|].
    split; [exact (new_caches a p E)|].
    destruct (new_inv a p E) as (_ & _ & Hd & _). exact Hd.
  - destruct (as_number value) as [e|x] eqn:En.
    + rewrite (add_rejected _ _ _ _ En). cbn [snd]. split; [|split].
      * apply (extrema_same_data p); [apply same_data_cleared|assumption].
      * apply cleared_caches.
      * assumption.
    + rewrite (add_number _ _ _ _ En). cbn [snd]. split; [|split].
      * apply extrema_added. assumption.
      * apply added_caches.
      * destruct (added_config x item p) as (_ & Ed & _).
        rewrite Ed. assumption.
  - rewrite (kde_empty dim p IHc). cbn [snd].
    split; [assumption|split; assumption].
  - rewrite (vector_keeps p IHc). split; [assumption|split; assumption].
  - rewrite (likelihood_empty value p IHc). cbn [snd].
    split; [assumption|split; assumption].
Qed.

End WithNumerics.
End Validity.

Lemma adds_reachable `{Numerics} values p :
  PatternSpec.reachable p -> PatternSpec.reachable (Examples.adds values p).
Proof.
  revert p. unfold Examples.adds.
  induction values as [|v vs IH]; intros p R; simpl.
  - exact R.
  - unfold bind.
    destruct (ModuloPattern.add v VNone p) as [[e|u] p'] eqn:E.
    + simpl. replace p' with (snd (ModuloPattern.add v VNone p)) by (rewrite E; reflexivity).
      apply PatternSpec.reach_add. exact R.
    + apply IH.
      replace p' with (snd (ModuloPattern.add v VNone p)) by (rewrite E; reflexivity).
      apply PatternSpec.reach_add. exact R.
Qed.




(** ** The circular density curve *)

Module KernelFacts.

Import PatternSpec.

Lemma range_succ n : 0 <= n -> range (n + 1) = range n ++ [n].
Proof.
  intros Hn. unfold range.
  replace (Z.to_nat (n + 1)) with (S (Z.to_nat n)) by lia.
  rewrite seq_S, map_app. simpl. rewrite Z2Nat.id by assumption.
  reflexivity.
Qed.

Lemma removelast_map {A B} (f : A -> B) (l : list A) :
  removelast (map f l) = map f (removelast l).
Proof.
  induction l as [|a l IH]; [reflexivity|].
  destruct l as [|b l]; [reflexivity|].
  change (removelast (map f (a :: b :: l)))
    with (f a :: removelast (map f (b :: l))).
  rewrite IH. reflexivity.
Qed.

Lemma inject_Z_nonzero n : 0 < n -> ~ (inject_Z n == 0)%Q.
Proof.
  intros Hn E. unfold Qeq in E. simpl in E. lia.
Qed.

Section WithNumerics.
Context `{Numerics}.

(** [linspace] returns the evenly spaced points of the specification. *)
Lemma linspace_evenly lo hi k :
  1 < k -> kernel_density.linspace lo hi k = evenly_spaced lo hi k.
Proof.
  intros Hk. unfold kernel_density.linspace, evenly_spaced.
  destruct (k =? 1) eqn:B; [apply Z.eqb_eq in B; lia|].
  apply map_ext. intros i.
  unfold Float.add, Float.mul, Float.div, Float.sub, Float.of_Z.
  apply Qred_complete.
  rewrite !Qred_correct.
  pose proof (inject_Z_nonzero (k - 1) ltac:(lia)).
  field. assumption.
Qed.

Lemma linspace_open modulo n :
  0 < n ->
  removelast (kernel_density.linspace 0 modulo (n + 1)) = sample_points modulo n.
Proof.
  intros Hn. unfold sample_points. rewrite linspace_evenly by lia. reflexivity.
Qed.

(** The sample points are the [n] points [i * modulo / n]. *)
Lemma sample_points_closed modulo n :
  0 < n ->
  sample_points modulo n
  = map (fun i => Float.div (Float.mul (Float.of_Z i) modulo) (Float.of_Z n))
        (range n).
Proof.
  intros Hn. unfold sample_points, evenly_spaced.
  rewrite range_succ by lia. rewrite map_app. simpl map at 2.
  rewrite removelast_last.
  apply map_ext. intros i.
  replace (n + 1 - 1) with n by lia.
  unfold Float.add, Float.mul, Float.div, Float.sub, Float.of_Z.
  apply Qred_complete.
  rewrite !Qred_correct.
  pose proof (inject_Z_nonzero n Hn).
  field. assumption.
Qed.

Lemma default_bandwidth modulo :
  Float.mul (Float.sub modulo 0) (3 # 100) = Float.mul (3 # 100) modulo.
Proof.
  unfold Float.mul, Float.sub. apply Qred_complete.
  rewrite !Qred_correct. ring.
Qed.

Lemma sample_points_len modulo n : 0 < n -> len (sample_points modulo n) = n.
Proof.
  intros Hn. rewrite sample_points_closed by assumption.
  unfold len. rewrite length_map.
  apply (PatternInvariants.range_length n). lia.
Qed.

End WithNumerics.
End KernelFacts.


Lemma Permutation_filter_len {A} (f : A -> bool) (l l' : list A) :
  Permutation l l' -> len (filter f l) = len (filter f l').
Proof.
  intros P. unfold len. f_equal.
  induction P as [|x l l' P IH|x y l|l l' l'' P1 IH1 P2 IH2]; simpl.
  - reflexivity.
  - destruct (f x); simpl; congruence.
  - destruct (f x); destruct (f y); reflexivity.
  - congruence.
Qed.

Lemma Examples_tophat_order_independent :
  @PatternSpec.order_independent Examples.tophat.
Proof.
  intros kernel bandwidth sample sample' x P. simpl.
  unfold Examples.tophat_density.
  rewrite (Permutation_filter_len _ _ _ P).
  unfold len at 2 4. rewrite (Permutation_length P). reflexivity.
Qed.


(** ** TimeStampSetV2 *)

(** *** Invariants through the monad *)

Lemma preserves_ret {S A} (I : S -> Prop) (a : A) : preserves I (ret a).
Proof. intros s Hs. exact Hs. Qed.

Lemma preserves_lift {S A} (I : S -> Prop) (r : exn + A) : preserves I (lift r).
Proof. intros s Hs. exact Hs. Qed.

Lemma preserves_get {S} (I : S -> Prop) : preserves I (@get S).
Proof. intros s Hs. exact Hs. Qed.

Lemma preserves_modify {S} (I : S -> Prop) (f : S -> S) :
  (forall s, I s -> I (f s)) -> preserves I (modify f).
Proof. intros Hf s Hs. apply Hf. exact Hs. Qed.

Lemma preserves_bind {S A B} (I : S -> Prop) (m : M S A) (k : A -> M S B) :
  preserves I m -> (forall a, preserves I (k a)) -> preserves I (bind m k).
Proof.
  intros Hm Hk s Hs. unfold bind.
  pose proof (Hm s Hs) as Hs'.
  destruct (m s) as [[e|a] s']; simpl in *.
  - exact Hs'.
  - apply Hk. exact Hs'.
Qed.

Lemma preserves_for_each {S A} (I : S -> Prop) (l : list A) (body : A -> M S unit) :
  (forall x, preserves I (body x)) -> preserves I (for_each l body).
Proof.
  intros Hb. induction l as [|x l IH]; simpl.
  - apply preserves_ret.
  - apply preserves_bind; [apply Hb|intros _; exact IH].
Qed.

Lemma preserves_map_m {S A B} (I : S -> Prop) (l : list A) (f : A -> M S B) :
  (forall x, preserves I (f x)) -> preserves I (map_m f l).
Proof.
  intros Hf. induction l as [|x l IH]; simpl.
  - apply preserves_ret.
  - apply preserves_bind; [apply Hf|intros y].
    apply preserves_bind; [exact IH|intros ys; apply preserves_ret].
Qed.

Module SetFacts.

Import TimeStampSetV2 SetSpec.

Ltac each_pattern H :=
  unfold all_patterns in H; simpl in H;
  repeat (destruct H as [H|H]; [subst|]); [..|contradiction].

(** Writing through one reference leaves what the others read. *)
Lemma ref_get_set r r' p s :
  In r all_patterns -> In r' all_patterns ->
  (r' = r /\ fst r' (snd r p s) = p) \/ fst r' (snd r p s) = fst r' s.
Proof.
  intros Hr Hr'. each_pattern Hr; each_pattern Hr';
    first [right; reflexivity|left; split; reflexivity].
Qed.

Lemma ref_get_set_index r ts hd nd nw s :
  In r all_patterns -> fst r (set_index ts hd nd nw s) = fst r s.
Proof. intros Hr. each_pattern Hr; reflexivity. Qed.

Lemma new_initial : new = inr initial.
Proof. reflexivity. Qed.

Lemma configured_at s r :
  configured s -> In r all_patterns -> config (fst r s) = config (fst r initial).
Proof.
  unfold configured. intros C Hr.
  assert (T : forall (l : list ref),
             map (fun r : ref => config (fst r s)) l
             = map (fun r : ref => config (fst r initial)) l ->
             In r l -> config (fst r s) = config (fst r initial)).
  { induction l as [|r0 l IH]; simpl; intros E Hin.
    - contradiction.
    - destruct Hin as [Hin|Hin].
      + subst. exact (f_equal (hd (config (fst r s))) E).
      + apply IH; [exact (f_equal (@tl _) E)|assumption]. }
  exact (T all_patterns C Hr).
Qed.

Lemma configured_intro s :
  (forall r, In r all_patterns -> config (fst r s) = config (fst r initial)) ->
  configured s.
Proof.
  intros Hc. unfold configured. apply map_ext_in. exact Hc.
Qed.

Lemma configured_dimension s r :
  configured s -> In r all_patterns ->
  ModuloPattern.vector_dimension (fst r s) = 128
  /\ ModuloPattern.modulo (fst r s) = 1%Q
  /\ 12 <= ModuloPattern.min_items (fst r s).
Proof.
  intros C Hr. pose proof (configured_at s r C Hr) as E.
  unfold config in E. inversion E as [[E1 E2 E3 E4 E5]].
  clear E E1 E4. rewrite E2, E3, E5.
  each_pattern Hr; simpl; (split; [reflexivity|split; [reflexivity|lia]]).
Qed.

Lemma ref_set_get r s : In r all_patterns -> snd r (fst r s) s = s.
Proof. intros Hr. destruct s. each_pattern Hr; reflexivity. Qed.

Section WithNumerics.
Context `{Numerics}.

(** A method of a pattern that keeps its configuration and leaves the
    caches empty keeps the invariant of the set. *)
Lemma preserves_on {A} r (m : M ModuloPattern.t A) :
  In r all_patterns ->
  (forall p, PatternSpec.caches_empty p ->
             config (snd (m p)) = config p
             /\ PatternSpec.caches_empty (snd (m p))) ->
  preserves invariant (on r m).
Proof.
  intros Hr Hm s [Hc Hk]. unfold on, zoom.
  destruct (Hm (fst r s) (Hk r Hr)) as [E C].
  destruct (m (fst r s)) as [x p']. cbn [snd] in *.
  split.
  - apply configured_intro. intros r0 Hr0.
    destruct (ref_get_set r r0 p' s Hr Hr0) as [[-> E0]|E0]; rewrite E0.
    + rewrite E. apply configured_at; assumption.
    + apply configured_at; assumption.
  - intros r0 Hr0.
    destruct (ref_get_set r r0 p' s Hr Hr0) as [[-> E0]|E0]; rewrite E0.
    + exact C.
    + apply Hk. exact Hr0.
Qed.

Lemma preserves_on_add r v :
  In r all_patterns ->
  preserves invariant (on r (ModuloPattern.add (VFloat v) VNone)).
Proof.
  intros Hr. apply preserves_on; [exact Hr|].
  intros p C.
  rewrite (PatternRuns.add_number (VFloat v) VNone v p eq_refl). cbn [snd].
  split.
  - unfold config.
    destruct (PatternRuns.added_config v VNone p) as (E1 & E2 & E3 & E4 & E5).
    congruence.
  - apply PatternRuns.added_caches.
Qed.

Lemma preserves_on_likelihood r v :
  In r all_patterns -> preserves invariant (on r (ModuloPattern.likelihood v)).
Proof.
  intros Hr. apply preserves_on; [exact Hr|].
  intros p C. rewrite (PatternRuns.likelihood_empty v p C). cbn [snd].
  split; [reflexivity|exact C].
Qed.

Lemma preserves_on_vector r :
  In r all_patterns -> preserves invariant (on r ModuloPattern.vector).
Proof.
  intros Hr. apply preserves_on; [exact Hr|].
  intros p C. rewrite (PatternRuns.vector_keeps p C).
  split; [reflexivity|exact C].
Qed.

Lemma invariant_set_index ts hd nd nw s :
  invariant s -> invariant (set_index ts hd nd nw s).
Proof.
  intros [Hc Hk]. split.
  - apply configured_intro. intros r Hr.
    rewrite ref_get_set_index by assumption. apply configured_at; assumption.
  - intros r Hr. rewrite ref_get_set_index by assumption. apply Hk. exact Hr.
Qed.

Lemma preserves_add1 timestamp : preserves invariant (add1 timestamp).
Proof.
  unfold add1, timestamp_hour_of_day_of_week_of_month.
  apply preserves_bind; [apply preserves_get|intros self].
  apply preserves_bind;
    [apply preserves_modify; intros s; apply invariant_set_index|intros _].
  repeat first
    [ apply preserves_on_add; unfold all_patterns; simpl; tauto
    | apply preserves_lift
    | apply preserves_bind; [|intros ?] ].
Qed.

Lemma preserves_add batch : preserves invariant (add batch).
Proof. apply preserves_for_each. apply preserves_add1. Qed.

Lemma preserves_likelihoods1 timestamp : preserves invariant (likelihoods1 timestamp).
Proof.
  unfold likelihoods1.
  repeat first
    [ apply preserves_on_likelihood; unfold all_patterns; simpl; tauto
    | apply preserves_lift
    | apply preserves_ret
    | apply preserves_bind; [|intros ?] ].
Qed.

Lemma preserves_likelihood batch : preserves invariant (likelihood batch).
Proof.
  unfold likelihood.
  apply preserves_bind; [apply preserves_lift|intros l].
  apply preserves_bind; [|intros ?; apply preserves_ret].
  apply preserves_map_m. apply preserves_likelihoods1.
Qed.

Lemma preserves_vectors_loop rs d :
  (forall r, In r rs -> In r all_patterns) ->
  preserves invariant (vectors_loop rs d).
Proof.
  revert d. induction rs as [|r rs IH]; intros d Hin; simpl.
  - apply preserves_ret.
  - apply preserves_bind; [apply preserves_get|intros self].
    destruct (ModuloPattern.is_valid (fst r self)).
    + apply preserves_bind.
      * apply preserves_on_vector. apply Hin. left. reflexivity.
      * intros v. apply IH. intros r0 H0. apply Hin. right. exact H0.
    + apply IH. intros r0 H0. apply Hin. right. exact H0.
Qed.

Lemma preserves_vectors : preserves invariant vectors.
Proof.
  unfold vectors.
  apply preserves_bind; [apply preserves_get|intros self].
  apply preserves_vectors_loop.
  intros r Hr. unfold _patterns in Hr. apply filter_In in Hr. tauto.
Qed.

Lemma initial_invariant : invariant initial.
Proof.
  split; [reflexivity|].
  intros r Hr. each_pattern Hr; split; reflexivity.
Qed.

(** Every state a set can be in satisfies the invariant. *)
Lemma reachable_invariant s : reachable s -> invariant s.
Proof.
  induction 1 as [s E|batch s R IH|batch s R IH|s R IH].
  - rewrite new_initial in E. inversion E; subst. apply initial_invariant.
  - apply preserves_add. exact IH.
  - apply preserves_likelihood. exact IH.
  - apply preserves_vectors. exact IH.
Qed.

End WithNumerics.
End SetFacts.

(** *** Routing a timestamp *)

Lemma bind_get {S B} (k : S -> M S B) s : bind get k s = k s s.
Proof. reflexivity. Qed.

Lemma bind_modify {S B} (f : S -> S) (k : unit -> M S B) s :
  bind (modify f) k s = k tt (f s).
Proof. reflexivity. Qed.

Lemma bind_lift_inr {S A B} (a : A) (k : A -> M S B) s :
  bind (lift (inr a)) k s = k a s.
Proof. reflexivity. Qed.

Lemma bind_lift_inl {S A B} e (k : A -> M S B) s :
  bind (lift (inl e)) k s = (inl e, s).
Proof. reflexivity. Qed.

Module Routing.

Import TimeStampSetV2 SetSpec.

Lemma on_add r v s :
  on r (ModuloPattern.add (VFloat v) VNone) s
  = (inr tt, snd r (PatternSpec.added v VNone (fst r s)) s).
Proof.
  unfold on, zoom.
  rewrite (PatternRuns.add_number (VFloat v) VNone v _ eq_refl). reflexivity.
Qed.

Lemma bind_on_add {B} r v (k : unit -> M t B) s :
  bind (on r (ModuloPattern.add (VFloat v) VNone)) k s
  = k tt (snd r (PatternSpec.added v VNone (fst r s)) s).
Proof. unfold bind. rewrite on_add. reflexivity. Qed.

Lemma received_added v p : PatternSpec.received p (PatternSpec.added v VNone p).
Proof.
  eexists. apply PatternRuns.added_remainders.
Qed.

(** The phases of a timestamp before year 9999 are all defined. *)
Lemma in_range_phases timestamp :
  in_range timestamp ->
  exists m y,
    _timestamp_month (datetime.replace_tzinfo datetime.utc timestamp) = inr m
    /\ _timestamp_year (datetime.replace_tzinfo datetime.utc timestamp) = inr y.
Proof.
  intros [[Hy _] Hmax]. unfold datetime.MAXYEAR in *.
  unfold _timestamp_month, _timestamp_year, datetime.next_month_start,
    datetime.replace_year, datetime.MAXYEAR.
  cbn [datetime.year datetime.month datetime.replace_month_start
       datetime.replace_year_start datetime.replace_tzinfo].
  assert (B1 : (9999 <=? datetime.year timestamp) = false)
    by (apply Z.leb_gt; lia).
  assert (B2 : (1 <=? datetime.year timestamp + 1) = true)
    by (apply Z.leb_le; lia).
  assert (B3 : (datetime.year timestamp + 1 <=? 9999) = true)
    by (apply Z.leb_le; lia).
  rewrite B1, B2, B3. cbn [andb rbind].
  destruct (datetime.month timestamp =? 12); cbn [rbind];
    eexists; eexists; split; reflexivity.
Qed.

Lemma n_month_defined timestamp m n :
  _timestamp_month timestamp = inr m ->
  exists v, timestamp_n_month timestamp n = inr v.
Proof.
  intros E. unfold timestamp_n_month. rewrite E. cbn [rbind].
  destruct (Float.divmod m 1). eexists. reflexivity.
Qed.

Lemma n_month_undefined timestamp e n :
  _timestamp_month timestamp = inl e -> timestamp_n_month timestamp n = inl e.
Proof. intros E. unfold timestamp_n_month. rewrite E. reflexivity. Qed.

Lemma n_year_defined timestamp y n :
  _timestamp_year timestamp = inr y ->
  exists v, timestamp_n_year timestamp n = inr v.
Proof.
  intros E. unfold timestamp_n_year. rewrite E. cbn [rbind].
  destruct (Float.divmod y 1). eexists. reflexivity.
Qed.

Lemma n_year_undefined timestamp e n :
  _timestamp_year timestamp = inl e -> timestamp_n_year timestamp n = inl e.
Proof. intros E. unfold timestamp_n_year. rewrite E. reflexivity. Qed.

Ltac run_add1 :=
  repeat first
    [ rewrite bind_get | rewrite bind_modify | rewrite bind_on_add
    | rewrite bind_lift_inr | rewrite bind_lift_inl | rewrite on_add ].

End Routing.

Lemma add_single timestamp s :
  TimeStampSetV2.add [timestamp] s = TimeStampSetV2.add1 timestamp s.
Proof.
  unfold TimeStampSetV2.add. simpl. unfold bind, ret.
  destruct (TimeStampSetV2.add1 timestamp s) as [[e|[]] s']; reflexivity.
Qed.

(** C5, as the code has it.  [add] routes a timestamp to the nine patterns
    one after the other and does not undo anything: the patterns that
    received the value are the first [k] in routing order and the others are
    untouched; [k] is nine exactly when the call returns, which it does for
    every timestamp before year 9999. *)
Theorem add_routes_a_prefix (timestamp : datetime.t) (s : TimeStampSetV2.t) :
  exists k : nat,
    Forall (fun r : TimeStampSetV2.ref =>
              PatternSpec.received (fst r s)
                (fst r (snd (TimeStampSetV2.add [timestamp] s))))
           (firstn k TimeStampSetV2.all_patterns)
    /\ Forall (fun r : TimeStampSetV2.ref =>
                 fst r (snd (TimeStampSetV2.add [timestamp] s)) = fst r s)
              (skipn k TimeStampSetV2.all_patterns)
    /\ (fst (TimeStampSetV2.add [timestamp] s) = inr tt <-> k = 9%nat)
    /\ (SetSpec.in_range timestamp -> k = 9%nat).
Proof.
  rewrite add_single.
  unfold TimeStampSetV2.add1, timestamp_hour_of_day_of_week_of_month. cbv zeta.
  pose proof (Routing.in_range_phases timestamp) as Hr.
  set (ts := datetime.replace_tzinfo datetime.utc timestamp) in *.
  destruct (_timestamp_month ts) as [e|m] eqn:Em.
  - (* the month phase raises *)
    exists 3%nat.
    rewrite !(Routing.n_month_undefined ts e _ Em).
    Routing.run_add1. cbn [fst snd].
    split; [repeat constructor; apply Routing.received_added|].
    split; [repeat constructor|].
    split; [split; [discriminate|intros E; inversion E]|].
    intros R. destruct (Hr R) as [m' [y' [E' _]]]. discriminate.
  - destruct (Routing.n_month_defined ts m 1 Em) as [v1 E1].
    destruct (Routing.n_month_defined ts m 2 Em) as [v2 E2].
    destruct (Routing.n_month_defined ts m 3 Em) as [v3 E3].
    destruct (Routing.n_month_defined ts m 6 Em) as [v6 E6].
    rewrite E1, E2, E3, E6.
    destruct (_timestamp_year ts) as [e|y] eqn:Ey.
    + (* the year phase raises *)
      exists 7%nat.
      rewrite !(Routing.n_year_undefined ts e _ Ey).
      Routing.run_add1. cbn [fst snd].
      split; [repeat constructor; apply Routing.received_added|].
      split; [repeat constructor|].
      split; [split; [discriminate|intros E; inversion E]|].
      intros R. destruct (Hr R) as [m' [y' [_ E']]]. discriminate.
    + destruct (Routing.n_year_defined ts y 1 Ey) as [w1 F1].
      destruct (Routing.n_year_defined ts y 2 Ey) as [w2 F2].
      rewrite F1, F2.
      exists 9%nat.
      Routing.run_add1. cbn [fst snd].
      split; [repeat constructor; apply Routing.received_added|].
      split; [repeat constructor|].
      split; [split; reflexivity|reflexivity].
Qed.


Lemma noon_in_range : SetSpec.in_range Examples.noon_naive.
Proof.
  unfold SetSpec.in_range, datetime.valid, datetime.MAXYEAR. cbn. lia.
Qed.

Lemma add_routes_a_prefix_witness :
  fst (TimeStampSetV2.add [Examples.noon_naive] SetSpec.initial) = inr tt.
Proof.
  destruct (add_routes_a_prefix Examples.noon_naive SetSpec.initial)
    as [k [_ [_ [Hk Hr]]]].
  apply Hk. apply Hr. exact noon_in_range.
Defined.

(** C5 as stated fails: for a day of December 9999 the month phase raises
    [OverflowError] after the day, week and fortnight patterns have taken
    the value, and they keep it, while the other six hold nothing. *)
Lemma add_leaves_partial_routing :
  fst (TimeStampSetV2.add [Examples.last_december] SetSpec.initial)
  = inl OverflowError
  /\ map ModuloPattern.remainders
       (SetSpec.patterns
          (snd (TimeStampSetV2.add [Examples.last_december] SetSpec.initial)))
     = [[0%Q]; [2 # 7]; [9 # 14]; []; []; []; []; []; []].
Proof.
  split; reflexivity.
Qed.

(** *** Time zones *)

Lemma utc_of_wall_clock a b :
  datetime.same_wall_clock a b ->
  datetime.replace_tzinfo datetime.utc a = datetime.replace_tzinfo datetime.utc b.
Proof.
  unfold datetime.same_wall_clock. intros E.
  change (datetime.replace_tzinfo datetime.utc a)
    with (datetime.replace_tzinfo datetime.utc (datetime.replace_tzinfo None a)).
  rewrite E. reflexivity.
Qed.

Lemma add1_wall_clock a b s :
  datetime.same_wall_clock a b -> TimeStampSetV2.add1 a s = TimeStampSetV2.add1 b s.
Proof.
  intros E. unfold TimeStampSetV2.add1. cbv zeta.
  rewrite (utc_of_wall_clock a b E). reflexivity.
Qed.

Lemma add_wall_clock batch batch' s :
  Forall2 datetime.same_wall_clock batch batch' ->
  TimeStampSetV2.add batch s = TimeStampSetV2.add batch' s.
Proof.
  intros F. revert s. unfold TimeStampSetV2.add.
  induction F as [|a b l l' E F IH]; intros s; simpl.
  - reflexivity.
  - unfold bind. rewrite (add1_wall_clock a b s E).
    destruct (TimeStampSetV2.add1 b s) as [[e|u] s']; [reflexivity|apply IH].
Qed.

(** C6, as the code has it.  [add] and [likelihood] overwrite the zone of an
    incoming timestamp with UTC and keep its wall clock: batches that show
    the same wall clocks, whatever zones they carry, leave the same set after
    [add], and two timestamps that show the same wall clock get the same
    likelihood. *)
Theorem zone_is_overwritten `{Numerics} (batch batch' : list datetime.t)
    (a b : datetime.t) (s : TimeStampSetV2.t) :
  Forall2 datetime.same_wall_clock batch batch' ->
  datetime.same_wall_clock a b ->
  TimeStampSetV2.add batch s = TimeStampSetV2.add batch' s
  /\ TimeStampSetV2.likelihood [a] s = TimeStampSetV2.likelihood [b] s.
Proof.
  intros F E. split.
  - apply add_wall_clock. exact F.
  - unfold TimeStampSetV2.likelihood.
    change (datetime.sorted_datetimes [a]) with (@inr exn _ [a]).
    change (datetime.sorted_datetimes [b]) with (@inr exn _ [b]).
    rewrite !bind_lift_inr. cbn [map_m].
    unfold TimeStampSetV2.likelihoods1. cbv zeta.
    rewrite (utc_of_wall_clock a b E). reflexivity.
Qed.

Lemma zone_is_overwritten_witness :
  TimeStampSetV2.add [Examples.noon_utc] Examples.trained
  = TimeStampSetV2.add [Examples.noon_naive] Examples.trained
  /\ @TimeStampSetV2.likelihood Examples.flat [Examples.noon_utc] Examples.trained
     = @TimeStampSetV2.likelihood Examples.flat [Examples.noon_naive] Examples.trained.
Proof.
  apply (@zone_is_overwritten Examples.flat).
  - constructor; [reflexivity|constructor].
  - reflexivity.
Defined.

(** C6 as stated fails: noon in UTC and eight in the evening on a clock
    eight hours ahead are the same instant, yet their phases differ and
    [add] leaves different sets. *)
Lemma same_instant_different_phases :
  datetime.same_instant Examples.noon_utc Examples.noon_utc_plus8
  /\ SetSpec.phases Examples.noon_utc <> SetSpec.phases Examples.noon_utc_plus8
  /\ snd (TimeStampSetV2.add [Examples.noon_utc] SetSpec.initial)
     <> snd (TimeStampSetV2.add [Examples.noon_utc_plus8] SetSpec.initial).
Proof.
  split; [repeat split|]. split.
  - intros E. apply (f_equal (fun l => hd (inl IndexError) l)) in E.
    vm_compute in E. discriminate E.
  - intros E.
    apply (f_equal (fun s => ModuloPattern.remainders (TimeStampSetV2.day s))) in E.
    vm_compute in E. discriminate E.
Qed.

(** *** Likelihood *)

Module LikelihoodFacts.

Import TimeStampSetV2 SetSpec.

Lemma insert_sorted_perm {A} (ltb : A -> A -> bool) x l :
  Permutation (x :: l) (insert_sorted ltb x l).
Proof.
  induction l as [|y l IH]; simpl.
  - apply Permutation_refl.
  - destruct (ltb x y).
    + apply Permutation_refl.
    + apply perm_trans with (y :: x :: l); [apply perm_swap|].
      apply perm_skip. exact IH.
Qed.

Lemma sorted_perm {A} (ltb : A -> A -> bool) l : Permutation l (sorted ltb l).
Proof.
  unfold sorted.
  assert (T : forall acc, Permutation (acc ++ l)
                (fold_left (fun acc x => insert_sorted ltb x acc) l acc)).
  { induction l as [|x l IH]; intros acc; simpl.
    - rewrite app_nil_r. apply Permutation_refl.
    - apply perm_trans with (insert_sorted ltb x acc ++ l); [|apply IH].
      apply perm_trans with ((x :: acc) ++ l).
      + apply Permutation_sym. apply Permutation_middle.
      + apply Permutation_app_tail. apply insert_sorted_perm. }
  exact (T []).
Qed.

Lemma sorted_nonempty {A} (ltb : A -> A -> bool) (l : list A) :
  l <> [] -> sorted ltb l <> [].
Proof.
  intros N E. apply N. apply Permutation_nil.
  rewrite <- E. apply Permutation_sym. apply sorted_perm.
Qed.

(** What [sorted] answers is a [TypeError] or a list as long as the
    batch. *)
Lemma sorted_datetimes_cases batch :
  datetime.sorted_datetimes batch = inl (TypeError [])
  \/ datetime.sorted_datetimes batch = inr (sorted datetime.ltb batch).
Proof.
  unfold datetime.sorted_datetimes.
  destruct ((len batch <=? 1) || forallb datetime.is_aware batch
            || forallb (fun d => negb (datetime.is_aware d)) batch);
    [right|left]; reflexivity.
Qed.

Section WithNumerics.
Context `{Numerics}.

(** A pattern of a set asked for a likelihood raises and the set is as it
    was. *)
Lemma on_likelihood_raises r v s :
  In r all_patterns -> invariant s ->
  on r (ModuloPattern.likelihood v) s = (inl (TypeError []), s).
Proof.
  intros Hr [_ Hk]. unfold on, zoom.
  rewrite (PatternRuns.likelihood_empty v (fst r s) (Hk r Hr)).
  rewrite (SetFacts.ref_set_get r s Hr). reflexivity.
Qed.

(** The first of the nine patterns is asked first. *)
Lemma likelihoods1_raises timestamp s :
  invariant s -> likelihoods1 timestamp s = (inl (TypeError []), s).
Proof.
  intros I. unfold likelihoods1. cbv zeta. unfold bind at 1.
  rewrite (on_likelihood_raises day_ _ s); [reflexivity| |exact I].
  unfold all_patterns. simpl. tauto.
Qed.

End WithNumerics.
End LikelihoodFacts.

Lemma trained_reachable : @SetSpec.reachable Examples.flat Examples.trained.
Proof.
  assert (E : Examples.trained
              = snd (TimeStampSetV2.add Examples.january SetSpec.initial))
    by (vm_compute; reflexivity).
  rewrite E. apply SetSpec.reach_add. apply SetSpec.reach_new. reflexivity.
Qed.

Lemma trained_later_reachable :
  @SetSpec.reachable Examples.flat Examples.trained_later.
Proof.
  assert (E : Examples.trained_later
              = snd (TimeStampSetV2.add Examples.march SetSpec.initial))
    by (vm_compute; reflexivity).
  rewrite E. apply SetSpec.reach_add. apply SetSpec.reach_new. reflexivity.
Qed.

(** C2 (not met by the code).  [likelihood] does ask all nine patterns and
    does combine their answers by the power mean, but no pattern ever
    answers: [ModuloPattern.kde] hands the list [self.remainders] to
    [plot_kde_modulo], whose [xs % modulo] is not defined on a list.  On a
    set in any state it can reach, [likelihood] of any batch that is not
    empty raises [TypeError] (from [sorted] if the batch mixes naive and
    aware timestamps, from the day pattern otherwise) and leaves the set as
    it was. *)
Theorem likelihood_never_returns `{Numerics} (batch : list datetime.t)
    (s : TimeStampSetV2.t) :
  SetSpec.reachable s -> batch <> [] ->
  TimeStampSetV2.likelihood batch s = (inl (TypeError []), s).
Proof.
  intros R N. pose proof (SetFacts.reachable_invariant s R) as I.
  unfold TimeStampSetV2.likelihood.
  destruct (LikelihoodFacts.sorted_datetimes_cases batch) as [E|E]; rewrite E.
  - reflexivity.
  - rewrite bind_lift_inr.
    pose proof (LikelihoodFacts.sorted_nonempty datetime.ltb batch N) as N'.
    destruct (sorted datetime.ltb batch) as [|timestamp l]; [congruence|].
    cbn [map_m]. unfold bind at 1. unfold bind at 1.
    rewrite (LikelihoodFacts.likelihoods1_raises timestamp s I). reflexivity.
Qed.

Lemma likelihood_never_returns_witness :
  @TimeStampSetV2.likelihood Examples.flat [Examples.noon_utc] Examples.trained
  = (inl (TypeError []), Examples.trained).
Proof.
  apply (@likelihood_never_returns Examples.flat [Examples.noon_utc]
           Examples.trained).
  - exact trained_reachable.
  - discriminate.
Defined.

(** *** Similarity *)

Module SimilarityFacts.

Import TimeStampSetV2 SetSpec.

(** Dicts built from keys that are all different. *)
Section Keyed.
Context {R V : Type} (key : R -> string) (val : R -> V).

Lemma dict_get_absent (g : R -> bool) l k :
  ~ In k (map key l) ->
  dict_get String.eqb k (map (fun r => (key r, val r)) (filter g l)) = None.
Proof.
  induction l as [|r l IH]; simpl; intros N; [reflexivity|].
  destruct (g r); simpl.
  - destruct (String.eqb k (key r)) eqn:B.
    + apply String.eqb_eq in B. exfalso. apply N. left. congruence.
    + apply IH. intros Hin. apply N. right. exact Hin.
  - apply IH. intros Hin. apply N. right. exact Hin.
Qed.

Lemma dict_get_present (g : R -> bool) l r :
  NoDup (map key l) -> In r l ->
  dict_get String.eqb (key r) (map (fun r => (key r, val r)) (filter g l))
  = if g r then Some (val r) else None.
Proof.
  induction l as [|r0 l IH]; simpl; intros N Hin; [contradiction|].
  inversion N as [|k ks Nk Nl]; subst.
  destruct Hin as [E|Hin].
  - subst r0. destruct (g r); simpl.
    + rewrite String.eqb_refl. reflexivity.
    + apply dict_get_absent. exact Nk.
  - assert (D : String.eqb (key r) (key r0) = false).
    { destruct (String.eqb (key r) (key r0)) eqn:B; [|reflexivity].
      apply String.eqb_eq in B. exfalso. apply Nk. rewrite <- B.
      apply in_map. exact Hin. }
    destruct (g r0); simpl; [rewrite D|]; apply IH; assumption.
Qed.

Lemma dict_set_fresh (d : dict string V) k v :
  ~ In k (keys d) -> dict_set String.eqb k v d = d ++ [(k, v)].
Proof.
  induction d as [|[k0 v0] d IH]; simpl; intros N; [reflexivity|].
  destruct (String.eqb k k0) eqn:B.
  - apply String.eqb_eq in B. exfalso. apply N. left. congruence.
  - f_equal. apply IH. intros Hin. apply N. right. exact Hin.
Qed.

Lemma fold_dict_set l (d : dict string V) :
  NoDup (keys d ++ map key l) ->
  fold_left (fun d r => dict_set String.eqb (key r) (val r) d) l d
  = d ++ map (fun r => (key r, val r)) l.
Proof.
  revert d. induction l as [|r l IH]; intros d N; simpl.
  - rewrite app_nil_r. reflexivity.
  - assert (F : ~ In (key r) (keys d)).
    { intros Hin. apply NoDup_remove_2 in N. apply N.
      apply in_or_app. left. exact Hin. }
    rewrite (dict_set_fresh d _ _ F), IH.
    + rewrite <- app_assoc. reflexivity.
    + unfold keys in *. rewrite map_app. simpl. rewrite <- app_assoc.
      exact N.
Qed.

End Keyed.

Lemma NoDup_map_filter {R} (key : R -> string) (g : R -> bool) l :
  NoDup (map key l) -> NoDup (map key (filter g l)).
Proof.
  induction l as [|r l IH]; simpl; intros N; [constructor|].
  inversion N as [|k ks Nk Nl]; subst.
  destruct (g r); simpl; [|apply IH; exact Nl].
  constructor; [|apply IH; exact Nl].
  intros Hin. apply Nk. apply in_map_iff in Hin.
  destruct Hin as [x [E Hx]]. apply filter_In in Hx.
  rewrite <- E. apply in_map. tauto.
Qed.

(** The canonical name behind a reference. *)
Lemma names_initial :
  map (fun r : ref => ModuloPattern.name (fst r initial)) all_patterns
  = pattern_names.
Proof. reflexivity. Qed.

Lemma name_at s r :
  configured s -> In r all_patterns ->
  ModuloPattern.name (fst r s) = ModuloPattern.name (fst r initial).
Proof.
  intros C Hr. pose proof (SetFacts.configured_at s r C Hr) as E.
  unfold config in E. inversion E. reflexivity.
Qed.

Lemma names_distinct :
  NoDup (map (fun r : ref => ModuloPattern.name (fst r initial)) all_patterns).
Proof.
  rewrite names_initial. unfold pattern_names.
  repeat (constructor; [simpl; intros Hin;
    repeat (destruct Hin as [Hin|Hin]; [discriminate Hin|]); exact Hin|]).
  constructor.
Qed.

End SimilarityFacts.

Module SimilarityRuns.

Import TimeStampSetV2 SetSpec.

Section WithNumerics.
Context `{Numerics}.

(** A valid pattern of a set asked for its vector raises and the set is
    as it was. *)
Lemma on_vector_raises r s :
  In r all_patterns -> invariant s ->
  on r ModuloPattern.vector s = (inl (TypeError []), s).
Proof.
  intros Hr [Hc Hk]. unfold on, zoom.
  destruct (SetFacts.configured_dimension s r Hc Hr) as (Hd & _).
  rewrite (PatternRuns.vector_empty (fst r s) (Hk r Hr)) by lia.
  rewrite (SetFacts.ref_set_get r s Hr). reflexivity.
Qed.

(** [vectors] returns the empty dict when no pattern is valid and raises
    on the first valid pattern otherwise. *)
Lemma vectors_run s :
  invariant s ->
  vectors s
  = (match _patterns s with
     | [] => inr []
     | _ :: _ => inl (TypeError [])
     end, s).
Proof.
  intros I. unfold vectors. rewrite bind_get.
  destruct (_patterns s) as [|r rs] eqn:E; [reflexivity|].
  assert (Hr : In r (_patterns s)) by (rewrite E; left; reflexivity).
  unfold _patterns in Hr. apply filter_In in Hr. destruct Hr as [Hr V].
  cbn [vectors_loop]. rewrite bind_get, V. unfold bind.
  rewrite (on_vector_raises r s Hr I). reflexivity.
Qed.

(** [similarity] asks [other.vectors], then [self.vectors]. *)
Lemma similarity_run a b :
  invariant a -> invariant b ->
  TimeStampSetV2.similarity (a, b)
  = (match _patterns a, _patterns b with
     | [], [] => inr (0%Q, 0)
     | _, _ => inl (TypeError [])
     end, (a, b)).
Proof.
  intros Ia Ib. unfold TimeStampSetV2.similarity.
  unfold bind at 1. unfold zoom at 1. cbn [snd fst].
  rewrite (vectors_run b Ib).
  destruct (_patterns b) as [|rb rsb].
  - unfold bind at 1. unfold zoom at 1. cbn [snd fst].
    rewrite (vectors_run a Ia).
    destruct (_patterns a) as [|ra rsa]; reflexivity.
  - destruct (_patterns a); reflexivity.
Qed.

End WithNumerics.
End SimilarityRuns.

(** C3 (not met by the code).  [similarity] does restrict itself to the
    patterns valid in both sets and does return [(0, 0)] when no pattern
    is valid in either, but it never gets a vector to compare: as soon as
    one of the two sets has a valid pattern, [vectors] asks that pattern
    for its vector, [vector] asks [kde], and [kde] raises [TypeError] (the
    list handed to [plot_kde_modulo]).  The two sets are left as they
    were. *)
Theorem similarity_raises_on_valid_pattern `{Numerics}
    (a b : TimeStampSetV2.t) :
  SetSpec.reachable a -> SetSpec.reachable b ->
  TimeStampSetV2._patterns a <> [] \/ TimeStampSetV2._patterns b <> [] ->
  TimeStampSetV2.similarity (a, b) = (inl (TypeError []), (a, b)).
Proof.
  intros Ra Rb V.
  rewrite (SimilarityRuns.similarity_run a b
             (SetFacts.reachable_invariant a Ra)
             (SetFacts.reachable_invariant b Rb)).
  destruct (TimeStampSetV2._patterns a) as [|ra rsa];
    destruct (TimeStampSetV2._patterns b) as [|rb rsb];
    try reflexivity.
  destruct V as [V|V]; congruence.
Qed.

Lemma similarity_raises_on_valid_pattern_witness :
  @TimeStampSetV2.similarity Examples.flat
    (Examples.trained, Examples.trained_later)
  = (inl (TypeError []), (Examples.trained, Examples.trained_later)).
Proof.
  apply (@similarity_raises_on_valid_pattern Examples.flat
           Examples.trained Examples.trained_later).
  - exact trained_reachable.
  - exact trained_later_reachable.
  - left. discriminate.
Defined.



(* ================================================================== *)
(** * Further properties of the code *)

(** ** Floor and [divmod] *)

Module DivmodFacts.

Lemma floor_unique (x : Q) (z : Z) :
  (inject_Z z <= x)%Q -> (x < inject_Z (z + 1))%Q -> Qfloor x = z.
Proof.
  intros L U.
  pose proof (Qfloor_le x) as L'. pose proof (Qlt_floor x) as U'.
  assert (A : (inject_Z z < inject_Z (Qfloor x + 1))%Q) by lra.
  assert (B : (inject_Z (Qfloor x) < inject_Z (z + 1))%Q) by lra.
  rewrite <- Zlt_Qlt in A, B. lia.
Qed.

Lemma floor_shift (x : Q) (k : Z) : Qfloor (x + inject_Z k) = Qfloor x + k.
Proof.
  apply floor_unique.
  - rewrite inject_Z_plus. pose proof (Qfloor_le x). lra.
  - replace (Qfloor x + k + 1) with ((Qfloor x + 1) + k) by lia.
    rewrite (inject_Z_plus (Qfloor x + 1) k). pose proof (Qlt_floor x). lra.
Qed.

(** [divmod] splits a number into whole periods and a remainder. *)
Lemma divmod_sum (x m : Q) :
  ~ (m == 0)%Q ->
  (x == inject_Z (fst (Float.divmod x m)) * m + snd (Float.divmod x m))%Q.
Proof.
  intros Hm. unfold Float.divmod. cbn [fst snd]. rewrite Qred_correct. ring.
Qed.

(** Moving a number by whole periods moves the quotient and keeps the
    remainder. *)
Lemma divmod_shift (x m : Q) (k : Z) :
  ~ (m == 0)%Q ->
  Float.divmod (Float.add x (Float.mul (Float.of_Z k) m)) m
  = (fst (Float.divmod x m) + k, snd (Float.divmod x m)).
Proof.
  intros Hm. unfold Float.divmod, Float.add, Float.mul, Float.of_Z.
  cbn [fst snd].
  assert (F : Qfloor (Qred (x + Qred (inject_Z k * m)) / m) = Qfloor (x / m) + k).
  { rewrite <- floor_shift. apply Qfloor_comp.
    rewrite !Qred_correct. field. assumption. }
  rewrite F. f_equal. apply Qred_complete.
  rewrite !Qred_correct, inject_Z_plus. ring.
Qed.

End DivmodFacts.

(** ** What a pattern keeps *)

Module PatternKeeps.

Import ModuloPattern PatternSpec PatternLaws.

Lemma item_count_setdefault {K V} (eqb : K -> K -> bool) k (x : V) d :
  item_count (setdefault_append eqb k x d) = item_count d + 1.
Proof.
  induction d as [|[k0 l] d IH]; simpl.
  - unfold len. simpl. lia.
  - destruct (eqb k k0); simpl.
    + unfold len. rewrite length_app. simpl. lia.
    + rewrite IH. lia.
Qed.

Lemma keys_setdefault {K V} (eqb : K -> K -> bool) k (x : V) d :
  (forall a, eqb a a = true) ->
  keys (setdefault_append eqb k x d) = keys d
  \/ (keys (setdefault_append eqb k x d) = keys d ++ [k] /\ ~ In k (keys d)).
Proof.
  intros Hrefl. induction d as [|[k0 l] d IH]; simpl.
  - right. split; [reflexivity|intros []].
  - destruct (eqb k k0) eqn:B; simpl.
    + left. reflexivity.
    + destruct IH as [IH|[IH N]].
      * left. f_equal. exact IH.
      * right. split; [f_equal; exact IH|].
        intros [E|Hin]; [|exact (N Hin)].
        subst k0. rewrite Hrefl in B. discriminate.
Qed.

Lemma keys_setdefault_nodup {K V} (eqb : K -> K -> bool) k (x : V) d :
  (forall a, eqb a a = true) ->
  NoDup (keys d) -> NoDup (keys (setdefault_append eqb k x d)).
Proof.
  intros Hrefl N.
  destruct (keys_setdefault eqb k x d Hrefl) as [E|[E F]]; rewrite E.
  - exact N.
  - apply NoDup_app.
    + exact N.
    + constructor; [intros []|constructor].
    + intros a Ha [Ea|[]]. subst a. exact (F Ha).
Qed.

(** What is filed under a key just used is what was there, then the new
    item. *)
Lemma setdefault_get {K V} (eqb : K -> K -> bool) k (x : V) d :
  (forall a, eqb a a = true) ->
  dict_get eqb k (setdefault_append eqb k x d) = Some (items_at eqb k d ++ [x]).
Proof.
  intros Hrefl. unfold items_at.
  induction d as [|[k0 l] d IH]; simpl.
  - rewrite Hrefl. reflexivity.
  - destruct (eqb k k0) eqn:B; simpl; rewrite B; [reflexivity|exact IH].
Qed.

Lemma float_eqb_refl (a : Q) : Float.eqb a a = true.
Proof. apply FloatFacts.eqb_eq. reflexivity. Qed.

Section WithNumerics.
Context `{Numerics}.

(** Induction over the states of a pattern, by what happens to its data. *)
Lemma reachable_data_ind (P : t -> Prop) :
  (forall a p, new a = inr p -> P p) ->
  (forall x item p, reachable p -> P p -> P (added x item p)) ->
  (forall p p', same_data p p' -> P p -> P p') ->
  forall p, reachable p -> P p.
Proof.
  intros Hnew Hadd Hsame p R.
  induction R as [a p E|value item p R IH|dim p R IH|p R IH|value p R IH].
  - exact (Hnew a p E).
  - destruct (as_number value) as [e|x] eqn:En.
    + rewrite (PatternRuns.add_rejected _ _ _ _ En). cbn [snd].
      apply (Hsame p); [apply PatternRuns.same_data_cleared|exact IH].
    + rewrite (PatternRuns.add_number _ _ _ _ En). cbn [snd].
      apply Hadd; assumption.
  - destruct (Validity.reachable_inv p R) as (_ & C & _).
    rewrite (PatternRuns.kde_empty dim p C). exact IH.
  - destruct (Validity.reachable_inv p R) as (_ & C & _).
    rewrite (PatternRuns.vector_keeps p C). exact IH.
  - destruct (Validity.reachable_inv p R) as (_ & C & _).
    rewrite (PatternRuns.likelihood_empty value p C). exact IH.
Qed.

End WithNumerics.
End PatternKeeps.

Lemma seasoned_reachable : @PatternSpec.reachable Examples.flat Examples.seasoned.
Proof.
  change Examples.seasoned
    with (Examples.adds Examples.seasoned_values Examples.fresh).
  apply adds_reachable.
  apply (PatternSpec.reach_new (ModuloPattern.defaults "p")). reflexivity.
Qed.

(** X2.  The two indices of a pattern file every observation once: each
    holds as many items as there are remainders, under keys that are all
    different. *)
Theorem indices_count_observations `{Numerics} (p : ModuloPattern.t) :
  PatternSpec.reachable p ->
  PatternLaws.item_count (ModuloPattern._quotients p)
  = len (ModuloPattern.remainders p)
  /\ PatternLaws.item_count (ModuloPattern._remainders p)
     = len (ModuloPattern.remainders p)
  /\ NoDup (keys (ModuloPattern._quotients p))
  /\ NoDup (keys (ModuloPattern._remainders p)).
Proof.
  revert p. apply PatternKeeps.reachable_data_ind.
  - intros a p E. unfold ModuloPattern.new, rbind in E.
    destruct (ModuloPattern.arg_name a) as [| | |s]; try discriminate.
    destruct (String.length s =? 0)%nat; [discriminate|].
    destruct (ModuloPattern.arg_x_axis_name a) as [| | |s']; try discriminate;
      try destruct (String.length s' =? 0)%nat;
      (destruct (Float.eqb (ModuloPattern.arg_modulo a) 0); [discriminate|];
       destruct (ModuloPattern.arg_vector_dimension a) as [|d| |];
       try discriminate;
       destruct (0 <? d); [|discriminate];
       inversion E; subst; simpl; repeat split; constructor).
  - intros x item p R (Q1 & Q2 & N1 & N2).
    unfold PatternSpec.added.
    destruct (Float.divmod x (ModuloPattern.modulo p)) as [quotient remainder].
    cbn [ModuloPattern._quotients ModuloPattern._remainders
         ModuloPattern.remainders ModuloPattern.set__remainders
         ModuloPattern.set__quotients ModuloPattern.set_remainders
         ModuloPattern.set_max ModuloPattern.set_min
         PatternSpec.caches_cleared ModuloPattern.set___vector
         ModuloPattern.set___kde].
    rewrite !PatternKeeps.item_count_setdefault, Q1, Q2.
    assert (L : len (ModuloPattern.remainders p ++ [remainder])
                = len (ModuloPattern.remainders p) + 1)
      by (unfold len; rewrite length_app; simpl; lia).
    rewrite L. repeat split.
    + apply PatternKeeps.keys_setdefault_nodup; [apply Z.eqb_refl|exact N1].
    + apply PatternKeeps.keys_setdefault_nodup;
        [apply PatternKeeps.float_eqb_refl|exact N2].
  - intros p p' S IH.
    destruct (PatternRuns.same_data_fields p p' S)
      as (_ & _ & _ & _ & _ & _ & _ & Er & Eq & Erm).
    rewrite Er, Eq, Erm. exact IH.
Qed.

Lemma indices_count_observations_witness :
  PatternLaws.item_count (ModuloPattern._quotients Examples.spread)
  = len (ModuloPattern.remainders Examples.spread).
Proof.
  apply (@indices_count_observations Examples.flat Examples.spread).
  change Examples.spread with
    (Examples.adds
       [VFloat (13 # 2); VInt 2; VFloat (5 # 4); VFloat (37 # 4); VInt 3;
        VFloat (11 # 2); VFloat (7 # 3); VFloat (19 # 2)] Examples.fresh).
  apply adds_reachable.
  apply (PatternSpec.reach_new (ModuloPattern.defaults "p")). reflexivity.
Defined.

(** X3.  [add] files the item under the quotient and under the remainder of
    the value, after whatever was filed there, and appends the remainder to
    the sequence of remainders. *)
Theorem add_files_the_item (p : ModuloPattern.t) (value item : pyval) (x : Q) :
  ModuloPattern.as_number value = inr x ->
  dict_get Z.eqb (fst (Float.divmod x (ModuloPattern.modulo p)))
    (ModuloPattern._quotients (snd (ModuloPattern.add value item p)))
  = Some (PatternLaws.items_at Z.eqb
            (fst (Float.divmod x (ModuloPattern.modulo p)))
            (ModuloPattern._quotients p) ++ [item])
  /\ dict_get Float.eqb (snd (Float.divmod x (ModuloPattern.modulo p)))
       (ModuloPattern._remainders (snd (ModuloPattern.add value item p)))
     = Some (PatternLaws.items_at Float.eqb
               (snd (Float.divmod x (ModuloPattern.modulo p)))
               (ModuloPattern._remainders p) ++ [item])
  /\ ModuloPattern.remainders (snd (ModuloPattern.add value item p))
     = ModuloPattern.remainders p
         ++ [snd (Float.divmod x (ModuloPattern.modulo p))].
Proof.
  intros En. rewrite (PatternRuns.add_number _ _ _ _ En). cbn [snd].
  split; [|split; [|apply PatternRuns.added_remainders]];
    unfold PatternSpec.added;
    destruct (Float.divmod x (ModuloPattern.modulo p)) as [quotient remainder];
    cbn [fst snd ModuloPattern._quotients ModuloPattern._remainders
         ModuloPattern.set__remainders ModuloPattern.set__quotients
         ModuloPattern.set_remainders ModuloPattern.set_max
         ModuloPattern.set_min PatternSpec.caches_cleared
         ModuloPattern.set___vector ModuloPattern.set___kde].
  - apply PatternKeeps.setdefault_get. apply Z.eqb_refl.
  - apply PatternKeeps.setdefault_get. apply PatternKeeps.float_eqb_refl.
Qed.

Lemma add_files_the_item_witness :
  dict_get Z.eqb 9
    (ModuloPattern._quotients
       (snd (ModuloPattern.add (VFloat (39 # 4)) (VStr "late") Examples.spread)))
  = Some [VNone; VNone; VStr "late"].
Proof.
  apply (add_files_the_item Examples.spread (VFloat (39 # 4)) (VStr "late")
           (39 # 4)).
  reflexivity.
Defined.

Module ExtremaFacts.

Import ModuloPattern PatternSpec PatternLaws.

Lemma bounds_added values x item p :
  bounds_of values p -> bounds_of (values ++ [x]) (added x item p).
Proof.
  intros B. destruct values as [|v values]; cbn [app bounds_of] in *.
  - destruct B as [Emin Emax].
    exists x, x. rewrite PatternRuns.added_min, PatternRuns.added_max, Emin, Emax.
    repeat split; try (left; reflexivity).
    constructor; [split; lra|constructor].
  - destruct B as [lo [hi [Emin [Emax [Ilo [Ihi F]]]]]].
    destruct (Validity.min_of_number x lo) as [lo' [E1 [L1 [L2 C1]]]].
    destruct (Validity.max_of_number x hi) as [hi' [E2 [L3 [L4 C2]]]].
    exists lo', hi'.
    rewrite PatternRuns.added_min, PatternRuns.added_max, Emin, Emax.
    split; [exact E1|]. split; [exact E2|].
    assert (Iv : forall y, In y (v :: values) -> In y (v :: values ++ [x])).
    { intros y Hy. change (In y ((v :: values) ++ [x])).
      apply in_or_app. left. exact Hy. }
    assert (Ix : In x (v :: values ++ [x])).
    { change (In x ((v :: values) ++ [x])). apply in_or_app. right.
      left. reflexivity. }
    split; [destruct C1 as [->| ->]; [apply Iv; exact Ilo|exact Ix]|].
    split; [destruct C2 as [->| ->]; [apply Iv; exact Ihi|exact Ix]|].
    change (Forall (fun y => (lo' <= y)%Q /\ (y <= hi')%Q) ((v :: values) ++ [x])).
    apply Forall_app. split.
    + apply (Forall_impl _ (P := fun y => (lo <= y)%Q /\ (y <= hi)%Q));
        [|exact F].
      intros y [Y1 Y2]. split; lra.
    + constructor; [split; lra|constructor].
Qed.

Lemma add_each_bounds values seen p :
  bounds_of seen p ->
  exists p', add_each values p = (inr tt, p') /\ bounds_of (seen ++ values) p'.
Proof.
  revert seen p. induction values as [|x values IH]; intros seen p B.
  - exists p. rewrite app_nil_r. split; [reflexivity|exact B].
  - destruct (IH (seen ++ [x]) (added x VNone p) (bounds_added seen x VNone p B))
      as [p' [E B']].
    exists p'. split.
    + unfold add_each in *. cbn [for_each].
      rewrite (bind_inr _ _ _ _ _
                 (PatternRuns.add_number (VFloat x) VNone x p eq_refl)).
      exact E.
    + rewrite <- app_assoc in B'. exact B'.
Qed.

End ExtremaFacts.

(** X4.  After any sequence of finite floats (neither [nan] nor an
    infinity) has been added to a new pattern, [min] and [max] are the
    least and the greatest of them (and the infinities if there was
    none). *)
Theorem extrema_are_tight (a : ModuloPattern.init_args) (p0 : ModuloPattern.t)
    (values : list Q) :
  ModuloPattern.new a = inr p0 ->
  exists p, PatternLaws.add_each values p0 = (inr tt, p)
            /\ PatternLaws.bounds_of values p.
Proof.
  intros E.
  destruct (Validity.new_inv a p0 E) as (_ & _ & _ & Emin & Emax & _).
  apply (ExtremaFacts.add_each_bounds values [] p0).
  split; assumption.
Qed.

Lemma extrema_are_tight_witness :
  exists p,
    PatternLaws.add_each [7 # 2; (-3) # 4; 12 # 1; 5 # 1] Examples.fresh = (inr tt, p)
    /\ PatternLaws.bounds_of [7 # 2; (-3) # 4; 12 # 1; 5 # 1] p.
Proof.
  apply (extrema_are_tight (ModuloPattern.defaults "p")). reflexivity.
Defined.

(** X5.  [kde] never computes a curve.  Whatever the state of the pattern,
    it leaves the pattern as it was; and on a pattern in any state the
    constructor and the methods lead to, it raises: [AssertionError] for a
    sample count that is not positive, [TypeError] otherwise (the list
    handed to [plot_kde_modulo]). *)
Theorem kde_never_computes `{Numerics} (dim : Z) (p : ModuloPattern.t) :
  snd (ModuloPattern.kde dim p) = p
  /\ (PatternSpec.reachable p ->
      fst (ModuloPattern.kde dim p)
      = inl (if 0 <? dim then TypeError [] else AssertionError)).
Proof.
  split.
  - destruct (dict_get Z.eqb dim (ModuloPattern.__kde p)) as [c|] eqn:G.
    + unfold ModuloPattern.kde. rewrite bind_get, G. reflexivity.
    + rewrite (PatternRuns.kde_miss dim p G). reflexivity.
  - intros R. destruct (Validity.reachable_inv p R) as (_ & C & _).
    rewrite (PatternRuns.kde_empty dim p C). reflexivity.
Qed.

Lemma kde_never_computes_witness :
  fst (@ModuloPattern.kde Examples.flat 1000 Examples.seasoned)
  = inl (TypeError []).
Proof.
  apply (@kde_never_computes Examples.flat 1000 Examples.seasoned).
  exact seasoned_reachable.
Defined.

(** ** The loop of [consecutive] *)

Module RunFacts.

Import ModuloPattern PatternLaws.

Lemma last_opt_snoc {A} (l : list A) x : last_opt (l ++ [x]) = Some x.
Proof. unfold last_opt. rewrite rev_app_distr. reflexivity. Qed.

Lemma last_opt_some {A} (l : list A) b :
  last_opt l = Some b -> exists l', l = l' ++ [b].
Proof.
  unfold last_opt. intros E. destruct (rev l) as [|x r] eqn:Er; [discriminate|].
  inversion E; subst. exists (rev r).
  rewrite <- (rev_involutive l), Er. reflexivity.
Qed.

Lemma last_opt_none {A} (l : list A) : last_opt l = None -> l = [].
Proof.
  unfold last_opt. intros E. destruct (rev l) as [|x r] eqn:Er; [|discriminate].
  rewrite <- (rev_involutive l), Er. reflexivity.
Qed.

Lemma follows_snoc l a b : follows a (l ++ [b]) -> follows a (l ++ [b; b + 1]).
Proof.
  revert a. induction l as [|c l IH]; intros a; simpl.
  - intros [E _]. repeat split. exact E.
  - intros [E F]. split; [exact E|apply IH; exact F].
Qed.

Lemma is_run_snoc l b : is_run (l ++ [b]) -> is_run ((l ++ [b]) ++ [b + 1]).
Proof.
  rewrite <- app_assoc. simpl app.
  destruct l as [|a l]; simpl.
  - intros _. split; [reflexivity|exact I].
  - apply follows_snoc.
Qed.

(** What is reported is made of runs that are long enough. *)
Lemma loop_runs min_length qs out buffer :
  Forall (fun run => is_run run /\ min_length <= len run) out ->
  buffer = [] \/ is_run buffer ->
  Forall (fun run => is_run run /\ min_length <= len run)
         (consecutive_loop min_length qs out buffer).
Proof.
  revert out buffer. induction qs as [|q qs IH]; intros out buffer Ho Hb.
  - exact Ho.
  - cbn [consecutive_loop].
    destruct (last_opt buffer) as [b|] eqn:L.
    + destruct (last_opt_some buffer b L) as [l' El].
      destruct Hb as [Hb|Hb]; [subst buffer; destruct l'; discriminate|].
      destruct (q - 1 =? b) eqn:B1.
      * apply Z.eqb_eq in B1. apply IH; [exact Ho|]. right.
        replace q with (b + 1) by lia. subst buffer.
        apply is_run_snoc. exact Hb.
      * destruct (negb (q =? b)).
        -- apply IH; [|left; reflexivity].
           destruct (min_length <=? len buffer) eqn:B2; [|exact Ho].
           apply Forall_app. split; [exact Ho|].
           constructor; [|constructor].
           split; [exact Hb|apply Z.leb_le; exact B2].
        -- apply IH; [exact Ho|right; exact Hb].
    + apply last_opt_none in L. subst buffer.
      apply IH; [exact Ho|]. right. simpl. exact I.
Qed.

Lemma removelast_prefix {A} (l : list A) x l' :
  removelast (l ++ x :: l') = l ++ removelast (x :: l').
Proof. apply removelast_app. discriminate. Qed.

(** What is reported was seen before the index being read. *)
Lemma loop_elements min_length qs seen out buffer :
  (forall x, In x buffer -> In x seen) ->
  (forall run, In run out ->
               forall x, In x run -> In x (removelast (seen ++ qs))) ->
  forall run, In run (consecutive_loop min_length qs out buffer) ->
              forall x, In x run -> In x (removelast (seen ++ qs)).
Proof.
  revert seen out buffer. induction qs as [|q qs IH]; intros seen out buffer Hb Ho.
  - exact Ho.
  - assert (Hseen : forall x, In x seen -> In x (removelast (seen ++ q :: qs))).
    { intros x Hx. rewrite removelast_prefix. apply in_or_app. left. exact Hx. }
    assert (Eseen : seen ++ q :: qs = (seen ++ [q]) ++ qs)
      by (rewrite <- app_assoc; reflexivity).
    assert (Hq : forall x, In x (buffer ++ [q]) -> In x (seen ++ [q])).
    { intros x Hx. apply in_app_or in Hx. apply in_or_app.
      destruct Hx as [Hx|Hx]; [left; apply Hb; exact Hx|right; exact Hx]. }
    assert (Hb' : forall x, In x buffer -> In x (seen ++ [q])).
    { intros x Hx. apply in_or_app. left. apply Hb. exact Hx. }
    cbn [consecutive_loop]. rewrite Eseen.
    destruct (last_opt buffer) as [b|] eqn:L.
    + destruct (q - 1 =? b).
      * apply IH; [exact Hq|]. rewrite <- Eseen. exact Ho.
      * destruct (negb (q =? b)).
        -- apply IH; [intros x []|]. rewrite <- Eseen.
           destruct (min_length <=? len buffer); [|exact Ho].
           intros run Hrun x Hx. apply in_app_or in Hrun.
           destruct Hrun as [Hrun|[Hrun|[]]]; [exact (Ho run Hrun x Hx)|].
           subst run. apply Hseen. apply Hb. exact Hx.
        -- apply IH; [exact Hb'|]. rewrite <- Eseen. exact Ho.
    + apply IH; [exact Hq|]. rewrite <- Eseen. exact Ho.
Qed.

(** An unbroken run is never reported. *)
Lemma loop_unbroken min_length qs buffer b :
  last_opt buffer = Some b -> follows b qs ->
  consecutive_loop min_length qs [] buffer = [].
Proof.
  revert buffer b. induction qs as [|q qs IH]; intros buffer b L F.
  - reflexivity.
  - destruct F as [E F]. cbn [consecutive_loop]. rewrite L.
    assert (B : (q - 1 =? b) = true) by (apply Z.eqb_eq; lia).
    rewrite B. apply (IH _ q); [apply last_opt_snoc|exact F].
Qed.

End RunFacts.

(** X9.  Whatever [consecutive] returns is made of ascending runs of
    consecutive period indices, each at least [min_length] long, and every
    index in them comes before the last of the sorted indices: the greatest
    index of a pattern is never part of a reported run. *)
Theorem consecutive_reports_runs (p : ModuloPattern.t) (min_length : Z) :
  Forall (fun run =>
            PatternLaws.is_run run /\ min_length <= len run
            /\ forall q, In q run ->
                 In q (removelast (sorted Z.ltb (keys (ModuloPattern._quotients p)))))
         (ModuloPattern.consecutive p min_length).
Proof.
  unfold ModuloPattern.consecutive. apply Forall_forall. intros run Hrun.
  pose proof (RunFacts.loop_runs min_length
                (sorted Z.ltb (keys (ModuloPattern._quotients p))) [] []
                (Forall_nil _) (or_introl eq_refl)) as Hr.
  rewrite Forall_forall in Hr. destruct (Hr run Hrun) as [R1 R2].
  split; [exact R1|]. split; [exact R2|].
  intros q Hq.
  apply (RunFacts.loop_elements min_length
           (sorted Z.ltb (keys (ModuloPattern._quotients p))) [] [] []
           (fun x (Hx : In x []) => Hx)
           (fun run (Hr : In run []) => match Hr with end) run Hrun q Hq).
Qed.

(** X10.  When the period indices of a pattern form one unbroken run (or
    there is none), [consecutive] returns nothing: the run still in the
    buffer when the loop ends is not reported. *)
Theorem consecutive_drops_unbroken_run (p : ModuloPattern.t) (min_length : Z) :
  sorted Z.ltb (keys (ModuloPattern._quotients p)) = []
  \/ PatternLaws.is_run (sorted Z.ltb (keys (ModuloPattern._quotients p))) ->
  ModuloPattern.consecutive p min_length = [].
Proof.
  unfold ModuloPattern.consecutive.
  destruct (sorted Z.ltb (keys (ModuloPattern._quotients p))) as [|q qs].
  - reflexivity.
  - intros [E|F]; [discriminate|].
    cbn [ModuloPattern.consecutive_loop last_opt rev app].
    apply (RunFacts.loop_unbroken min_length qs [q] q); [reflexivity|exact F].
Qed.

Lemma consecutive_drops_unbroken_run_witness :
  ModuloPattern.consecutive Examples.seasoned 2 = [].
Proof.
  apply (consecutive_drops_unbroken_run Examples.seasoned 2).
  right. vm_compute. repeat split.
Defined.

(** ** The sampled density curves *)

Module FitFacts.

Import PatternLaws.

Section WithNumerics.
Context `{Numerics}.

(** [fit] raises [ValueError] on what [KernelDensity] refuses and returns
    the fitted density otherwise. *)
Lemma fit_cases kernel width xs :
  (refused kernel width xs
   /\ kernel_density.fit kernel width xs = inl (ValueError []))
  \/ (~ refused kernel width xs
      /\ kernel_density.fit kernel width xs = inr (density kernel width xs)).
Proof.
  unfold kernel_density.fit, refused.
  destruct (existsb (String.eqb kernel) kernel_density.VALID_KERNELS) eqn:K;
    cbn [negb].
  - apply existsb_exists in K. destruct K as [k [Hk Ek]].
    apply String.eqb_eq in Ek. subst k.
    destruct (Float.ltb 0 width) eqn:W; cbn [negb].
    + apply FloatFacts.ltb_lt in W.
      destruct (len xs =? 0) eqn:L.
      * left. split; [|reflexivity]. right. right.
        apply Z.eqb_eq in L. destruct xs; [reflexivity|].
        unfold len in L. simpl in L. lia.
      * right. split; [|reflexivity].
        intros [N|[N|N]]; [contradiction|contradiction|].
        subst xs. discriminate L.
    + left. split; [|reflexivity]. right. left.
      apply FloatFacts.ltb_ge in W. intros P. apply (Qlt_not_le _ _ P W).
  - left. split; [|reflexivity]. left. intros Hk.
    assert (T : existsb (String.eqb kernel) kernel_density.VALID_KERNELS = true).
    { apply existsb_exists. exists kernel. split; [exact Hk|].
      apply String.eqb_refl. }
    congruence.
Qed.

End WithNumerics.
End FitFacts.

(** X11.  [plot_kde] raises in two ways and no other: [AssertionError]
    exactly when [max_val > min_val] or [n_samples > 0] does not hold, and
    otherwise [ValueError] exactly when [KernelDensity] refuses the fit
    (a kernel it does not know, a bandwidth that is not positive, or no
    data). *)
Theorem plot_kde_raises `{Numerics} (xs : list Q) (min_val max_val : Q)
    (kernel : string) (bandwidth : option Q) (n_samples : Z) (e : exn) :
  kernel_density.plot_kde xs min_val max_val kernel bandwidth n_samples = inl e
  <-> (e = AssertionError /\ (~ (min_val < max_val)%Q \/ n_samples <= 0))
      \/ (e = ValueError []
          /\ (min_val < max_val)%Q /\ 0 < n_samples
          /\ PatternLaws.refused kernel
               (PatternLaws.width_of min_val max_val bandwidth) xs).
Proof.
  unfold kernel_density.plot_kde.
  fold (PatternLaws.width_of min_val max_val bandwidth).
  destruct (Float.ltb min_val max_val) eqn:B1; cbn [negb].
  - apply FloatFacts.ltb_lt in B1.
    destruct (0 <? n_samples) eqn:B2; cbn [negb].
    + apply Z.ltb_lt in B2.
      destruct (FitFacts.fit_cases kernel
                  (PatternLaws.width_of min_val max_val bandwidth) xs)
        as [[R E]|[R E]]; rewrite E; cbn [rbind].
      * split.
        -- intros F. inversion F. right. repeat split; assumption.
        -- intros [[_ [N|N]]|[F _]]; [contradiction|lia|subst e; reflexivity].
      * split; [discriminate|].
        intros [[_ [N|N]]|(_ & _ & _ & N)]; [contradiction|lia|contradiction].
    + apply Z.ltb_ge in B2. split.
      * intros F. inversion F. left. split; [reflexivity|right; exact B2].
      * intros [[F _]|(_ & _ & N & _)]; [subst e; reflexivity|lia].
  - apply FloatFacts.ltb_ge in B1. split.
    + intros F. inversion F. left. split; [reflexivity|].
      left. intros L. apply (Qlt_not_le _ _ L B1).
    + intros [[F _]|(_ & N & _)]; [subst e; reflexivity|].
      exfalso. apply (Qlt_not_le _ _ N B1).
Qed.

Lemma plot_kde_raises_witness :
  @kernel_density.plot_kde Examples.flat [] 0 1 "gaussian" None 10
  = inl (ValueError []).
Proof.
  apply (@plot_kde_raises Examples.flat [] 0 1 "gaussian" None 10).
  right. split; [reflexivity|]. split; [reflexivity|]. split; [lia|].
  right. right. reflexivity.
Defined.

(** X12.  When its assertions hold and the data are not empty, [plot_kde]
    with a kernel scikit-learn knows and no bandwidth given samples the
    density at [n_samples] points: the abscissas and the ordinates have
    that length, the first abscissa is [min_val] and, with more than one
    sample, the last is [max_val]; each ordinate is the density at its
    abscissa, with 3% of the width as bandwidth. *)
Theorem plot_kde_grid `{Numerics} (xs : list Q) (min_val max_val : Q)
    (kernel : string) (n_samples : Z) :
  (min_val < max_val)%Q -> 0 < n_samples ->
  In kernel kernel_density.VALID_KERNELS -> xs <> [] ->
  exists kde_xs kde_ys,
    kernel_density.plot_kde xs min_val max_val kernel None n_samples
    = inr (kde_xs, kde_ys)
    /\ len kde_xs = n_samples /\ len kde_ys = n_samples
    /\ (hd min_val kde_xs == min_val)%Q
    /\ (1 < n_samples -> (last kde_xs min_val == max_val)%Q)
    /\ kde_ys
       = map (density kernel (Float.mul (Float.sub max_val min_val) (3 # 100)) xs)
             kde_xs.
Proof.
  intros Hlt Hn Hk Hx. unfold kernel_density.plot_kde.
  destruct (FitFacts.fit_cases kernel
              (Float.mul (Float.sub max_val min_val) (3 # 100)) xs)
    as [[[R|[R|R]] _]|[_ E]].
  - contradiction.
  - exfalso. apply R. rewrite FloatFacts.mul_eq, FloatFacts.sub_eq. lra.
  - contradiction.
  - rewrite E. clear E.
    apply FloatFacts.ltb_lt in Hlt. rewrite Hlt.
    apply Z.ltb_lt in Hn. rewrite Hn. cbn [negb rbind]. apply Z.ltb_lt in Hn.
    eexists. eexists. split; [reflexivity|].
    assert (L : len (kernel_density.linspace min_val max_val n_samples) = n_samples).
    { unfold kernel_density.linspace. destruct (n_samples =? 1) eqn:B.
      - apply Z.eqb_eq in B. subst. reflexivity.
      - unfold len. rewrite length_map.
        apply (PatternInvariants.range_length n_samples). lia. }
    split; [exact L|].
    split; [unfold len in *; rewrite length_map; exact L|].
    split; [|split; [|reflexivity]].
    + unfold kernel_density.linspace. destruct (n_samples =? 1) eqn:B.
      * reflexivity.
      * unfold range. destruct (Z.to_nat n_samples) as [|k] eqn:Ek; [lia|].
        cbn [seq map hd Z.of_nat].
        unfold Float.add, Float.mul, Float.of_Z. rewrite !Qred_correct.
        change (inject_Z 0) with 0%Q. ring.
    + intros H1. unfold kernel_density.linspace.
      destruct (n_samples =? 1) eqn:B; [apply Z.eqb_eq in B; lia|].
      assert (R : range n_samples = range (n_samples - 1) ++ [n_samples - 1]).
      { rewrite <- KernelFacts.range_succ by lia. f_equal. lia. }
      rewrite R, map_app. cbn [map].
      rewrite last_last.
      unfold Float.add, Float.mul, Float.div, Float.sub, Float.of_Z.
      rewrite !Qred_correct.
      pose proof (KernelFacts.inject_Z_nonzero (n_samples - 1) ltac:(lia)).
      field. assumption.
Qed.

Lemma plot_kde_grid_witness :
  exists kde_xs kde_ys,
    @kernel_density.plot_kde Examples.tophat [1 # 2; 3 # 2] 0 2 "tophat" None 5
    = inr (kde_xs, kde_ys)
    /\ len kde_xs = 5 /\ len kde_ys = 5
    /\ (hd 0%Q kde_xs == 0)%Q
    /\ (1 < 5 -> (last kde_xs 0%Q == 2)%Q)
    /\ kde_ys
       = map (@density Examples.tophat "tophat"
                (Float.mul (Float.sub 2 0) (3 # 100)) [1 # 2; 3 # 2])
             kde_xs.
Proof.
  apply (@plot_kde_grid Examples.tophat [1 # 2; 3 # 2] 0 2 "tophat" 5).
  - reflexivity.
  - lia.
  - right. left. reflexivity.
  - discriminate.
Defined.

(** X13.  [plot_kde_modulo] raises in three ways and no other:
    [AssertionError] exactly when [n_samples > 0] does not hold or, on an
    array, the modulo is not positive (the assertion [max_val > min_val]
    of [plot_kde] on the interval from 0 to the modulo); [TypeError]
    exactly when [n_samples > 0] holds and the data are a list or a tuple;
    [ValueError] exactly when the assertions hold on an array and
    [KernelDensity] refuses the fit. *)
Theorem plot_kde_modulo_raises `{Numerics} (xs : pyseq) (modulo : Q)
    (kernel : string) (bandwidth : option Q) (n_samples : Z) (e : exn) :
  kernel_density.plot_kde_modulo xs modulo kernel bandwidth n_samples = inl e
  <-> (e = AssertionError
       /\ (n_samples <= 0
           \/ ((exists l, xs = NdArray l) /\ ~ (0 < modulo)%Q)))
      \/ (e = TypeError []
          /\ 0 < n_samples /\ ~ (exists l, xs = NdArray l))
      \/ (e = ValueError []
          /\ 0 < n_samples /\ (0 < modulo)%Q
          /\ exists l, xs = NdArray l
                       /\ PatternLaws.refused kernel
                            (PatternLaws.width_of 0 modulo bandwidth) l).
Proof.
  unfold kernel_density.plot_kde_modulo.
  destruct (0 <? n_samples) eqn:B2; cbn [negb].
  - apply Z.ltb_lt in B2.
    destruct xs as [l|l|l].
    + split.
      * intros F. inversion F. right. left.
        split; [reflexivity|]. split; [exact B2|].
        intros [l' E]. discriminate E.
      * intros [[_ [N|[[l' E] _]]]|[[F _]|(_ & _ & _ & l' & E & _)]];
          [lia|discriminate E|subst e; reflexivity|discriminate E].
    + split.
      * intros F. inversion F. right. left.
        split; [reflexivity|]. split; [exact B2|].
        intros [l' E]. discriminate E.
      * intros [[_ [N|[[l' E] _]]]|[[F _]|(_ & _ & _ & l' & E & _)]];
          [lia|discriminate E|subst e; reflexivity|discriminate E].
    + unfold kernel_density.plot_kde.
      fold (PatternLaws.width_of 0 modulo bandwidth).
      assert (B3 : (0 <? n_samples + 1) = true) by (apply Z.ltb_lt; lia).
      rewrite B3. cbn [negb].
      destruct (Float.ltb 0 modulo) eqn:B1; cbn [negb rbind].
      * apply FloatFacts.ltb_lt in B1.
        set (xs_mod := map (fun x => Float.modulo x modulo) l).
        destruct (FitFacts.fit_cases kernel
                    (PatternLaws.width_of 0 modulo bandwidth)
                    (map (fun x => Float.sub x modulo) xs_mod ++ xs_mod
                       ++ map (fun x => Float.add x modulo) xs_mod))
          as [[R E]|[R E]]; rewrite E; cbn [rbind].
        -- assert (R' : PatternLaws.refused kernel
                          (PatternLaws.width_of 0 modulo bandwidth) l).
           { destruct R as [R|[R|R]]; [left; exact R|right; left; exact R|].
             right. right. destruct l; [reflexivity|discriminate R]. }
           split.
           ++ intros F. inversion F. right. right.
              repeat split; try assumption. exists l. split; [reflexivity|exact R'].
           ++ intros [[_ [N|[_ N]]]|[(_ & _ & N)|[F _]]];
                [lia|contradiction| |subst e; reflexivity].
              exfalso. apply N. exists l. reflexivity.
        -- split; [discriminate|].
           intros [[_ [N|[_ N]]]|[(_ & _ & N)|(_ & _ & _ & l' & E' & N)]];
             [lia|contradiction| |].
           ++ exfalso. apply N. exists l. reflexivity.
           ++ inversion E'; subst l'. exfalso. apply R.
              destruct N as [N|[N|N]]; [left; exact N|right; left; exact N|].
              right. right. subst l. reflexivity.
      * apply FloatFacts.ltb_ge in B1. split.
        -- intros F. inversion F. left. split; [reflexivity|]. right.
           split; [exists l; reflexivity|].
           intros L. apply (Qlt_not_le _ _ L B1).
        -- intros [[F _]|[(_ & _ & N)|(_ & _ & N & _)]];
             [subst e; reflexivity| |].
           ++ exfalso. apply N. exists l. reflexivity.
           ++ exfalso. apply (Qlt_not_le _ _ N B1).
  - apply Z.ltb_ge in B2. split.
    + intros F. inversion F. left. split; [reflexivity|left; exact B2].
    + intros [[F _]|[(_ & N & _)|(_ & N & _)]]; [subst e; reflexivity|lia|lia].
Qed.

Lemma plot_kde_modulo_raises_witness :
  @kernel_density.plot_kde_modulo Examples.flat (PyList [1 # 2]) 1 "gaussian" None 10
  = inl (TypeError []).
Proof.
  apply (@plot_kde_modulo_raises Examples.flat (PyList [1 # 2]) 1 "gaussian" None 10).
  right. left. split; [reflexivity|]. split; [lia|].
  intros [l E]. discriminate E.
Defined.

(** X14.  [plot_kde_modulo] sees the data of an array only through their
    remainders: moving each datum by a whole number of periods changes
    nothing in what is returned. *)
Theorem plot_kde_modulo_whole_periods `{Numerics} (xs ys : list Q) (modulo : Q)
    (kernel : string) (bandwidth : option Q) (n_samples : Z) :
  ~ (modulo == 0)%Q ->
  Forall2 (PatternLaws.shifted modulo) xs ys ->
  kernel_density.plot_kde_modulo (NdArray ys) modulo kernel bandwidth n_samples
  = kernel_density.plot_kde_modulo (NdArray xs) modulo kernel bandwidth n_samples.
Proof.
  intros Hm F.
  assert (E : map (fun x => Float.modulo x modulo) ys
              = map (fun x => Float.modulo x modulo) xs).
  { induction F as [|x y xs ys [k Ek] F IH]; [reflexivity|].
    cbn [map]. rewrite IH. f_equal. subst y. unfold Float.modulo.
    rewrite (DivmodFacts.divmod_shift x modulo k Hm). reflexivity. }
  unfold kernel_density.plot_kde_modulo. rewrite E. reflexivity.
Qed.

Lemma plot_kde_modulo_whole_periods_witness :
  @kernel_density.plot_kde_modulo Examples.tophat
    (NdArray [5 # 2; (-3) # 4]) 1 "tophat" None 4
  = @kernel_density.plot_kde_modulo Examples.tophat
      (NdArray [1 # 2; 1 # 4]) 1 "tophat" None 4.
Proof.
  apply (@plot_kde_modulo_whole_periods Examples.tophat).
  - intros E. discriminate E.
  - constructor; [exists 2; reflexivity|].
    constructor; [exists (-1); reflexivity|constructor].
Defined.

(** ** The calendar phases *)

Module CalendarFacts.

Import CalendarLaws.

Lemma wall_split d :
  datetime.wall_microseconds d
  = datetime.toordinal d * day_length + microsecond_of_day d.
Proof. unfold datetime.wall_microseconds, microsecond_of_day, day_length. lia. Qed.

Lemma regroup (q n : Z) (r : Q) :
  n <> 0 ->
  Float.add (Float.of_Z (q / n))
    (Float.div (Float.add (Float.of_Z (q mod n)) r) (Float.of_Z n))
  = Float.div (Float.add (Float.of_Z q) r) (Float.of_Z n).
Proof.
  intros Hn. unfold Float.add, Float.div, Float.of_Z.
  apply Qred_complete. rewrite !Qred_correct.
  rewrite (Z.div_mod q n Hn) at 3.
  rewrite inject_Z_plus, inject_Z_mult.
  assert (N : ~ (inject_Z n == 0)%Q).
  { intros E. apply Hn. unfold Qeq in E. simpl in E. lia. }
  field. exact N.
Qed.

End CalendarFacts.

(** X17.  [timestamp_two_week] is the day phase moved by three days and
    counted in fortnights, for every timestamp. *)
Theorem timestamp_two_week_of_day (timestamp : datetime.t) :
  timestamp_two_week timestamp
  = Float.div (Float.add (timestamp_day timestamp) 3) 14.
Proof.
  unfold timestamp_two_week.
  assert (N : ~ (1 == 0)%Q) by (intros E; discriminate E).
  pose proof (DivmodFacts.divmod_sum (timestamp_day timestamp) 1 N) as S.
  destruct (Float.divmod (timestamp_day timestamp) 1) as [quotient remainder].
  cbn [fst snd] in S.
  rewrite (CalendarFacts.regroup (quotient + 3) 14) by discriminate.
  unfold Float.add, Float.div, Float.of_Z. apply Qred_complete.
  rewrite !Qred_correct, inject_Z_plus.
  rewrite S.
  change (inject_Z 14) with 14%Q. change (inject_Z 3) with 3%Q. field.
Qed.

Module MonthFacts.

Import CalendarLaws.

Lemma days_in_month_bounds y m : 28 <= datetime.days_in_month y m <= 31.
Proof.
  unfold datetime.days_in_month.
  destruct (m =? 2); [destruct (datetime.is_leap y); lia|].
  destruct ((m =? 4) || (m =? 6) || (m =? 9) || (m =? 11)); lia.
Qed.

Lemma days_before_month_succ y m :
  1 <= m ->
  datetime.days_before_month y (m + 1)
  = datetime.days_before_month y m + datetime.days_in_month y m.
Proof.
  intros Hm. unfold datetime.days_before_month.
  replace (m + 1 - 1) with ((m - 1) + 1) by lia.
  rewrite KernelFacts.range_succ by lia.
  rewrite map_app, fold_left_app. cbn [map fold_left].
  replace (m - 1 + 1) with m by lia. reflexivity.
Qed.

Lemma days_before_january y : datetime.days_before_month y 1 = 0.
Proof. reflexivity. Qed.

Lemma days_before_month_13 y : datetime.days_before_month y 13 = days_in_year y.
Proof.
  unfold datetime.days_before_month, datetime.days_in_month, days_in_year.
  change (range (13 - 1)) with [0; 1; 2; 3; 4; 5; 6; 7; 8; 9; 10; 11].
  cbn [map fold_left Z.add Z.eqb Pos.eqb orb Pos.add Pos.succ].
  destruct (datetime.is_leap y); reflexivity.
Qed.

Lemma days_before_year_succ y :
  datetime.days_before_year (y + 1) = datetime.days_before_year y + days_in_year y.
Proof.
  unfold datetime.days_before_year, days_in_year, datetime.is_leap.
  replace (y + 1 - 1) with y by lia.
  destruct (y mod 4 =? 0) eqn:B4; destruct (y mod 100 =? 0) eqn:B100;
    destruct (y mod 400 =? 0) eqn:B400; cbn [andb orb negb];
    rewrite ?Z.eqb_eq, ?Z.eqb_neq in *;
    Z.div_mod_to_equations; lia.
Qed.

(** A quotient of two durations in seconds is the share of their
    microseconds. *)
Lemma share_of_seconds (elapsed days : Z) :
  0 < days ->
  Float.div (Float.div (Float.of_Z elapsed) 1000000)
            (Float.div (Float.of_Z (days * day_length)) 1000000)
  = share elapsed days.
Proof.
  intros Hd. unfold share, Float.div, Float.of_Z.
  apply Qred_complete. rewrite !Qred_correct.
  assert (N : ~ (inject_Z (days * day_length) == 0)%Q).
  { intros E. unfold Qeq in E. simpl in E. unfold day_length in E. lia. }
  field. exact N.
Qed.

(** The month phase: whole months since January 1970, then the share of
    the month that has elapsed. *)
Lemma month_phase d :
  datetime.valid d ->
  ~ (datetime.year d = 9999 /\ datetime.month d = 12) ->
  _timestamp_month d
  = inr (Float.add (Float.of_Z (month_index d))
           (share (elapsed_in_month d)
                  (datetime.days_in_month (datetime.year d) (datetime.month d)))).
Proof.
  intros V N. pose proof V as (Hy & Hm & Hd & _).
  unfold datetime.MAXYEAR in Hy.
  pose proof (days_in_month_bounds (datetime.year d) (datetime.month d)) as Hb.
  assert (Es : datetime.sub_total_seconds d (datetime.replace_month_start d)
               = Float.div (Float.of_Z (elapsed_in_month d)) 1000000).
  { unfold datetime.sub_total_seconds. f_equal. f_equal.
    unfold datetime.utc_microseconds, datetime.utcoffset.
    rewrite !CalendarFacts.wall_split.
    unfold elapsed_in_month, datetime.toordinal, microsecond_of_day, day_length.
    cbn [datetime.replace_month_start datetime.year datetime.month datetime.day
         datetime.hour datetime.minute datetime.second datetime.microsecond
         datetime.tzinfo].
    lia. }
  unfold _timestamp_month, datetime.next_month_start.
  cbn [datetime.replace_month_start datetime.year datetime.month].
  destruct (datetime.month d =? 12) eqn:B.
  - apply Z.eqb_eq in B.
    assert (B' : (datetime.MAXYEAR <=? datetime.year d) = false)
      by (apply Z.leb_gt; unfold datetime.MAXYEAR; lia).
    rewrite B'. cbn [rbind]. f_equal. f_equal. fold (month_index d).
    rewrite Es. clear Es.
    rewrite <- (share_of_seconds (elapsed_in_month d)
                  (datetime.days_in_month (datetime.year d) (datetime.month d)))
      by lia.
    f_equal. unfold datetime.sub_total_seconds. f_equal. f_equal.
    unfold datetime.utc_microseconds, datetime.utcoffset.
    rewrite !CalendarFacts.wall_split.
    unfold datetime.toordinal, microsecond_of_day.
    cbn [datetime.replace_month_start datetime.year datetime.month datetime.day
         datetime.hour datetime.minute datetime.second datetime.microsecond
         datetime.tzinfo].
    rewrite days_before_year_succ, <- days_before_month_13, days_before_january.
    change 13 with (12 + 1). rewrite days_before_month_succ by lia.
    rewrite B. unfold day_length. lia.
  - apply Z.eqb_neq in B. cbn [rbind]. f_equal. f_equal. fold (month_index d).
    rewrite Es. clear Es.
    rewrite <- (share_of_seconds (elapsed_in_month d)
                  (datetime.days_in_month (datetime.year d) (datetime.month d)))
      by lia.
    f_equal. unfold datetime.sub_total_seconds. f_equal. f_equal.
    unfold datetime.utc_microseconds, datetime.utcoffset.
    rewrite !CalendarFacts.wall_split.
    unfold datetime.toordinal, microsecond_of_day.
    cbn [datetime.replace_month_start datetime.year datetime.month datetime.day
         datetime.hour datetime.minute datetime.second datetime.microsecond
         datetime.tzinfo].
    rewrite days_before_month_succ by lia. unfold day_length. lia.
Qed.

(** The year phase: whole years since 1970, then the share of the year
    that has elapsed. *)
Lemma year_phase d :
  datetime.valid d -> datetime.year d < 9999 ->
  _timestamp_year d
  = inr (Float.add (Float.of_Z (datetime.year d - 1970))
           (share (elapsed_in_year d) (days_in_year (datetime.year d)))).
Proof.
  intros V N. pose proof V as (Hy & Hm & Hd & _).
  unfold _timestamp_year, datetime.replace_year, datetime.MAXYEAR.
  assert (B1 : (1 <=? datetime.year d + 1) = true) by (apply Z.leb_le; lia).
  assert (B2 : (datetime.year d + 1 <=? 9999) = true) by (apply Z.leb_le; lia).
  rewrite B1, B2. cbn [andb rbind]. f_equal. f_equal.
  assert (P : 0 < days_in_year (datetime.year d))
    by (unfold days_in_year; destruct (datetime.is_leap (datetime.year d)); lia).
  rewrite <- (share_of_seconds (elapsed_in_year d)
                (days_in_year (datetime.year d))) by exact P.
  unfold datetime.sub_total_seconds. f_equal; f_equal; f_equal.
  - unfold datetime.utc_microseconds, datetime.utcoffset.
    rewrite !CalendarFacts.wall_split.
    unfold elapsed_in_year, datetime.toordinal, microsecond_of_day, day_length.
    cbn [datetime.replace_year_start datetime.year datetime.month datetime.day
         datetime.hour datetime.minute datetime.second datetime.microsecond
         datetime.tzinfo].
    rewrite days_before_january. lia.
  - unfold datetime.utc_microseconds, datetime.utcoffset.
    rewrite !CalendarFacts.wall_split.
    unfold datetime.toordinal, microsecond_of_day, day_length.
    cbn [datetime.replace_year_start datetime.year datetime.month datetime.day
         datetime.hour datetime.minute datetime.second datetime.microsecond
         datetime.tzinfo].
    rewrite days_before_year_succ, !days_before_january. lia.
Qed.

(** Division of a phase by the number of periods grouped. *)
Lemma grouped (x : Q) (n : Z) :
  n <> 0 ->
  (let '(quotient, remainder) := Float.divmod x 1 in
   Float.add (Float.of_Z (quotient / n))
     (Float.div (Float.add (Float.of_Z (quotient mod n)) remainder)
                (Float.of_Z n)))
  = Float.div x (Float.of_Z n).
Proof.
  intros Hn.
  assert (N : ~ (1 == 0)%Q) by (intros E; discriminate E).
  pose proof (DivmodFacts.divmod_sum x 1 N) as S.
  destruct (Float.divmod x 1) as [quotient remainder]. cbn [fst snd] in S.
  rewrite (CalendarFacts.regroup quotient n remainder Hn).
  unfold Float.add, Float.div, Float.of_Z. apply Qred_complete.
  rewrite !Qred_correct. rewrite S.
  assert (N' : ~ (inject_Z n == 0)%Q).
  { intros E. apply Hn. unfold Qeq in E. simpl in E. lia. }
  field. exact N'.
Qed.

End MonthFacts.

Lemma leap_february_valid : datetime.valid Examples.leap_february.
Proof. unfold datetime.valid, datetime.MAXYEAR. cbn. lia. Qed.

Lemma last_december_valid : datetime.valid Examples.last_december.
Proof. unfold datetime.valid, datetime.MAXYEAR. cbn. lia. Qed.

(** X20.  [timestamp_n_month] with [n] months to the period is the month
    phase divided by [n]: taking the phase apart with [divmod] and
    regrouping it changes nothing else. *)
Theorem timestamp_n_month_divides (timestamp : datetime.t) (n : Z) (m : Q) :
  n <> 0 ->
  _timestamp_month timestamp = inr m ->
  timestamp_n_month timestamp n = inr (Float.div m (Float.of_Z n)).
Proof.
  intros Hn E. unfold timestamp_n_month. rewrite E. cbn [rbind].
  rewrite <- (MonthFacts.grouped m n Hn).
  destruct (Float.divmod m 1) as [quotient remainder]. reflexivity.
Qed.

Lemma timestamp_n_month_divides_witness :
  timestamp_n_month Examples.leap_february 6
  = inr (Float.div (75341 # 116) (Float.of_Z 6)).
Proof.
  apply (timestamp_n_month_divides Examples.leap_february 6).
  - discriminate.
  - vm_compute. reflexivity.
Defined.

(** X21.  [timestamp_n_year] with [n] years to the period is the year
    phase divided by [n]. *)
Theorem timestamp_n_year_divides (timestamp : datetime.t) (n : Z) (y : Q) :
  n <> 0 ->
  _timestamp_year timestamp = inr y ->
  timestamp_n_year timestamp n = inr (Float.div y (Float.of_Z n)).
Proof.
  intros Hn E. unfold timestamp_n_year. rewrite E. cbn [rbind].
  rewrite <- (MonthFacts.grouped y n Hn).
  destruct (Float.divmod y 1) as [quotient remainder]. reflexivity.
Qed.

Lemma timestamp_n_year_divides_witness :
  timestamp_n_year Examples.leap_february 2
  = inr (Float.div (79237 # 1464) (Float.of_Z 2)).
Proof.
  apply (timestamp_n_year_divides Examples.leap_february 2).
  - discriminate.
  - vm_compute. reflexivity.
Defined.



(** X23.  For a valid timestamp the counts that key the three indices are
    in range: the hour is below 24, the 7-day period of the month is 1 to 5
    (days 1 to 5 of the month fall in period 1, days 6 to 12 in period 2),
    the full week is 0 to 5, and the day name is one of [days_of_week]. *)
Theorem hour_of_day_of_week_of_month_bounds (timestamp : datetime.t) :
  datetime.valid timestamp ->
  let '(hour, n, full_week, day_of_week) :=
    timestamp_hour_of_day_of_week_of_month timestamp in
  0 <= hour < 24
  /\ 1 <= n <= 5
  /\ 7 * (n - 1) - 1 <= datetime.day timestamp <= 7 * (n - 1) + 5
  /\ 0 <= full_week <= 5
  /\ nth_error days_of_week (Z.to_nat (datetime.weekday timestamp))
     = Some day_of_week.
Proof.
  intros (_ & _ & Hd & Hh & _).
  pose proof (MonthFacts.days_in_month_bounds (datetime.year timestamp)
                (datetime.month timestamp)) as Hb.
  unfold timestamp_hour_of_day_of_week_of_month.
  assert (Hw : 0 <= datetime.weekday timestamp < 7)
    by (unfold datetime.weekday; apply Z.mod_pos_bound; lia).
  split; [exact Hh|].
  split; [Z.div_mod_to_equations; lia|].
  split; [Z.div_mod_to_equations; lia|].
  split; [Z.div_mod_to_equations; lia|].
  assert (C : datetime.weekday timestamp = 0 \/ datetime.weekday timestamp = 1
              \/ datetime.weekday timestamp = 2 \/ datetime.weekday timestamp = 3
              \/ datetime.weekday timestamp = 4 \/ datetime.weekday timestamp = 5
              \/ datetime.weekday timestamp = 6) by lia.
  destruct C as [C|[C|[C|[C|[C|[C|C]]]]]]; rewrite C; reflexivity.
Qed.

Lemma hour_of_day_of_week_of_month_bounds_witness :
  nth_error days_of_week (Z.to_nat (datetime.weekday Examples.leap_february))
  = Some "Thursday"%string.
Proof.
  apply (hour_of_day_of_week_of_month_bounds Examples.leap_february
           leap_february_valid).
Defined.

(** ** Queries only touch the caches *)

Module ReadOnly.

Import ModuloPattern PatternSpec.

Lemma same_data_set_kde c p0 p : same_data p0 p -> same_data p0 (set___kde c p).
Proof. unfold same_data, caches_cleared. intros E. rewrite E. reflexivity. Qed.

Lemma same_data_set_vector v p0 p :
  same_data p0 p -> same_data p0 (set___vector v p).
Proof. unfold same_data, caches_cleared. intros E. rewrite E. reflexivity. Qed.

Lemma preserves_raise {S A} (I : S -> Prop) e : preserves I (@raise S A e).
Proof. intros s Hs. exact Hs. Qed.

Section WithNumerics.
Context `{Numerics}.

Lemma kde_reads dim p0 : preserves (same_data p0) (kde dim).
Proof.
  unfold kde. apply preserves_bind; [apply preserves_get|intros self].
  destruct (dict_get Z.eqb dim (__kde self)); [apply preserves_ret|].
  apply preserves_bind; [apply preserves_lift|intros curve].
  apply preserves_bind; [|intros _; apply preserves_ret].
  apply preserves_modify. intros p. apply same_data_set_kde.
Qed.

Lemma vector_reads p0 : preserves (same_data p0) vector.
Proof.
  unfold vector. apply preserves_bind; [apply preserves_get|intros self].
  destruct (negb (len (items (__vector self)) =? vector_dimension self));
    [|apply preserves_ret].
  apply preserves_bind; [apply kde_reads|intros curve]. cbv zeta.
  match goal with |- context [if ?b then _ else _] => destruct b end;
    [apply preserves_raise|].
  apply preserves_bind;
    [apply preserves_modify; intros p; apply same_data_set_vector|intros _].
  apply preserves_bind; [apply preserves_get|intros self'; apply preserves_ret].
Qed.

Lemma likelihood_reads value p0 : preserves (same_data p0) (likelihood value).
Proof.
  unfold likelihood. apply preserves_bind; [apply preserves_get|intros self].
  destruct (Float.divmod value (modulo self)) as [quotient remainder].
  apply preserves_bind; [apply kde_reads|intros curve].
  destruct (len (fst curve) =? 0); [apply preserves_raise|].
  destruct (nth_error (snd curve) _); [apply preserves_ret|apply preserves_raise].
Qed.

End WithNumerics.
End ReadOnly.

Module SetReads.

Import TimeStampSetV2 SetSpec SetLaws.

Lemma ref_keeps_index r p s :
  In r all_patterns ->
  timestamps (snd r p s) = timestamps s /\ hour_day (snd r p s) = hour_day s
  /\ n_day (snd r p s) = n_day s /\ n_week (snd r p s) = n_week s.
Proof. intros Hr. SetFacts.each_pattern Hr; repeat split. Qed.

Lemma same_observations_refl s : same_observations s s.
Proof. repeat split. Qed.

Lemma preserves_on_read {A} r (m : M ModuloPattern.t A) s0 :
  In r all_patterns ->
  (forall p0, preserves (PatternSpec.same_data p0) m) ->
  preserves (same_observations s0) (on r m).
Proof.
  intros Hr Hm s (E1 & E2 & E3 & E4 & S). unfold on, zoom.
  pose proof (Hm (fst r s0) (fst r s) (S r Hr)) as Hp.
  destruct (m (fst r s)) as [x p']. cbn [snd] in *.
  destruct (ref_keeps_index r p' s Hr) as (F1 & F2 & F3 & F4).
  split; [congruence|]. split; [congruence|]. split; [congruence|].
  split; [congruence|].
  intros r0 Hr0.
  destruct (SetFacts.ref_get_set r r0 p' s Hr Hr0) as [[-> E0]|E0]; rewrite E0.
  - exact Hp.
  - apply S. exact Hr0.
Qed.

Section WithNumerics.
Context `{Numerics}.

Lemma likelihood_reads_set batch s0 :
  preserves (same_observations s0) (likelihood batch).
Proof.
  unfold likelihood.
  apply preserves_bind; [apply preserves_lift|intros l].
  apply preserves_bind; [|intros ?; apply preserves_ret].
  apply preserves_map_m. intros timestamp. unfold likelihoods1.
  repeat first
    [ apply preserves_on_read;
      [unfold all_patterns; simpl; tauto
      |intros p0; apply ReadOnly.likelihood_reads]
    | apply preserves_lift
    | apply preserves_ret
    | apply preserves_bind; [|intros ?] ].
Qed.

Lemma vectors_reads_set s0 : preserves (same_observations s0) vectors.
Proof.
  unfold vectors. apply preserves_bind; [apply preserves_get|intros self].
  assert (Hin : forall r, In r (_patterns self) -> In r all_patterns).
  { intros r Hr. unfold _patterns in Hr. apply filter_In in Hr. tauto. }
  generalize (@nil (string * list Q)).
  induction (_patterns self) as [|r rs IH]; intros d; simpl.
  - apply preserves_ret.
  - apply preserves_bind; [apply preserves_get|intros self'].
    destruct (ModuloPattern.is_valid (fst r self')).
    + apply preserves_bind.
      * apply preserves_on_read; [apply Hin; left; reflexivity|].
        intros p0. apply ReadOnly.vector_reads.
      * intros v. apply IH. intros r0 H0. apply Hin. right. exact H0.
    + apply IH. intros r0 H0. apply Hin. right. exact H0.
Qed.

Lemma kdes_reads_set dim s0 : preserves (same_observations s0) (kdes dim).
Proof.
  unfold kdes. apply preserves_bind; [apply preserves_get|intros self].
  assert (Hin : forall r, In r (_patterns self) -> In r all_patterns).
  { intros r Hr. unfold _patterns in Hr. apply filter_In in Hr. tauto. }
  generalize (@nil (string * (list Q * list Q))).
  induction (_patterns self) as [|r rs IH]; intros d; simpl.
  - apply preserves_ret.
  - apply preserves_bind; [apply preserves_get|intros self'].
    apply preserves_bind.
    + apply preserves_on_read; [apply Hin; left; reflexivity|].
      intros p0. apply ReadOnly.kde_reads.
    + intros v. apply IH. intros r0 H0. apply Hin. right. exact H0.
Qed.

End WithNumerics.
End SetReads.

(** X24.  The queries of a set only touch the caches: after [likelihood],
    [vectors] or [kdes], whether the call returned or raised, the log, the
    three indices and the data of every pattern are what they were. *)
Theorem queries_keep_the_data `{Numerics} (s : TimeStampSetV2.t)
    (batch : list datetime.t) (dim : Z) :
  SetLaws.same_observations s (snd (TimeStampSetV2.likelihood batch s))
  /\ SetLaws.same_observations s (snd (TimeStampSetV2.vectors s))
  /\ SetLaws.same_observations s (snd (TimeStampSetV2.kdes dim s)).
Proof.
  split; [|split].
  - apply SetReads.likelihood_reads_set. apply SetReads.same_observations_refl.
  - apply SetReads.vectors_reads_set. apply SetReads.same_observations_refl.
  - apply SetReads.kdes_reads_set. apply SetReads.same_observations_refl.
Qed.

(** ** The log and the indices *)

Module IndexFacts.

Import TimeStampSetV2 SetSpec SetLaws.

Lemma set_add_fresh x l : ~ In x l -> set_add x l = l ++ [x].
Proof.
  intros N. unfold set_add.
  destruct (existsb (Z.eqb x) l) eqn:B; [|reflexivity].
  apply existsb_exists in B. destruct B as [y [Hy E]].
  apply Z.eqb_eq in E. subst y. contradiction.
Qed.

Lemma positions_setdefault_add {K} (eqb : K -> K -> bool) k x (d : dict K (list Z)) :
  ~ In x (positions d) ->
  Permutation (positions (setdefault_add eqb k x d)) (positions d ++ [x]).
Proof.
  unfold positions. induction d as [|[k0 l] d IH]; simpl; intros N.
  - apply Permutation_refl.
  - destruct (eqb k k0); simpl.
    + rewrite set_add_fresh
        by (intros Hin; apply N; apply in_or_app; left; exact Hin).
      rewrite <- !app_assoc. apply Permutation_app_head.
      apply Permutation_app_comm.
    + rewrite <- app_assoc. apply Permutation_app_head. apply IH.
      intros Hin. apply N. apply in_or_app. right. exact Hin.
Qed.

Lemma in_set_add i x l : In i (set_add x l) -> In i l \/ i = x.
Proof.
  unfold set_add. destruct (existsb (Z.eqb x) l); [tauto|].
  intros Hin. apply in_app_or in Hin. destruct Hin as [Hin|[E|[]]]; auto.
Qed.

Lemma in_setdefault_add {K} (eqb : K -> K -> bool) k x (d : dict K (list Z)) k' l' i :
  (forall a b, eqb a b = true -> a = b) ->
  In (k', l') (setdefault_add eqb k x d) -> In i l' ->
  (exists l0, In (k', l0) d /\ In i l0) \/ (i = x /\ k' = k).
Proof.
  intros Heq. induction d as [|[k0 l] d IH]; simpl; intros Hin Hi.
  - destruct Hin as [E|[]]. inversion E; subst.
    destruct Hi as [Hi|[]]. right. split; [symmetry; exact Hi|reflexivity].
  - destruct (eqb k k0) eqn:B; simpl in Hin.
    + destruct Hin as [E|Hin].
      * inversion E; subst. apply in_set_add in Hi. destruct Hi as [Hi|Hi].
        -- left. exists l. split; [left; reflexivity|exact Hi].
        -- right. split; [exact Hi|symmetry; apply Heq; exact B].
      * left. exists l'. split; [right; exact Hin|exact Hi].
    + destruct Hin as [E|Hin].
      * inversion E; subst. left. exists l'. split; [left; reflexivity|exact Hi].
      * destruct (IH Hin Hi) as [[l0 [H0 H1]]|R]; [|right; exact R].
        left. exists l0. split; [right; exact H0|exact H1].
Qed.

Lemma key_eqb_eq a b : key_eqb a b = true -> a = b.
Proof.
  destruct a as [a1 a2], b as [b1 b2]. unfold key_eqb. cbn [fst snd].
  intros E. apply andb_true_iff in E. destruct E as [E1 E2].
  apply Z.eqb_eq in E1. apply String.eqb_eq in E2. congruence.
Qed.

Lemma not_in_range n : 0 <= n -> ~ In n (range n).
Proof.
  intros Hn Hin. unfold range in Hin. apply in_map_iff in Hin.
  destruct Hin as [k [E Hk]]. apply in_seq in Hk. lia.
Qed.

Lemma len_snoc {A} (l : list A) x : len (l ++ [x]) = len l + 1.
Proof. unfold len. rewrite length_app. simpl. lia. Qed.

Lemma len_nonneg {A} (l : list A) : 0 <= len l.
Proof. unfold len. lia. Qed.

(** Filing the next position keeps an index in step with the log. *)
Lemma files_next key log d timestamp :
  files key log d ->
  files key (log ++ [timestamp])
        (setdefault_add key_eqb (key timestamp) (len log) d).
Proof.
  intros [P F]. split.
  - rewrite len_snoc, KernelFacts.range_succ by apply len_nonneg.
    eapply Permutation_trans.
    + apply positions_setdefault_add. intros Hin.
      apply (Permutation_in _ P) in Hin.
      exact (not_in_range _ (len_nonneg log) Hin).
    + apply Permutation_app_tail. exact P.
  - intros k l i Hin Hi.
    destruct (in_setdefault_add key_eqb _ _ d k l i key_eqb_eq Hin Hi)
      as [[l0 [H0 H1]]|[E1 E2]].
    + destruct (F k l0 i H0 H1) as [ts [E Ek]].
      exists ts. split; [|exact Ek].
      rewrite nth_error_app1; [exact E|].
      apply nth_error_Some. rewrite E. discriminate.
    + subst i k. exists timestamp. split; [|reflexivity].
      unfold len. rewrite Nat2Z.id, nth_error_app2 by lia.
      rewrite Nat.sub_diag. reflexivity.
Qed.

(** What one turn of the loop of [add] does, whether it completes or
    raises on the way. *)
Lemma add1_effect timestamp s :
  let utc_timestamp := datetime.replace_tzinfo datetime.utc timestamp in
  let s' := snd (add1 timestamp s) in
  timestamps s' = timestamps s ++ [utc_timestamp]
  /\ hour_day s'
     = setdefault_add key_eqb (hour_day_key utc_timestamp) (len (timestamps s))
         (hour_day s)
  /\ n_day s'
     = setdefault_add key_eqb (n_day_key utc_timestamp) (len (timestamps s))
         (n_day s)
  /\ n_week s'
     = setdefault_add key_eqb (n_week_key utc_timestamp) (len (timestamps s))
         (n_week s)
  /\ forall r, In r all_patterns ->
       fst r s' = fst r s \/ PatternSpec.received (fst r s) (fst r s').
Proof.
  cbv zeta.
  unfold add1, hour_day_key, n_day_key, n_week_key,
    timestamp_hour_of_day_of_week_of_month. cbv zeta.
  set (ts := datetime.replace_tzinfo datetime.utc timestamp) in *.
  destruct (_timestamp_month ts) as [e|m] eqn:Em.
  - rewrite !(Routing.n_month_undefined ts e _ Em).
    Routing.run_add1. cbn [fst snd].
    repeat (split; [reflexivity|]).
    intros r Hr. SetFacts.each_pattern Hr; cbn [fst snd];
      first [left; reflexivity|right; apply Routing.received_added].
  - destruct (Routing.n_month_defined ts m 1 Em) as [v1 E1].
    destruct (Routing.n_month_defined ts m 2 Em) as [v2 E2].
    destruct (Routing.n_month_defined ts m 3 Em) as [v3 E3].
    destruct (Routing.n_month_defined ts m 6 Em) as [v6 E6].
    rewrite E1, E2, E3, E6.
    destruct (_timestamp_year ts) as [e|y] eqn:Ey.
    + rewrite !(Routing.n_year_undefined ts e _ Ey).
      Routing.run_add1. cbn [fst snd].
      repeat (split; [reflexivity|]).
      intros r Hr. SetFacts.each_pattern Hr; cbn [fst snd];
        first [left; reflexivity|right; apply Routing.received_added].
    + destruct (Routing.n_year_defined ts y 1 Ey) as [w1 F1].
      destruct (Routing.n_year_defined ts y 2 Ey) as [w2 F2].
      rewrite F1, F2.
      Routing.run_add1. cbn [fst snd].
      repeat (split; [reflexivity|]).
      intros r Hr. SetFacts.each_pattern Hr; cbn [fst snd];
        first [left; reflexivity|right; apply Routing.received_added].
Qed.

Lemma preserves_add1_bookkeeping timestamp : preserves bookkeeping (add1 timestamp).
Proof.
  intros s (U & F1 & F2 & F3 & L).
  destruct (add1_effect timestamp s) as (E0 & E1 & E2 & E3 & P).
  cbv zeta in *. unfold bookkeeping. rewrite E0, E1, E2, E3.
  split; [|split; [|split; [|split]]].
  - apply Forall_app. split; [exact U|]. constructor; [reflexivity|constructor].
  - apply files_next. exact F1.
  - apply files_next. exact F2.
  - apply files_next. exact F3.
  - intros r Hr. rewrite len_snoc. specialize (L r Hr).
    destruct (P r Hr) as [E|[x E]]; rewrite E; [lia|].
    rewrite len_snoc. lia.
Qed.

Lemma bookkeeping_same_observations s s' :
  same_observations s s' -> bookkeeping s -> bookkeeping s'.
Proof.
  intros (E0 & E1 & E2 & E3 & S) (U & F1 & F2 & F3 & L).
  unfold bookkeeping. rewrite E0, E1, E2, E3.
  repeat (split; [assumption|]).
  intros r Hr.
  destruct (PatternRuns.same_data_fields _ _ (S r Hr))
    as (_ & _ & _ & _ & _ & _ & _ & T & _).
  specialize (L r Hr). rewrite T. exact L.
Qed.

Lemma initial_bookkeeping : bookkeeping initial.
Proof.
  split; [constructor|].
  assert (F : forall key, files key [] []).
  { intros key. split; [apply Permutation_refl|intros k l i []]. }
  repeat (split; [apply F|]).
  intros r Hr. SetFacts.each_pattern Hr; cbn; lia.
Qed.

Section WithNumerics.
Context `{Numerics}.

Lemma reachable_bookkeeping s : reachable s -> bookkeeping s.
Proof.
  induction 1 as [s E|batch s R IH|batch s R IH|s R IH].
  - rewrite SetFacts.new_initial in E. inversion E; subst.
    apply initial_bookkeeping.
  - apply (preserves_for_each bookkeeping batch add1 preserves_add1_bookkeeping).
    exact IH.
  - apply (bookkeeping_same_observations s); [|exact IH].
    apply SetReads.likelihood_reads_set. apply SetReads.same_observations_refl.
  - apply (bookkeeping_same_observations s); [|exact IH].
    apply SetReads.vectors_reads_set. apply SetReads.same_observations_refl.
Qed.

End WithNumerics.
End IndexFacts.

Lemma few_reachable : @SetSpec.reachable Examples.flat Examples.few.
Proof.
  change Examples.few
    with (snd (TimeStampSetV2.add (firstn 3 Examples.january) SetSpec.initial)).
  apply SetSpec.reach_add. apply SetSpec.reach_new. reflexivity.
Qed.

(** X25.  In every state a set can reach, each timestamp of the log is
    labelled UTC and can be found in the three indices: its position is
    filed under its own key in [hour_day], [n_day] and [n_week], and each
    index holds every position of the log exactly once. *)
Theorem indices_file_every_timestamp `{Numerics} (s : TimeStampSetV2.t) :
  SetSpec.reachable s ->
  Permutation (SetLaws.positions (TimeStampSetV2.hour_day s))
              (range (len (TimeStampSetV2.timestamps s)))
  /\ Permutation (SetLaws.positions (TimeStampSetV2.n_day s))
                 (range (len (TimeStampSetV2.timestamps s)))
  /\ Permutation (SetLaws.positions (TimeStampSetV2.n_week s))
                 (range (len (TimeStampSetV2.timestamps s)))
  /\ forall (i : nat) (timestamp : datetime.t),
       nth_error (TimeStampSetV2.timestamps s) i = Some timestamp ->
       datetime.tzinfo timestamp = datetime.utc
       /\ (exists l, In (SetLaws.hour_day_key timestamp, l)
                        (TimeStampSetV2.hour_day s)
                     /\ In (Z.of_nat i) l)
       /\ (exists l, In (SetLaws.n_day_key timestamp, l)
                        (TimeStampSetV2.n_day s)
                     /\ In (Z.of_nat i) l)
       /\ (exists l, In (SetLaws.n_week_key timestamp, l)
                        (TimeStampSetV2.n_week s)
                     /\ In (Z.of_nat i) l).
Proof.
  intros R.
  destruct (IndexFacts.reachable_bookkeeping s R) as (U & F1 & F2 & F3 & _).
  split; [exact (proj1 F1)|]. split; [exact (proj1 F2)|].
  split; [exact (proj1 F3)|].
  intros i timestamp E.
  assert (Hi : In (Z.of_nat i) (range (len (TimeStampSetV2.timestamps s)))).
  { unfold range, len. rewrite Nat2Z.id. apply in_map. apply in_seq.
    assert (i < List.length (TimeStampSetV2.timestamps s))%nat
      by (apply nth_error_Some; rewrite E; discriminate).
    lia. }
  assert (Find : forall key d,
             SetLaws.files key (TimeStampSetV2.timestamps s) d ->
             exists l, In (key timestamp, l) d /\ In (Z.of_nat i) l).
  { intros key d [P F].
    apply (Permutation_in _ (Permutation_sym P)) in Hi.
    unfold SetLaws.positions in Hi. apply in_flat_map in Hi.
    destruct Hi as [[k l] [Hin Hl]]. cbn [snd] in Hl.
    destruct (F k l _ Hin Hl) as [ts [E' Ek]].
    rewrite Nat2Z.id, E in E'. inversion E'; subst ts.
    exists l. rewrite Ek. split; assumption. }
  split.
  - rewrite Forall_forall in U. apply U. apply (nth_error_In _ _ E).
  - split; [exact (Find _ _ F1)|]. split; [exact (Find _ _ F2)|exact (Find _ _ F3)].
Qed.

Lemma indices_file_every_timestamp_witness :
  Permutation (SetLaws.positions (TimeStampSetV2.hour_day Examples.trained))
              (range (len (TimeStampSetV2.timestamps Examples.trained))).
Proof.
  apply (@indices_file_every_timestamp Examples.flat Examples.trained).
  exact trained_reachable.
Defined.

Module SmallSets.

Import TimeStampSetV2 SetSpec SetLaws.

Section WithNumerics.
Context `{Numerics}.

(** With fewer than twelve timestamps no pattern of a set is valid. *)
Lemma no_pattern_valid s :
  reachable s -> len (timestamps s) < 12 -> _patterns s = [].
Proof.
  intros R Hn.
  destruct (IndexFacts.reachable_bookkeeping s R) as (_ & _ & _ & _ & L).
  destruct (SetFacts.reachable_invariant s R) as [C _].
  unfold _patterns.
  assert (T : forall l : list ref,
             (forall r, In r l -> In r all_patterns) ->
             filter (fun r : ref => ModuloPattern.is_valid (fst r s)) l = []).
  { induction l as [|r l IH]; intros Hsub; [reflexivity|].
    cbn [filter].
    destruct (SetFacts.configured_dimension s r C (Hsub r (or_introl eq_refl)))
      as (_ & _ & Hm).
    specialize (L r (Hsub r (or_introl eq_refl))).
    assert (V : ModuloPattern.is_valid (fst r s) = false).
    { unfold ModuloPattern.is_valid. apply andb_false_iff. right.
      apply Z.leb_gt. lia. }
    rewrite V. apply IH. intros r0 H0. apply Hsub. right. exact H0. }
  apply T. auto.
Qed.

End WithNumerics.
End SmallSets.

(** X26.  A set that has been given fewer than twelve timestamps has no
    valid pattern: [_patterns] is empty, so [vectors], [kdes],
    [consecutive] and [fractions] return empty dicts (and change
    nothing). *)
Theorem small_set_has_no_patterns `{Numerics} (s : TimeStampSetV2.t)
    (dim min_length : Z) :
  SetSpec.reachable s ->
  len (TimeStampSetV2.timestamps s) < 12 ->
  TimeStampSetV2._patterns s = []
  /\ TimeStampSetV2.vectors s = (inr [], s)
  /\ TimeStampSetV2.kdes dim s = (inr [], s)
  /\ TimeStampSetV2.consecutive s min_length = []
  /\ TimeStampSetV2.fractions s = [].
Proof.
  intros R Hn. pose proof (SmallSets.no_pattern_valid s R Hn) as E.
  split; [exact E|].
  unfold TimeStampSetV2.vectors, TimeStampSetV2.kdes,
    TimeStampSetV2.consecutive, TimeStampSetV2.fractions.
  rewrite !bind_get, E. repeat split.
Qed.

Lemma small_set_has_no_patterns_witness :
  TimeStampSetV2._patterns Examples.few = [].
Proof.
  apply (@small_set_has_no_patterns Examples.flat Examples.few 1000 2).
  - exact few_reachable.
  - reflexivity.
Defined.

(** X27.  Two sets that have each been given fewer than twelve timestamps
    are not similar: neither has a valid pattern, so [similarity] returns
    [(0, 0)] whichever is asked, and leaves both as they were. *)
Theorem small_set_is_similar_to_nothing `{Numerics} (a b : TimeStampSetV2.t) :
  SetSpec.reachable a -> SetSpec.reachable b ->
  len (TimeStampSetV2.timestamps a) < 12 ->
  len (TimeStampSetV2.timestamps b) < 12 ->
  TimeStampSetV2.similarity (a, b) = (inr (0%Q, 0), (a, b))
  /\ TimeStampSetV2.similarity (b, a) = (inr (0%Q, 0), (b, a)).
Proof.
  intros Ra Rb Ha Hb.
  pose proof (SmallSets.no_pattern_valid a Ra Ha) as Ea.
  pose proof (SmallSets.no_pattern_valid b Rb Hb) as Eb.
  pose proof (SetFacts.reachable_invariant a Ra) as Ia.
  pose proof (SetFacts.reachable_invariant b Rb) as Ib.
  split.
  - rewrite (SimilarityRuns.similarity_run a b Ia Ib), Ea, Eb. reflexivity.
  - rewrite (SimilarityRuns.similarity_run b a Ib Ia), Ea, Eb. reflexivity.
Qed.

Lemma small_set_is_similar_to_nothing_witness :
  @TimeStampSetV2.similarity Examples.flat (Examples.few, SetSpec.initial)
  = (inr (0%Q, 0), (Examples.few, SetSpec.initial)).
Proof.
  apply (@small_set_is_similar_to_nothing Examples.flat
           Examples.few SetSpec.initial).
  - exact few_reachable.
  - apply SetSpec.reach_new. reflexivity.
  - reflexivity.
  - reflexivity.
Defined.

Module BatchFacts.

Import TimeStampSetV2 SetSpec SetLaws.

(** One turn of the loop of [add] on a timestamp before year 9999. *)
Lemma add1_in_range timestamp s :
  in_range timestamp ->
  exists s',
    add1 timestamp s = (inr tt, s')
    /\ timestamps s'
       = timestamps s ++ [datetime.replace_tzinfo datetime.utc timestamp]
    /\ patterns s' = route (patterns s) timestamp.
Proof.
  intros R. destruct (Routing.in_range_phases timestamp R) as [m [y [Em Ey]]].
  unfold route, phase_values, phases, add1,
    timestamp_hour_of_day_of_week_of_month.
  cbv zeta.
  set (ts := datetime.replace_tzinfo datetime.utc timestamp) in *.
  destruct (Routing.n_month_defined ts m 1 Em) as [v1 E1].
  destruct (Routing.n_month_defined ts m 2 Em) as [v2 E2].
  destruct (Routing.n_month_defined ts m 3 Em) as [v3 E3].
  destruct (Routing.n_month_defined ts m 6 Em) as [v6 E6].
  destruct (Routing.n_year_defined ts y 1 Ey) as [w1 F1].
  destruct (Routing.n_year_defined ts y 2 Ey) as [w2 F2].
  rewrite E1, E2, E3, E6, F1, F2.
  Routing.run_add1.
  eexists. split; [reflexivity|]. split; reflexivity.
Qed.

End BatchFacts.



(** X29.  [likelihood] of a batch that mixes naive and aware timestamps
    raises [TypeError] (from [sorted]) before it has touched anything:
    the set is left as it was. *)
Theorem likelihood_rejects_mixed_batch `{Numerics} (batch : list datetime.t)
    (s : TimeStampSetV2.t) :
  SetLaws.mixed batch ->
  TimeStampSetV2.likelihood batch s = (inl (TypeError []), s).
Proof.
  intros [[a [Ha Aa]] [b [Hb Ab]]].
  unfold TimeStampSetV2.likelihood, datetime.sorted_datetimes.
  assert (L : (len batch <=? 1) = false).
  { apply Z.leb_gt. unfold len.
    destruct batch as [|x [|y l]]; [contradiction| |simpl; lia].
    destruct Ha as [Ha|[]], Hb as [Hb|[]]. subst. congruence. }
  assert (F1 : forallb datetime.is_aware batch = false).
  { destruct (forallb datetime.is_aware batch) eqn:B; [|reflexivity].
    rewrite forallb_forall in B. rewrite (B b Hb) in Ab. discriminate. }
  assert (F2 : forallb (fun d => negb (datetime.is_aware d)) batch = false).
  { destruct (forallb (fun d => negb (datetime.is_aware d)) batch) eqn:B;
      [|reflexivity].
    rewrite forallb_forall in B. specialize (B a Ha). rewrite Aa in B.
    discriminate. }
  rewrite L, F1, F2. reflexivity.
Qed.

Lemma likelihood_rejects_mixed_batch_witness :
  @TimeStampSetV2.likelihood Examples.flat
    [Examples.noon_utc; Examples.noon_naive] Examples.trained
  = (inl (TypeError []), Examples.trained).
Proof.
  apply (@likelihood_rejects_mixed_batch Examples.flat).
  split.
  - exists Examples.noon_utc. split; [left; reflexivity|reflexivity].
  - exists Examples.noon_naive. split; [right; left; reflexivity|reflexivity].
Defined.

(** X30.  [fractions] and [consecutive] report by pattern name: under the
    name of each of the nine patterns, the sorted remainders and the runs
    of that pattern if it is valid, and no entry if it is not. *)
Theorem reports_go_by_name `{Numerics} (s : TimeStampSetV2.t)
    (r : TimeStampSetV2.ref) (min_length : Z) :
  SetSpec.reachable s -> In r TimeStampSetV2.all_patterns ->
  dict_get String.eqb (ModuloPattern.name (fst r s)) (TimeStampSetV2.fractions s)
  = (if ModuloPattern.is_valid (fst r s)
     then Some (sorted Float.ltb (ModuloPattern.remainders (fst r s)))
     else None)
  /\ dict_get String.eqb (ModuloPattern.name (fst r s))
       (TimeStampSetV2.consecutive s min_length)
     = (if ModuloPattern.is_valid (fst r s)
        then Some (ModuloPattern.consecutive (fst r s) min_length)
        else None).
Proof.
  intros R Hr. destruct (SetFacts.reachable_invariant s R) as [C _].
  assert (N : NoDup (map (fun x : TimeStampSetV2.ref =>
                            ModuloPattern.name (fst x s))
                         TimeStampSetV2.all_patterns)).
  { rewrite (map_ext_in _ (fun x : TimeStampSetV2.ref =>
                             ModuloPattern.name (fst x SetSpec.initial))).
    - exact SimilarityFacts.names_distinct.
    - intros x Hx. apply SimilarityFacts.name_at; assumption. }
  unfold TimeStampSetV2.fractions, TimeStampSetV2.consecutive,
    TimeStampSetV2._patterns.
  split.
  - rewrite (SimilarityFacts.fold_dict_set
               (fun x : TimeStampSetV2.ref => ModuloPattern.name (fst x s))
               (fun x : TimeStampSetV2.ref =>
                  sorted Float.ltb (ModuloPattern.remainders (fst x s))))
      by (apply SimilarityFacts.NoDup_map_filter; exact N).
    apply (SimilarityFacts.dict_get_present
             (fun x : TimeStampSetV2.ref => ModuloPattern.name (fst x s))
             (fun x : TimeStampSetV2.ref =>
                sorted Float.ltb (ModuloPattern.remainders (fst x s))));
      assumption.
  - rewrite (SimilarityFacts.fold_dict_set
               (fun x : TimeStampSetV2.ref => ModuloPattern.name (fst x s))
               (fun x : TimeStampSetV2.ref =>
                  ModuloPattern.consecutive (fst x s) min_length))
      by (apply SimilarityFacts.NoDup_map_filter; exact N).
    apply (SimilarityFacts.dict_get_present
             (fun x : TimeStampSetV2.ref => ModuloPattern.name (fst x s))
             (fun x : TimeStampSetV2.ref =>
                ModuloPattern.consecutive (fst x s) min_length));
      assumption.
Qed.

Lemma reports_go_by_name_witness :
  dict_get String.eqb
    (ModuloPattern.name (fst TimeStampSetV2.day_ Examples.trained))
    (TimeStampSetV2.fractions Examples.trained)
  = (if ModuloPattern.is_valid (fst TimeStampSetV2.day_ Examples.trained)
     then Some (sorted Float.ltb
                  (ModuloPattern.remainders
                     (fst TimeStampSetV2.day_ Examples.trained)))
     else None).
Proof.
  apply (@reports_go_by_name Examples.flat Examples.trained
           TimeStampSetV2.day_ 2).
  - exact trained_reachable.
  - left. reflexivity.
Defined.
